(* ===== verification/_CoqProject ===== *)
-Q . S2P
Prelude.v
Numeric.v
PoseTable.v
Scorer.v
Quantile.v
ScorerSpec.v
Geometry.v
Landmarks.v
LiveScoring.v
Script.v
Json.v
Server.v
SessionSpec.v
Interleaving.v
