(* ===== verification/Prelude.v ===== *)
(** * Verification of the physio-game pose scorer: prelude and overview

    ** The program

    The program (two Python files) is a webcam exercise game.  A Flask
    server ([src/backend.py]) pulls frames from the camera, has MediaPipe
    find the body landmarks, turns them into joint angles
    ([calculate_angle]), grades the angles against a table of reference
    poses ([POSE_TARGETS], [calculate_pose_score]) and keeps three global
    variables ([score], [scoring_effect], [current_pose_val]) that three
    HTTP handlers read and write.  A stand-alone script ([src/cv.py])
    computes the angles of still images; the reference table was
    produced with it.

    The data flows one way: camera read -> detection (twelve landmarks)
    -> eight joint angles -> grade 1..4 -> [scoring_effect]; the browser
    reads the grade ([/get_scoring_effect]), reports it back
    ([/update_score], which adds -50, +10, +30 or +50 to [score]) and
    selects the target pose ([/update_current_pose]).

    ** Files of the development, in dependency order

    - [Prelude] (this file): the notation scope [py_scope], the tactics
      [vm_refl] and [case_if], the hint database [py], and the lemmas on
      counting ([count_if], Python's [sum(1 for x in l if p(x))]) and on
      the test [count >= total * 0.75] that the components share.
    - [Numeric]: the numbers.  The class [Number] holds the operations
      the scorer applies to floats; [RealNumber] says they denote the
      operations of the reals.  Instances: [Q] (every definition
      computes on it) and [R] (what [calculate_angle] returns).  The
      equivalence [num_equiv] (same real) with its [Proper] instances.
    - [PoseTable]: [POSE_TARGETS] (backend.py, lines 44-85), the four
      rows with the decimal literals of the source, and its
      well-formedness [POSE_TARGETS_wf]: every row lists the eight
      joints once, with angles in [0, 180].
    - [Scorer]: [calculate_pose_score] (backend.py, lines 87-134), cut
      where the source has its blank lines: [differences] (the loop),
      [avg_difference] (computed, never used), [angles_within] (the
      three counts), [at_least_three_quarters] (the comparison),
      [score_differences] (from the emptiness test on).  Theorems: the
      grade is in 1..4; the two fail-closed cases return 1; with all
      eight joints the tests are [count >= 6]; a population in one band
      gets the grade of the band; the grade is monotone in the
      differences and depends only on the real values of the joints.
    - [Quantile]: the reference that reads the coverage rule as an
      order statistic ([rank], [quantile], [band]) and the theorem that
      the score is the band of the quantile.
    - [ScorerSpec]: the classification stated on finite maps of reals
      ([population], [coverage], [classify], [spec_score]), with no order of
      iteration and no number representation, and the refinement
      theorem [calculate_pose_score_refines].
    - [Geometry]: [calculate_angle] (backend.py, lines 22-42; cv.py,
      lines 6-18, the same text) over the reals, with [arctan2] defined
      from [atan] and [PI].  Theorems: the result is in [0, 180], is
      symmetric in the end points, invariant under translation and
      under stretching of the segments, and equals the arc cosine of
      the normalised dot product when the end points differ from the
      vertex ([calculate_angle_reference]); the value in the degenerate
      case.
    - [Landmarks]: the part of [gen_frames] that builds
      [current_angles] (backend.py, the points of lines 171-200, the
      angles of 203-212 and the dict of 251-260) as [live_angles], and
      [analyze_pose] of cv.py (lines 20-100) with its two dict literals
      [joints] and [analyze_angles].  The angle function is the
      interface [AngleCalculator] with the laws [AngleCalculatorLaws];
      [Geometry.calculate_angle] is shown to provide them.  Theorems:
      the live dict has its shoulder entries equal to its elbow entries
      and its hip entries equal to its knee entries; it is the
      still-image dict of the mirrored detection with those
      replacements; [analyze_pose] returns a dict exactly when the
      image is read and a pose detected.
    - [LiveScoring]: the live dict as a function of the four angles it
      is built from ([four_angles]) and what the table makes of it: the
      grade of a person who holds the target pose ([live_score_held]:
      great, okay, perfect, perfect for the poses 0..3) and the bound
      of six joints within 35 degrees in Tree and Warrior 2.
    - [Script]: [main] of cv.py (lines 102-127): the extension test
      [is_image], the loop over the listing and the report of each
      file; [image_name], which says which names are meant without
      lower-casing or a suffix test.  Theorems: the test accepts
      exactly the image names ([is_image_spec]); [main] reports them
      in the order of the listing, each under its path in the folder
      ([main_reports]).
    - [Json]: the values [request.get_json()] returns and the Python
      operations the handlers apply to them ([dict.get], [==],
      [isinstance], chained [<=], [int]), with Python's coercions
      ([True == 1], [2.0 == 2]) and errors.
    - [Server]: the three globals as the record [State] (backend.py,
      lines 18-20), the handlers [update_current_pose] (281-293),
      [get_scoring_effect] (295-298) and [update_score] (300-315), the
      loop body [process_frame] and the generator [gen_frames]
      (136-271), and the transition system [handle] / [run] /
      [reachable] over events.  Theorems: each handler on every branch;
      the invariant [State_wf] (the current pose is a pose of the
      table) in every reachable state; the score after a run is the sum
      of the rewards of the reports; a frame is graded against the
      selected pose over all eight joints; the generator is left at
      the first failed read and what it leaves in the globals is the
      grade of the last frame with a detection
      ([gen_frames_last_detection]).
    - [SessionSpec]: the session of the specification (target pose,
      last grade, cumulative score; the reducer [accumulate]) as a
      machine of its own, the reading of the server's state and events
      as session states and actions ([abs_state], [abs_event]), and the
      simulation [run_refines]; the ordering guarantee
      [frame_grade_last_selected].
    - [Interleaving]: the same handlers and loop body as threads whose
      steps are single accesses to the globals ([Pc], [thread_step]),
      interleaved by [step].  Theorems: a thread that runs alone is the
      atomic step of [Server]; the invariant [State_wf] holds under
      every interleaving, and the score stays within 50 points for
      every score report received ([reachable_score_bounded]); two
      races, the lost update of [score] and the frame that replaces a
      reported grade.

    ** How the theorems fit together

    [Geometry] gives the angle function its meaning and discharges the
    interface [AngleCalculatorLaws] that [Landmarks] asks for.
    [Landmarks] produces the dict that [Scorer] grades.  [ScorerSpec]
    says the grade is the specified one.  [Server] puts the scorer in
    the frame loop and the rewards in [update_score]; [SessionSpec]
    says that runs of it are runs of the specified session, under the
    assumption, made explicit in [Interleaving], that handlers do not
    overlap.  When they do overlap the accounting of the score is lost
    ([lost_update], [frame_overrides_report]); what remains is the
    range of the pose and the bound on the score.

    ** Modelling conventions

    - Python floats are modelled by exact numbers: rationals where the
      model computes, reals where it calls [arctan2].  No rounding is
      modelled, so a difference that lands exactly on a threshold in the
      model may land on either side of it in IEEE arithmetic; signed
      zeros and non-finite angles do not exist in the model.
    - Python ints are [Z] (unbounded, as in Python) and lengths are [nat].
    - A Python dict with string keys is a [gmap string _]; a dict that the
      code iterates is an association list in insertion order.
    - A Python exception is a value: [None] or the right injection of a
      sum, turned into the response Flask sends.
    - In [Server] the steps are whole handler calls and whole loop
      iterations.  In [Interleaving] a step is one access to a global;
      a thread switch is possible between any two of them, which
      Python allows and the source does nothing to prevent.
    - Fuel appears once: [run_thread] in [Interleaving] runs a thread
      for a number of accesses, and nine are enough for every thread
      ([run_thread_alone]).  Every other loop of the program runs over
      a finite list (the rows of the table, the reads of the camera,
      the events of a run) and is a structural recursion over it.
    - [gen_frames] is a generator: it runs only while its consumer asks
      for frames.  It is run over the results of the reads the camera
      made in that time and returns, with the state and the number of
      frames yielded, whether the loop was left by [break]: reads that
      end with no failure leave the generator suspended at a [yield],
      not stopped.  A camera that never fails gives a generator that
      never stops.
    - [flip] is the effect of [cv2.flip(frame, 1)] on a landmark of the
      detection, [x] becoming [w - x]; the pixel operation itself is
      not modelled.

    ** What is not modelled

    MediaPipe, OpenCV and Flask themselves: detections, decoded
    requests and camera reads are inputs.  Drawing on the frame, JPEG
    encoding and the multipart stream; the routes [index] and
    [video_feed] (templates and streaming); the listing of the folder
    and the format of the lines [main] of cv.py prints. *)

From Stdlib Require Import ZArith QArith Psatz.
From stdpp Require Import base tactics list.

Declare Scope py_scope.
Delimit Scope py_scope with py.

Create HintDb py discriminated.
Create Rewrite HintDb py.

(** ** Counting

    [count_if p l] is Python's [sum(1 for x in l if p(x))]. *)
Fixpoint count_if {A : Type} (p : A -> bool) (l : list A) : nat :=
  match l with
  | [] => 0
  | x :: l' => (if p x then 1 else 0) + count_if p l'
  end.

Section Counting.
Context {A : Type}.
Implicit Types (p q : A -> bool) (l : list A).

Lemma count_if_le_length p l : count_if p l <= length l.
Proof. induction l as [|x l IH]; simpl; [lia | destruct (p x); lia]. Qed.

Lemma count_if_app p l1 l2 : count_if p (l1 ++ l2) = count_if p l1 + count_if p l2.
Proof. induction l1 as [|x l1 IH]; simpl; [done | rewrite IH; lia]. Qed.

Lemma count_if_filter p l : count_if p l = length (List.filter p l).
Proof. induction l as [|x l IH]; simpl; [done | destruct (p x); simpl; lia]. Qed.

Lemma count_if_all p l : Forall (fun x => p x = true) l -> count_if p l = length l.
Proof. induction 1 as [|x l Hx _ IH]; simpl; [done | rewrite Hx, IH; lia]. Qed.

Lemma count_if_none p l : Forall (fun x => p x = false) l -> count_if p l = 0.
Proof. induction 1 as [|x l Hx _ IH]; simpl; [done | rewrite Hx, IH; lia]. Qed.

Lemma count_if_fmap {B : Type} (f : B -> A) p (l : list B) :
  count_if p (f <$> l) = count_if (fun x => p (f x)) l.
Proof. induction l as [|x l IH]; [done|]. rewrite fmap_cons. simpl. by rewrite IH. Qed.

(** Replacing an element moves the count by what the two elements
    count for. *)
Lemma count_if_insert p l i x y :
  l !! i = Some x ->
  count_if p (<[i := y]> l) + (if p x then 1 else 0) =
    count_if p l + (if p y then 1 else 0).
Proof.
revert i. induction l as [|z l IH]; intros [|i] Hi; try done; simpl in *.
- injection Hi as ->. lia.
- specialize (IH i Hi). lia.
Qed.

Lemma count_if_Permutation p l l' : l ≡ₚ l' -> count_if p l = count_if p l'.
Proof. induction 1; simpl; lia. Qed.

(** Counting is monotone along a pointwise relation of two lists: when
    [q y] implies [p x] for elements in the same position, [q] counts at
    most what [p] counts.  With [l' = l] this is monotonicity in the
    predicate. *)
Lemma count_if_Forall2 {B : Type} p (q : B -> bool) l (l' : list B) :
  Forall2 (fun x y => q y = true -> p x = true) l l' ->
  count_if q l' <= count_if p l.
Proof.
induction 1 as [|x y l l' Hxy _ IH]; simpl; [done|].
destruct (q y); [rewrite Hxy by done|]; destruct (p x); lia.
Qed.

Lemma count_if_mono p q l :
  (forall x, x ∈ l -> p x = true -> q x = true) -> count_if p l <= count_if q l.
Proof.
intros Hpq. apply count_if_Forall2, Forall2_same_length_lookup_2; [done|].
intros i x y Hx Hy. assert (x = y) as -> by congruence.
apply Hpq. by eapply list_elem_of_lookup_2.
Qed.

Lemma count_if_ext p q l :
  (forall x, x ∈ l -> p x = q x) -> count_if p l = count_if q l.
Proof.
intros E. apply Nat.le_antisymm; apply count_if_mono; intros x Hx; rewrite (E x Hx); done.
Qed.

End Counting.

#[export] Hint Resolve count_if_le_length : py.

(** ** Three quarters of a count

    The scorer compares an integer count with [total * 0.75], a float.
    Both sides are exactly representable, so the comparison is one of
    rationals; it is the integer inequality [3 * total <= 4 * count]. *)
Lemma Qle_bool_three_quarters (total count : Z) :
  Qle_bool (inject_Z total * 0.75) (inject_Z count) = true <-> (3 * total <= 4 * count)%Z.
Proof. rewrite Qle_bool_iff. unfold Qle. simpl. lia. Qed.

(** ** Tactics *)

(** [vm_refl] proves [l = r] when the virtual machine evaluates both
    sides to the same value, without building the values in the goal:
    lookups in closed dicts with string keys are checked this way. *)
Ltac vm_refl :=
  lazymatch goal with
  | |- _ = ?r => vm_cast_no_check (@eq_refl _ r)
  end.

(** [case_if] splits on the first [if] of the goal, keeping the test as
    an equation. *)
Ltac case_if :=
  match goal with
  | |- context [if ?b then _ else _] => destruct b eqn:?
  end.
