(* ===== verification/Numeric.v ===== *)
(** * Numeric: the numbers the program computes with

    The angle values of the program are Python floats.  The scorer only
    uses a handful of operations on them: the literals of the source
    ([35], [104.5], ...), [+], [-], [/], [abs] and [<=].  [Number A]
    packs these operations; [RealNumber A] says that they are the
    operations of the real numbers, through a denotation [to_R].

    Two instances are given: [Q], on which every definition of the
    development computes, and [R], the type [calculate_angle] returns in
    the model.  Lemmas on the scorer are proved once, for any
    [RealNumber], so they hold of both. *)

From Stdlib Require Import ZArith QArith Qabs Qreals Reals Psatz.
From stdpp Require Import base tactics decidable.
From S2P Require Import Prelude.

(** ** The operations *)

Class Number (A : Type) : Type := {
  of_Q : Q -> A;
  num_add : A -> A -> A;
  num_sub : A -> A -> A;
  num_div : A -> A -> A;
  num_abs : A -> A;
  num_leb : A -> A -> bool;
}.

Notation "x + y" := (num_add x y) : py_scope.
Notation "x - y" := (num_sub x y) : py_scope.
Notation "x / y" := (num_div x y) : py_scope.
Notation "x <=? y" := (num_leb x y) : py_scope.

(** ** The laws: the operations denote those of the reals *)

Class RealNumber (A : Type) `{Number A} : Type := {
  to_R : A -> R;
  to_R_of_Q q : to_R (of_Q q) = Q2R q;
  to_R_add x y : to_R (num_add x y) = (to_R x + to_R y)%R;
  to_R_sub x y : to_R (num_sub x y) = (to_R x - to_R y)%R;
  to_R_div x y : to_R y <> 0%R -> to_R (num_div x y) = (to_R x / to_R y)%R;
  to_R_abs x : to_R (num_abs x) = Rabs (to_R x);
  num_leb_le x y : num_leb x y = true <-> (to_R x <= to_R y)%R;
}.

#[export] Hint Rewrite @to_R_of_Q @to_R_add @to_R_sub @to_R_abs : py.

(** ** Rationals *)

(** An integer literal of the source, as a rational and as a real. *)
Lemma Q2R_literal (n : Z) : Q2R (inject_Z n) = IZR n.
Proof. unfold Q2R; simpl. field. Qed.

Lemma Q2R_Qabs (q : Q) : Q2R (Qabs q) = Rabs (Q2R q).
Proof.
apply Qabs_case; intros Hq.
- apply Qle_Rle in Hq. rewrite RMicromega.Q2R_0 in Hq. now rewrite Rabs_pos_eq.
- apply Qle_Rle in Hq. rewrite RMicromega.Q2R_0 in Hq.
  rewrite Q2R_opp, Rabs_left1; auto.
Qed.

Lemma Qle_bool_Q2R (x y : Q) : Qle_bool x y = true <-> (Q2R x <= Q2R y)%R.
Proof.
rewrite Qle_bool_iff. split; [apply Qle_Rle | apply Rle_Qle].
Qed.

Lemma Q2R_Qdiv (x y : Q) : Q2R y <> 0%R -> Q2R (x / y) = (Q2R x / Q2R y)%R.
Proof.
intros Hy. apply Q2R_div. intros E. apply Hy.
rewrite (Qeq_eqR _ _ E). apply RMicromega.Q2R_0.
Qed.

#[export] Instance Q_Number : Number Q := {|
  of_Q := fun q => q;
  num_add := Qplus;
  num_sub := Qminus;
  num_div := Qdiv;
  num_abs := Qabs;
  num_leb := Qle_bool;
|}.

#[export] Instance Q_RealNumber : RealNumber Q := {|
  to_R := Q2R;
  to_R_of_Q := fun _ => eq_refl;
  to_R_add := Q2R_plus;
  to_R_sub := Q2R_minus;
  to_R_div := Q2R_Qdiv;
  to_R_abs := Q2R_Qabs;
  num_leb_le := Qle_bool_Q2R;
|}.

(** ** Reals *)

#[export] Instance Rle_Decision (x y : R) : Decision (x <= y)%R := Rle_dec x y.

#[export] Instance R_Number : Number R := {|
  of_Q := Q2R;
  num_add := Rplus;
  num_sub := Rminus;
  num_div := Rdiv;
  num_abs := Rabs;
  num_leb := fun x y => bool_decide (x <= y)%R;
|}.

#[export] Instance R_RealNumber : RealNumber R := {|
  to_R := fun x => x;
  to_R_of_Q := fun _ => eq_refl;
  to_R_add := fun _ _ => eq_refl;
  to_R_sub := fun _ _ => eq_refl;
  to_R_div := fun _ _ _ => eq_refl;
  to_R_abs := fun _ => eq_refl;
  num_leb_le := fun x y => bool_decide_eq_true (x <= y)%R;
|}.

(** ** Consequences of the laws *)

Section RealNumberFacts.
Context {A : Type} `{RealNumber A}.
Implicit Types (x y z : A) (p q : Q).

(** Two numbers are equivalent when they denote the same real.  On [Q]
    this is [Qeq], which is coarser than equality: [1/2] and [2/4]. *)
#[export] Instance num_equiv : Equiv A := fun x y => to_R x = to_R y.

#[export] Instance num_equivalence : Equivalence (≡@{A}).
Proof.
split; unfold equiv, num_equiv; [intros ? | intros ? ? | intros ? ? ?]; congruence.
Qed.

#[export] Instance to_R_proper : Proper ((≡) ==> (=)) (to_R (A:=A)).
Proof. now intros x y E. Qed.

#[export] Instance num_sub_proper : Proper ((≡) ==> (≡) ==> (≡)) (num_sub (A:=A)).
Proof.
intros x x' Ex y y' Ey. unfold equiv, num_equiv in *.
rewrite !to_R_sub. congruence.
Qed.

#[export] Instance num_add_proper : Proper ((≡) ==> (≡) ==> (≡)) (num_add (A:=A)).
Proof.
intros x x' Ex y y' Ey. unfold equiv, num_equiv in *.
rewrite !to_R_add. congruence.
Qed.

#[export] Instance num_abs_proper : Proper ((≡) ==> (≡)) (num_abs (A:=A)).
Proof.
intros x x' Ex. unfold equiv, num_equiv in *. rewrite !to_R_abs. congruence.
Qed.

Lemma num_leb_gt x y : num_leb x y = false <-> (to_R y < to_R x)%R.
Proof.
rewrite <- not_true_iff_false, num_leb_le.
split; [apply Rnot_le_lt | apply Rlt_not_le].
Qed.

#[export] Instance num_leb_proper : Proper ((≡) ==> (≡) ==> (=)) (num_leb (A:=A)).
Proof.
intros x x' Ex y y' Ey. unfold equiv, num_equiv in *.
destruct (num_leb x' y') eqn:E.
- apply num_leb_le. apply num_leb_le in E. lra.
- apply num_leb_gt. apply num_leb_gt in E. lra.
Qed.

Lemma num_leb_of_Q p q : num_leb (of_Q p : A) (of_Q q) = Qle_bool p q.
Proof.
destruct (Qle_bool p q) eqn:E.
- apply num_leb_le. rewrite !to_R_of_Q. now apply Qle_bool_Q2R.
- apply num_leb_gt. rewrite !to_R_of_Q.
  apply Rnot_le_lt. intros Hle. apply Qle_bool_Q2R in Hle. congruence.
Qed.

Lemma num_leb_trans x y z :
  (to_R x <= to_R y)%R -> num_leb y z = true -> num_leb x z = true.
Proof.
rewrite !num_leb_le. lra.
Qed.

(** The test against a threshold of the source. *)
Lemma num_leb_threshold x q : num_leb x (of_Q q) = true <-> (to_R x <= Q2R q)%R.
Proof. by rewrite num_leb_le, to_R_of_Q. Qed.

Lemma num_leb_threshold_false x q : num_leb x (of_Q q) = false <-> (Q2R q < to_R x)%R.
Proof. by rewrite num_leb_gt, to_R_of_Q. Qed.

(** [abs(x - t)], the difference the scorer computes for one joint. *)
Lemma to_R_abs_sub x y : to_R (num_abs (num_sub x y)) = Rabs (to_R x - to_R y).
Proof. now rewrite to_R_abs, to_R_sub. Qed.

Lemma to_R_difference x q :
  to_R (num_abs (num_sub x (of_Q q))) = Rabs (to_R x - Q2R q).
Proof. by rewrite to_R_abs_sub, to_R_of_Q. Qed.

Lemma num_abs_sub_self x : to_R (num_abs (num_sub x x)) = 0%R.
Proof. rewrite to_R_abs_sub, Rminus_diag. apply Rabs_R0. Qed.

Lemma num_abs_nonneg x : (0 <= to_R (num_abs x))%R.
Proof. rewrite to_R_abs. apply Rabs_pos. Qed.

(** The literals of the source embed the rationals: computing on
    literals in [A] is computing in [Q]. *)
Lemma of_Q_sub p q : num_sub (of_Q p) (of_Q q) ≡@{A} of_Q (p - q)%Q.
Proof.
unfold equiv, num_equiv. now rewrite to_R_sub, !to_R_of_Q, Q2R_minus.
Qed.

Lemma of_Q_abs q : num_abs (of_Q q) ≡@{A} of_Q (Qabs q).
Proof.
unfold equiv, num_equiv. now rewrite to_R_abs, !to_R_of_Q, Q2R_Qabs.
Qed.

Lemma of_Q_proper_Qeq p q : (p == q)%Q -> of_Q p ≡@{A} of_Q q.
Proof.
intros E. unfold equiv, num_equiv. rewrite !to_R_of_Q. now apply Qeq_eqR.
Qed.

End RealNumberFacts.

#[export] Hint Rewrite @to_R_difference @to_R_abs_sub @num_abs_sub_self : py.
#[export] Hint Resolve num_abs_nonneg : py.
