(* ===== verification/PoseTable.v ===== *)
(** * PoseTable: the reference poses

    [POSE_TARGETS] of [src/backend.py]: a dict from the pose identifiers
    0..3 to a dict from the eight joint names to a target angle in
    degrees.  The outer dict is only looked up, so it is a [gmap Z]; the
    inner dicts are only iterated ([.items()]), so each is an association
    list in the order of the literal.  The angles are the decimal
    literals of the source, as rationals. *)

From Stdlib Require Import ZArith QArith.
From stdpp Require Import gmap strings list.
From S2P Require Import Prelude.

#[local] Open Scope string_scope.

(** The joint names, in the order every row of the table lists them. *)
Definition JOINTS : list string :=
  ["left_shoulder"; "left_elbow"; "right_shoulder"; "right_elbow";
   "left_hip"; "left_knee"; "right_hip"; "right_knee"].

Definition DOWNWARD_DOG : list (string * Q) :=
  [("left_shoulder", 104.5%Q); ("left_elbow", 112.4%Q);
   ("right_shoulder", 117.8%Q); ("right_elbow", 162.7%Q);
   ("left_hip", 102.3%Q); ("left_knee", 164.1%Q);
   ("right_hip", 29.3%Q); ("right_knee", 163.6%Q)].

Definition TREE_POSE : list (string * Q) :=
  [("left_shoulder", 99.5%Q); ("left_elbow", 171.9%Q);
   ("right_shoulder", 87.9%Q); ("right_elbow", 179.4%Q);
   ("left_hip", 167.1%Q); ("left_knee", 167.7%Q);
   ("right_hip", 114.2%Q); ("right_knee", 57.3%Q)].

Definition WARRIOR_1 : list (string * Q) :=
  [("left_shoulder", 140.1%Q); ("left_elbow", 169.6%Q);
   ("right_shoulder", 151.3%Q); ("right_elbow", 178.7%Q);
   ("left_hip", 146.7%Q); ("left_knee", 115.2%Q);
   ("right_hip", 107.0%Q); ("right_knee", 52.9%Q)].

Definition WARRIOR_2 : list (string * Q) :=
  [("left_shoulder", 71.4%Q); ("left_elbow", 177.3%Q);
   ("right_shoulder", 104.4%Q); ("right_elbow", 176.5%Q);
   ("left_hip", 148.8%Q); ("left_knee", 166.5%Q);
   ("right_hip", 125.5%Q); ("right_knee", 138.4%Q)].

Definition POSE_TARGETS : gmap Z (list (string * Q)) :=
  {[ 0%Z := DOWNWARD_DOG; 1%Z := TREE_POSE; 2%Z := WARRIOR_1; 3%Z := WARRIOR_2 ]}.

(** A row is well formed when it lists exactly the eight joints, in the
    order of [JOINTS], with angles a [calculate_angle] can return. *)
Definition row_wf (row : list (string * Q)) : Prop :=
  row.*1 = JOINTS /\ Forall (fun a => (0 <= a <= 180)%Q) row.*2.

(** ** Lookup *)

Lemma POSE_TARGETS_lookup (k : Z) :
  POSE_TARGETS !! k =
    if decide (k = 0%Z) then Some DOWNWARD_DOG
    else if decide (k = 1%Z) then Some TREE_POSE
    else if decide (k = 2%Z) then Some WARRIOR_1
    else if decide (k = 3%Z) then Some WARRIOR_2
    else None.
Proof.
unfold POSE_TARGETS. repeat case_decide; simplify_map_eq; done.
Qed.

Lemma POSE_TARGETS_Some (k : Z) (row : list (string * Q)) :
  POSE_TARGETS !! k = Some row ->
  (0 <= k <= 3)%Z /\ row ∈ [DOWNWARD_DOG; TREE_POSE; WARRIOR_1; WARRIOR_2].
Proof.
rewrite POSE_TARGETS_lookup. repeat case_decide; intros; simplify_eq; (split; [lia | set_solver]).
Qed.

Lemma POSE_TARGETS_None (k : Z) :
  POSE_TARGETS !! k = None <-> ~ (0 <= k <= 3)%Z.
Proof.
rewrite POSE_TARGETS_lookup. repeat case_decide; split; (done || lia).
Qed.

Lemma POSE_TARGETS_is_Some (k : Z) :
  is_Some (POSE_TARGETS !! k) <-> (0 <= k <= 3)%Z.
Proof.
rewrite <- not_eq_None_Some, POSE_TARGETS_None.
destruct (decide (0 <= k <= 3)%Z); tauto.
Qed.

Lemma JOINTS_NoDup : NoDup JOINTS.
Proof. apply (bool_decide_unpack _). by vm_compute. Qed.

Lemma row_wf_table (row : list (string * Q)) :
  row ∈ [DOWNWARD_DOG; TREE_POSE; WARRIOR_1; WARRIOR_2] -> row_wf row.
Proof.
rewrite !elem_of_cons, elem_of_nil.
intros [-> | [-> | [-> | [-> | []]]]]; (split; [done|]);
  repeat constructor; by vm_compute.
Qed.

(** Every pose of the table is well formed. *)
Theorem POSE_TARGETS_wf (k : Z) (row : list (string * Q)) :
  POSE_TARGETS !! k = Some row -> row_wf row.
Proof. intros Hk. apply row_wf_table. by apply POSE_TARGETS_Some in Hk as [_ ?]. Qed.

(** The targets are angles. *)
Lemma row_wf_angle (row : list (string * Q)) (joint : string) (a : Q) :
  row_wf row -> (joint, a) ∈ row -> (0 <= a <= 180)%Q.
Proof.
intros [_ Hrange] Hja. rewrite Forall_forall in Hrange.
by apply Hrange, (list_elem_of_fmap_2 snd _ (joint, a)).
Qed.
