(* ===== verification/Scorer.v ===== *)
(** * Scorer: [calculate_pose_score] of [src/backend.py]

    The scorer takes the joint angles of the current frame (a dict from
    joint names to floats) and the identifier of the target pose, and
    returns a grade from 1 (poor) to 4 (perfect).

    The model follows the function line by line:
    - [differences] is the loop that collects [abs(current - target)] for
      every joint of the target row that the current dict has;
    - [avg_difference] is the average the function computes and never
      uses;
    - [angles_within] is one of the three counts of differences under a
      threshold;
    - [at_least_three_quarters] is the test [count >= total * 0.75];
    - [score_differences] is the function from the emptiness test on;
    - [calculate_pose_score] is the whole function.

    The definitions are generic in the number type ([Number A]); the
    lemmas hold for every [RealNumber A]. *)

From Stdlib Require Import ZArith QArith Qabs Qreals Reals Psatz.
From stdpp Require Import gmap strings list.
From S2P Require Import Prelude Numeric PoseTable.

#[local] Open Scope Z_scope.

(** ** The model *)

Section Model.
Context {A : Type} `{Number A}.

Definition PERFECT_THRESHOLD : Q := 35.
Definition GREAT_THRESHOLD : Q := 45.
Definition OKAY_THRESHOLD : Q := 65.

(** One iteration of the loop over [target_angles.items()]: the
    difference for [joint] when [current_angles] has it. *)
Definition joint_difference (current_angles : gmap string A)
    (item : string * Q) : option A :=
  let '(joint, target_angle) := item in
  match current_angles !! joint with
  | Some current => Some (num_abs (current - of_Q target_angle)%py)
  | None => None
  end.

Definition differences (current_angles : gmap string A)
    (target_angles : list (string * Q)) : list A :=
  omap (joint_difference current_angles) target_angles.

(** Python's [sum]: a left fold from the integer 0. *)
Definition sum (l : list A) : A := foldl num_add (of_Q 0) l.

Definition avg_difference (differences : list A) : A :=
  (sum differences / of_Q (inject_Z (Z.of_nat (length differences))))%py.

Definition angles_within (threshold : Q) (differences : list A) : nat :=
  count_if (fun diff => (diff <=? of_Q threshold)%py) differences.

(** [within >= total_angles * 0.75]: an int against a float. *)
Definition at_least_three_quarters (within total_angles : nat) : bool :=
  Qle_bool (inject_Z (Z.of_nat total_angles) * 0.75) (inject_Z (Z.of_nat within)).

Definition score_differences (differences : list A) : Z :=
  match differences with
  | [] => 1
  | _ :: _ =>
      let avg_difference := avg_difference differences in
      let angles_within_perfect := angles_within PERFECT_THRESHOLD differences in
      let angles_within_great := angles_within GREAT_THRESHOLD differences in
      let angles_within_okay := angles_within OKAY_THRESHOLD differences in
      let total_angles := length differences in
      if at_least_three_quarters angles_within_perfect total_angles then 4
      else if at_least_three_quarters angles_within_great total_angles then 3
      else if at_least_three_quarters angles_within_okay total_angles then 2
      else 1
  end.

Definition calculate_pose_score (current_angles : gmap string A)
    (target_pose_val : Z) : Z :=
  match POSE_TARGETS !! target_pose_val with
  | None => 1
  | Some target_angles =>
      score_differences (differences current_angles target_angles)
  end.

End Model.

(** The grade as a function of the three counts and the total, with the
    float comparison replaced by integer arithmetic: the reference the
    model is compared with. *)
Definition grade_of_counts (perfect great okay total : nat) : Z :=
  if decide (3 * total <= 4 * perfect)%nat then 4
  else if decide (3 * total <= 4 * great)%nat then 3
  else if decide (3 * total <= 4 * okay)%nat then 2
  else 1.

(** ** The three-quarters test *)

Lemma at_least_three_quarters_spec (within total_angles : nat) :
  at_least_three_quarters within total_angles = true <->
  (3 * total_angles <= 4 * within)%nat.
Proof.
unfold at_least_three_quarters. rewrite Qle_bool_three_quarters. lia.
Qed.

Lemma at_least_three_quarters_decide (within total_angles : nat) :
  at_least_three_quarters within total_angles =
  bool_decide (3 * total_angles <= 4 * within)%nat.
Proof.
apply eq_true_iff_eq.
rewrite at_least_three_quarters_spec, bool_decide_eq_true. done.
Qed.

Lemma at_least_three_quarters_mono (w w' n : nat) :
  (w <= w')%nat ->
  at_least_three_quarters w n = true -> at_least_three_quarters w' n = true.
Proof. rewrite !at_least_three_quarters_spec. lia. Qed.

(** ** The loop that collects the differences *)

Section Differences.
Context {A : Type} `{Number A}.
Implicit Types (current_angles : gmap string A) (target_angles : list (string * Q)).

Lemma differences_cons current_angles joint target_angle target_angles :
  differences current_angles ((joint, target_angle) :: target_angles) =
    match current_angles !! joint with
    | Some current =>
        num_abs (current - of_Q target_angle)%py :: differences current_angles target_angles
    | None => differences current_angles target_angles
    end.
Proof. unfold differences; simpl. by destruct (current_angles !! joint). Qed.

Lemma differences_length_le current_angles target_angles :
  (length (differences current_angles target_angles) <= length target_angles)%nat.
Proof.
induction target_angles as [|[j a] t IH]; [done|].
rewrite differences_cons. destruct (current_angles !! j); simpl; lia.
Qed.

(** The population is empty exactly when the current dict has none of
    the joints of the row. *)
Lemma differences_nil_iff current_angles target_angles :
  differences current_angles target_angles = [] <->
  forall joint, joint ∈ target_angles.*1 -> current_angles !! joint = None.
Proof.
induction target_angles as [|[j a] t IH]; [set_solver|].
rewrite differences_cons, fmap_cons. simpl. split.
- intros E joint [->|Hj]%elem_of_cons;
    destruct (current_angles !! j) eqn:Ej; try done. by apply IH.
- intros Hnone. rewrite (Hnone j) by left. apply IH. intros; apply Hnone; by right.
Qed.

(** The population is the whole row when the current dict has every
    joint of it. *)
Lemma differences_length_total current_angles target_angles :
  (forall joint, joint ∈ target_angles.*1 -> is_Some (current_angles !! joint)) ->
  length (differences current_angles target_angles) = length target_angles.
Proof.
induction target_angles as [|[j a] t IH]; [done|].
rewrite differences_cons, fmap_cons. simpl. intros Hall.
destruct (Hall j) as [x ->]; [left|]. simpl. f_equal. apply IH. intros; apply Hall; by right.
Qed.

End Differences.

(** Two current dicts, possibly over two number types, whose lookups
    are related joint by joint have related difference lists. *)
Lemma differences_Forall2 {A B : Type} `{Number A} `{Number B} (S : A -> B -> Prop)
    (c : gmap string A) (c' : gmap string B) (target_angles : list (string * Q)) :
  (forall item, item ∈ target_angles ->
     option_Forall2 S (joint_difference c item) (joint_difference c' item)) ->
  Forall2 S (differences c target_angles) (differences c' target_angles).
Proof.
induction target_angles as [|item t IH]; intros Hrel; [constructor|].
unfold differences; simpl. fold (differences c t) (differences c' t).
destruct (Hrel item) as [d d' Hd|]; [left | constructor; [done|] |];
  apply IH; intros; apply Hrel; by right.
Qed.

(** ** Counting under a threshold, over two number types *)

Section Counts.
Context {A B : Type} `{RealNumber A} `{RealNumber B}.
Implicit Types (ds : list A) (es : list B).

(** [es] is no closer than [ds]: position by position its differences
    are at least as large. *)
Definition no_closer ds es : Prop :=
  Forall2 (fun d e => (to_R d <= to_R e)%R) ds es.

Lemma angles_within_no_closer threshold ds es :
  no_closer ds es ->
  (angles_within threshold es <= angles_within threshold ds)%nat.
Proof.
intros Hle. apply count_if_Forall2. eapply Forall2_impl; [exact Hle|].
simpl. intros d e Hd. rewrite !num_leb_threshold. lra.
Qed.

End Counts.

(** ** The grade as a function of the counts *)

Lemma grade_of_counts_range (p g o n : nat) : 1 <= grade_of_counts p g o n <= 4.
Proof. unfold grade_of_counts. repeat case_decide; lia. Qed.

Lemma grade_of_counts_mono (p g o p' g' o' n : nat) :
  (p' <= p)%nat -> (g' <= g)%nat -> (o' <= o)%nat ->
  grade_of_counts p' g' o' n <= grade_of_counts p g o n.
Proof. unfold grade_of_counts. repeat case_decide; lia. Qed.

Section Grades.
Context {A : Type} `{Number A}.
Implicit Types (ds : list A).

Lemma score_differences_counts ds :
  score_differences ds =
    match ds with
    | [] => 1
    | _ :: _ =>
        grade_of_counts (angles_within PERFECT_THRESHOLD ds)
          (angles_within GREAT_THRESHOLD ds)
          (angles_within OKAY_THRESHOLD ds) (length ds)
    end.
Proof.
destruct ds as [|d ds]; [done|].
unfold score_differences, grade_of_counts.
rewrite !at_least_three_quarters_decide.
repeat (case_bool_decide; case_decide; try done).
Qed.

Lemma score_differences_range ds : 1 <= score_differences ds <= 4.
Proof.
rewrite score_differences_counts. destruct ds; [lia | apply grade_of_counts_range].
Qed.

End Grades.

Section GradesTwo.
Context {A B : Type} `{RealNumber A} `{RealNumber B}.
Implicit Types (ds : list A) (es : list B).

Lemma score_differences_no_closer ds es :
  no_closer ds es -> score_differences es <= score_differences ds.
Proof.
intros Hle. rewrite !score_differences_counts.
pose proof (Forall2_length _ _ _ Hle) as Hlen.
destruct ds, es; try done. rewrite <- Hlen.
apply grade_of_counts_mono; by apply angles_within_no_closer.
Qed.

(** [ds] and [es] hold the same real values. *)
Definition same_values ds es : Prop :=
  Forall2 (fun d e => to_R d = to_R e) ds es.

End GradesTwo.

Section SameValues.
Context {A B : Type} `{RealNumber A} `{RealNumber B}.

Lemma same_values_no_closer (ds : list A) (es : list B) :
  same_values ds es -> no_closer ds es /\ no_closer es ds.
Proof.
intros Hsame. split; [|apply Forall2_flip];
  (eapply Forall2_impl; [exact Hsame|]); simpl; intros d e E; rewrite E; lra.
Qed.

Lemma score_differences_same_values (ds : list A) (es : list B) :
  same_values ds es -> score_differences ds = score_differences es.
Proof.
intros [Hle Hge]%same_values_no_closer.
apply Z.le_antisymm; by apply score_differences_no_closer.
Qed.

End SameValues.

(** ** Populations that lie in one band *)

Section Bands.
Context {A : Type} `{RealNumber A}.
Implicit Types (ds : list A).

Lemma angles_within_all threshold ds :
  Forall (fun d => (to_R d <= Q2R threshold)%R) ds ->
  angles_within threshold ds = length ds.
Proof.
intros Hall. apply count_if_all. eapply Forall_impl; [exact Hall|].
simpl. intros d Hd. by apply num_leb_threshold.
Qed.

Lemma angles_within_none threshold ds :
  Forall (fun d => (Q2R threshold < to_R d)%R) ds ->
  angles_within threshold ds = 0%nat.
Proof.
intros Hall. apply count_if_none. eapply Forall_impl; [exact Hall|].
simpl. intros d Hd. by apply num_leb_threshold_false.
Qed.

Lemma angles_within_le_length threshold ds :
  (angles_within threshold ds <= length ds)%nat.
Proof. unfold angles_within. auto with py. Qed.

(** The thresholds are cumulative: a difference under one is under the
    next. *)
Lemma angles_within_threshold_mono (t u : Q) ds :
  (t <= u)%Q -> (angles_within t ds <= angles_within u ds)%nat.
Proof.
intros Htu. apply count_if_mono. intros d _. rewrite !num_leb_threshold.
apply Qle_Rle in Htu. lra.
Qed.

Lemma score_differences_band ds (lo hi : R) :
  ds <> [] -> Forall (fun d => (lo < to_R d <= hi)%R) ds ->
  ((hi <= 35)%R -> score_differences ds = 4) /\
  ((35 <= lo)%R -> (hi <= 45)%R -> score_differences ds = 3) /\
  ((45 <= lo)%R -> (hi <= 65)%R -> score_differences ds = 2) /\
  ((65 <= lo)%R -> score_differences ds = 1).
Proof.
intros Hne Hall. rewrite score_differences_counts.
destruct ds as [|d0 ds0]; [done|]. set (ds := d0 :: ds0) in *.
assert (0 < length ds)%nat as Hpos by (simpl; lia).
assert (forall t : Q, (hi <= Q2R t)%R -> angles_within t ds = length ds) as Hin.
{ intros t Ht. apply angles_within_all. eapply Forall_impl; [exact Hall|]. simpl. intros; lra. }
assert (forall t : Q, (Q2R t <= lo)%R -> angles_within t ds = 0%nat) as Hout.
{ intros t Ht. apply angles_within_none. eapply Forall_impl; [exact Hall|]. simpl. intros; lra. }
unfold grade_of_counts, PERFECT_THRESHOLD, GREAT_THRESHOLD, OKAY_THRESHOLD.
repeat split; intros.
- rewrite (Hin 35%Q) by lra. case_decide; [done | lia].
- rewrite (Hout 35%Q), (Hin 45%Q) by lra. repeat case_decide; (done || lia).
- rewrite (Hout 35%Q), (Hout 45%Q), (Hin 65%Q) by lra. repeat case_decide; (done || lia).
- rewrite (Hout 35%Q), (Hout 45%Q), (Hout 65%Q) by lra. repeat case_decide; (done || lia).
Qed.

End Bands.

(** ** From the dicts to the difference lists *)

Section Dicts.
Context {A : Type} `{RealNumber A}.
Implicit Types (c : gmap string A) (row : list (string * Q)).

(** A property of every difference follows from the same property of
    every joint that both the row and the dict have. *)
Lemma differences_Forall (P : A -> Prop) c row :
  (forall joint a x, (joint, a) ∈ row -> c !! joint = Some x ->
     P (num_abs (x - of_Q a)%py)) ->
  Forall P (differences c row).
Proof.
induction row as [|[j a] row IH]; intros HP; [constructor|].
rewrite differences_cons.
assert (Forall P (differences c row)) by (apply IH; intros; eapply HP; [by right | done]).
destruct (c !! j) eqn:Ej; [constructor; [apply (HP j a); [left | done] | done] | done].
Qed.

(** The rows of the table are not empty, so a dict that has one of the
    eight joints has a population. *)
Lemma differences_not_nil c (k : Z) row :
  POSE_TARGETS !! k = Some row ->
  (exists joint, joint ∈ JOINTS /\ is_Some (c !! joint)) ->
  differences c row <> [].
Proof.
intros Hk (joint & Hj & [x Hx]) Hnil. apply POSE_TARGETS_wf in Hk as [Hkeys _].
rewrite differences_nil_iff, Hkeys in Hnil. rewrite Hnil in Hx; done.
Qed.

Lemma differences_length_8 c (k : Z) row :
  POSE_TARGETS !! k = Some row ->
  (forall joint, joint ∈ JOINTS -> is_Some (c !! joint)) ->
  length (differences c row) = 8%nat.
Proof.
intros Hk Hall. apply POSE_TARGETS_wf in Hk as [Hkeys _].
rewrite differences_length_total by (by rewrite Hkeys).
by rewrite <- (length_fmap fst), Hkeys.
Qed.

End Dicts.

Section TwoDicts.
Context {A B : Type} `{RealNumber A} `{RealNumber B}.
Implicit Types (c : gmap string A) (e : gmap string B) (row : list (string * Q)).

(** [e] is no closer to the row than [c]: the two dicts have the same
    joints of the row, and each joint of [e] is at least as far from
    its target as the joint of [c]. *)
Definition no_closer_to row c e : Prop :=
  forall joint a, (joint, a) ∈ row ->
    option_Forall2
      (fun x x' => (Rabs (to_R x - Q2R a) <= Rabs (to_R x' - Q2R a))%R)
      (c !! joint) (e !! joint).

(** [c] and [e] agree on [joints]: they have the same of them, with
    the same real values. *)
Definition same_angles_on (joints : list string) c e : Prop :=
  forall joint, joint ∈ joints ->
    option_Forall2 (fun x x' => to_R x = to_R x') (c !! joint) (e !! joint).

Lemma differences_no_closer row c e :
  no_closer_to row c e -> no_closer (differences c row) (differences e row).
Proof.
intros Hrow. apply differences_Forall2. intros [j a] Hja. simpl.
destruct (Hrow j a Hja) as [x x' Hx|]; constructor. by autorewrite with py.
Qed.

Lemma differences_same_values row c e :
  same_angles_on row.*1 c e -> same_values (differences c row) (differences e row).
Proof.
intros Hrow. apply differences_Forall2. intros [j a] Hja. simpl.
destruct (Hrow j) as [x x' Hx|]; [by apply (list_elem_of_fmap_2 fst _ (j, a)) | |];
  constructor. autorewrite with py. by rewrite Hx.
Qed.

End TwoDicts.

(** ** Checking the hypotheses on rational dicts

    The relations between dicts quantify over the joints of a row.  On
    dicts of rationals they are decided by running through the row. *)

Definition no_closer_to_b (row : list (string * Q)) (c e : gmap string Q) : bool :=
  forallb (fun '(joint, a) =>
    match c !! joint, e !! joint with
    | Some x, Some y => Qle_bool (Qabs (x - a)) (Qabs (y - a))
    | None, None => true
    | _, _ => false
    end) row.

Definition in_band_b (lo hi : Q) (row : list (string * Q)) (c : gmap string Q) : bool :=
  forallb (fun '(joint, a) =>
    match c !! joint with
    | Some x => negb (Qle_bool (Qabs (x - a)) lo) && Qle_bool (Qabs (x - a)) hi
    | None => true
    end) row.

Lemma Q2R_abs_sub (x a : Q) : Rabs (Q2R x - Q2R a) = Q2R (Qabs (x - a)).
Proof. by rewrite Q2R_Qabs, Q2R_minus. Qed.

Lemma no_closer_to_b_sound row c e :
  no_closer_to_b row c e = true -> no_closer_to row c e.
Proof.
unfold no_closer_to_b. rewrite forallb_forall. intros Hall joint a Hja.
apply list_elem_of_In, Hall in Hja.
destruct (c !! joint), (e !! joint); try done; constructor.
simpl. rewrite !Q2R_abs_sub. by apply Qle_bool_Q2R.
Qed.

Lemma in_band_b_sound lo hi row c :
  in_band_b lo hi row c = true ->
  forall joint a x, (joint, a) ∈ row -> c !! joint = Some x ->
    (Q2R lo < Rabs (to_R x - Q2R a) <= Q2R hi)%R.
Proof.
unfold in_band_b. rewrite forallb_forall. intros Hall joint a x Hja Hx.
apply list_elem_of_In, Hall in Hja. rewrite Hx in Hja.
apply andb_true_iff in Hja as [Hlo Hhi]. simpl. rewrite Q2R_abs_sub. split.
- apply negb_true_iff in Hlo. exact (proj1 (num_leb_gt (A := Q) _ _) Hlo).
- by apply Qle_bool_Q2R.
Qed.

(** The dict that holds every angle of [row] moved by [d] degrees. *)
Definition shifted (d : Q) (row : list (string * Q)) : gmap string Q :=
  list_to_map (map (fun item => (item.1, (item.2 + d)%Q)) row).

(** * The properties of [calculate_pose_score] *)

Section Totality.
Context {A : Type} `{Number A}.
Implicit Types (c : gmap string A).

(** C40: whatever the current angles and the target identifier, the
    score is one of the four grades 1, 2, 3, 4. *)
Theorem calculate_pose_score_range c (target_pose_val : Z) :
  1 <= calculate_pose_score c target_pose_val <= 4.
Proof.
unfold calculate_pose_score.
destruct (POSE_TARGETS !! target_pose_val); [apply score_differences_range | lia].
Qed.

(** C38: a target identifier outside 0..3 has no row in the table, and
    the score is 1 (poor) whatever the current angles are. *)
Theorem calculate_pose_score_unknown_pose c (target_pose_val : Z) :
  ~ (0 <= target_pose_val <= 3) ->
  calculate_pose_score c target_pose_val = 1.
Proof.
intros Hk. unfold calculate_pose_score.
by rewrite (proj2 (POSE_TARGETS_None target_pose_val) Hk).
Qed.

(** C39: when the current dict has none of the eight joints the
    comparison population is empty and the score is 1, for every target
    identifier. *)
Theorem calculate_pose_score_no_common_joint c (target_pose_val : Z) :
  (forall joint, joint ∈ JOINTS -> c !! joint = None) ->
  calculate_pose_score c target_pose_val = 1.
Proof.
intros Hnone. unfold calculate_pose_score.
destruct (POSE_TARGETS !! target_pose_val) as [row|] eqn:Hk; [|done].
apply POSE_TARGETS_wf in Hk as [Hkeys _].
by rewrite (proj2 (differences_nil_iff c row)) by (by rewrite Hkeys).
Qed.

(** C8: in the live path the current dict has all eight joints; the
    population then has eight differences and the three tests
    [count >= 8 * 0.75] are [count >= 6]: the grade is 4 when at least
    six joints are within 35 degrees of their targets, else 3 when six
    are within 45, else 2 when six are within 65, else 1. *)
Theorem calculate_pose_score_six_of_eight c (target_pose_val : Z) row :
  POSE_TARGETS !! target_pose_val = Some row ->
  (forall joint, joint ∈ JOINTS -> is_Some (c !! joint)) ->
  calculate_pose_score c target_pose_val =
    if decide (6 <= angles_within PERFECT_THRESHOLD (differences c row))%nat then 4
    else if decide (6 <= angles_within GREAT_THRESHOLD (differences c row))%nat then 3
    else if decide (6 <= angles_within OKAY_THRESHOLD (differences c row))%nat then 2
    else 1.
Proof.
intros Hk Hall. unfold calculate_pose_score. rewrite Hk, score_differences_counts.
pose proof (differences_length_8 c _ _ Hk Hall) as Hlen.
destruct (differences c row) as [|d ds] eqn:E; [done|]. rewrite Hlen.
unfold grade_of_counts. repeat case_decide; (done || lia).
Qed.

End Totality.

Section Values.
Context {A : Type} `{RealNumber A}.
Implicit Types (c : gmap string A).

(** C19: when every joint the current dict shares with the target row
    differs from its target by more than [lo] and at most [hi] degrees
    (and there is such a joint), the score is the grade of the band
    that contains the interval: 4 up to 35, 3 in (35, 45], 2 in
    (45, 65], 1 above 65. *)
Theorem calculate_pose_score_band c (target_pose_val : Z) row (lo hi : R) :
  POSE_TARGETS !! target_pose_val = Some row ->
  (exists joint, joint ∈ JOINTS /\ is_Some (c !! joint)) ->
  (forall joint a x, (joint, a) ∈ row -> c !! joint = Some x ->
     (lo < Rabs (to_R x - Q2R a) <= hi)%R) ->
  ((hi <= 35)%R -> calculate_pose_score c target_pose_val = 4) /\
  ((35 <= lo)%R -> (hi <= 45)%R -> calculate_pose_score c target_pose_val = 3) /\
  ((45 <= lo)%R -> (hi <= 65)%R -> calculate_pose_score c target_pose_val = 2) /\
  ((65 <= lo)%R -> calculate_pose_score c target_pose_val = 1).
Proof.
intros Hk Hsome Hband. unfold calculate_pose_score. rewrite Hk.
apply score_differences_band; [by eapply differences_not_nil|].
apply differences_Forall. intros joint a x Hja Hx.
autorewrite with py. by eapply Hband.
Qed.

(** C33: a dict that holds, for every joint of the target row, the
    target angle itself gets the grade 4 (perfect). *)
Theorem calculate_pose_score_at_target c (target_pose_val : Z) row :
  POSE_TARGETS !! target_pose_val = Some row ->
  (forall joint a, (joint, a) ∈ row ->
     exists x, c !! joint = Some x /\ to_R x = Q2R a) ->
  calculate_pose_score c target_pose_val = 4.
Proof.
intros Hk Hat. unfold calculate_pose_score. rewrite Hk.
pose proof (POSE_TARGETS_wf _ _ Hk) as [Hkeys _].
apply (score_differences_band _ (-1) 0); [| |lra].
- intros Hnil. rewrite differences_nil_iff, Hkeys in Hnil.
  destruct row as [|[j a] row]; [done|]. destruct (Hat j a) as (x & Hx & _); [left|].
  rewrite Hnil in Hx; [done | rewrite <- Hkeys; left].
- apply differences_Forall. intros joint a x Hja Hx.
  destruct (Hat joint a Hja) as (y & Hy & Ey). simplify_eq.
  autorewrite with py. rewrite Ey, Rminus_diag, Rabs_R0. lra.
Qed.

End Values.

Section Comparisons.
Context {A B : Type} `{RealNumber A} `{RealNumber B}.
Implicit Types (c : gmap string A) (e : gmap string B).

(** C12: moving every joint away from its target (or leaving it where
    it is) never raises the grade: if [e] has the same joints as [c]
    and each is at least as far from the target of the row, the score
    of [e] is at most the score of [c]. *)
Theorem calculate_pose_score_monotone c e (target_pose_val : Z) row :
  POSE_TARGETS !! target_pose_val = Some row ->
  no_closer_to row c e ->
  calculate_pose_score e target_pose_val <= calculate_pose_score c target_pose_val.
Proof.
intros Hk Hfar. unfold calculate_pose_score. rewrite Hk.
by apply score_differences_no_closer, differences_no_closer.
Qed.

(** C24: the score depends only on the real values of the eight joints:
    two dicts, over any two number types, that have the same of the
    eight joints with the same real values get the same score.  Other
    keys, and the representation of a value (1/2 or 2/4, a rational or
    the real it denotes), do not matter. *)
Theorem calculate_pose_score_same_angles c e (target_pose_val : Z) :
  same_angles_on JOINTS c e ->
  calculate_pose_score c target_pose_val = calculate_pose_score e target_pose_val.
Proof.
intros Hsame. unfold calculate_pose_score.
destruct (POSE_TARGETS !! target_pose_val) as [row|] eqn:Hk; [|done].
apply POSE_TARGETS_wf in Hk as [Hkeys _].
apply score_differences_same_values, differences_same_values. by rewrite Hkeys.
Qed.

End Comparisons.

(** ** The properties at concrete dicts *)

#[local] Open Scope string_scope.

Definition at_row_b (row : list (string * Q)) (c : gmap string Q) : bool :=
  forallb (fun '(joint, a) =>
    match c !! joint with
    | Some x => Qeq_bool x a
    | None => false
    end) row.

Lemma at_row_b_sound row c :
  at_row_b row c = true ->
  forall joint a, (joint, a) ∈ row -> exists x, c !! joint = Some x /\ to_R x = Q2R a.
Proof.
unfold at_row_b. rewrite forallb_forall. intros Hall joint a Hja.
apply list_elem_of_In, Hall in Hja. destruct (c !! joint) as [x|]; [|done].
exists x. split; [done|]. by apply Qeq_eqR, Qeq_bool_iff.
Qed.

Lemma has_joints_sound {A : Type} (c : gmap string A) :
  bool_decide (Forall (fun joint => is_Some (c !! joint)) JOINTS) = true ->
  forall joint, joint ∈ JOINTS -> is_Some (c !! joint).
Proof. intros Hb%bool_decide_eq_true. by apply Forall_forall. Qed.

(** The example of the specification: the tree pose with six joints on
    target and two joints 40 degrees off. *)
Definition tree_near : gmap string Q :=
  <["left_hip" := 207.1%Q]> (<["right_knee" := 17.3%Q]> (shifted 0 TREE_POSE)).

Lemma calculate_pose_score_unknown_pose_witness :
  calculate_pose_score (A := Q) {[ "left_hip" := 90%Q ]} 7 = 1.
Proof. apply calculate_pose_score_unknown_pose. lia. Defined.

Lemma calculate_pose_score_no_common_joint_witness :
  calculate_pose_score (A := Q) {[ "nose" := 12.5%Q ]} 2 = 1.
Proof.
apply calculate_pose_score_no_common_joint.
intros joint Hj. repeat (apply elem_of_cons in Hj as [->|Hj]); try done.
by apply elem_of_nil in Hj.
Defined.

Lemma calculate_pose_score_six_of_eight_witness :
  calculate_pose_score (A := Q) tree_near 1 = 4.
Proof.
rewrite (calculate_pose_score_six_of_eight tree_near 1 TREE_POSE);
  [by vm_compute | by vm_compute | by apply has_joints_sound; vm_compute].
Defined.

Lemma calculate_pose_score_band_witness :
  calculate_pose_score (A := Q) (shifted 50 WARRIOR_2) 3 = 2.
Proof.
refine (proj1 (proj2 (proj2
  (calculate_pose_score_band (shifted 50 WARRIOR_2) 3 WARRIOR_2 (Q2R 45) (Q2R 65) _ _ _))) _ _).
- by vm_compute.
- exists "left_hip". split; [set_solver | apply (bool_decide_unpack _); by vm_compute].
- apply in_band_b_sound. by vm_compute.
- lra.
- lra.
Defined.

Lemma calculate_pose_score_at_target_witness :
  calculate_pose_score (A := Q) (shifted 0 TREE_POSE) 1 = 4.
Proof.
apply (calculate_pose_score_at_target _ 1 TREE_POSE); [by vm_compute|].
apply at_row_b_sound. by vm_compute.
Defined.

Lemma calculate_pose_score_monotone_witness :
  calculate_pose_score (A := Q) (shifted 40 TREE_POSE) 1
  <= calculate_pose_score (A := Q) (shifted 0 TREE_POSE) 1.
Proof.
apply (calculate_pose_score_monotone _ _ 1 TREE_POSE); [by vm_compute|].
apply no_closer_to_b_sound. by vm_compute.
Defined.

Lemma calculate_pose_score_same_angles_witness :
  calculate_pose_score (A := Q) tree_near 1
  = calculate_pose_score (A := R) (Q2R <$> tree_near) 1.
Proof.
apply calculate_pose_score_same_angles. intros joint _. rewrite lookup_fmap.
destruct (tree_near !! joint); by constructor.
Defined.
