(* ===== verification/Quantile.v ===== *)
(** * Quantile: the grade is decided by one difference

    [calculate_pose_score] counts, for each threshold, the differences
    under it and asks for three quarters of the population.  Put the
    differences in increasing order: the one of rank [ceil(3n/4)]
    decides.  The grade is 4 when it is at most 35, 3 when at most 45,
    2 when at most 65, and 1 otherwise; the quarter of the joints that
    are furthest from their targets does not matter.

    The reference is stated on real numbers with [merge_sort]; the
    theorem holds for the scorer over any number type. *)

From Stdlib Require Import ZArith QArith Qabs Qreals Reals Psatz.
From stdpp Require Import gmap strings list sorting.
From S2P Require Import Prelude Numeric PoseTable Scorer.

(** ** The reference *)

(** The rank of the difference that decides: three quarters of [n],
    rounded up. *)
Definition rank (n : nat) : nat := (3 * n + 3) / 4.

#[export] Instance Rle_Total : Total Rle.
Proof. intros x y. destruct (Rle_dec x y); [by left | right; lra]. Qed.

#[export] Instance Rle_Transitive : Transitive Rle.
Proof. intros x y z. apply Rle_trans. Qed.

(** The difference of that rank in increasing order. *)
Definition quantile (ds : list R) : R :=
  nth (rank (length ds) - 1) (merge_sort Rle ds) 0%R.

Definition band (r : R) : Z :=
  if decide (r <= 35)%R then 4
  else if decide (r <= 45)%R then 3
  else if decide (r <= 65)%R then 2
  else 1.

(** ** Ranks and counts *)

Lemma rank_spec (n c : nat) : 3 * n <= 4 * c <-> rank n <= c.
Proof.
unfold rank. pose proof (Nat.div_mod_eq (3 * n + 3) 4) as Hdiv.
pose proof (Nat.mod_upper_bound (3 * n + 3) 4). lia.
Qed.

Lemma rank_bounds (n : nat) : 1 <= n -> 1 <= rank n <= n.
Proof.
intros Hn. unfold rank. pose proof (Nat.div_mod_eq (3 * n + 3) 4) as Hdiv.
pose proof (Nat.mod_upper_bound (3 * n + 3) 4). lia.
Qed.

(** In an increasing list, at least [k] elements are at most [t]
    exactly when the element of rank [k] is. *)
Lemma count_if_sorted (t : R) (s : list R) (k : nat) :
  StronglySorted Rle s -> 1 <= k <= length s ->
  k <= count_if (fun d => bool_decide (d <= t)%R) s <-> (nth (k - 1) s 0 <= t)%R.
Proof.
intros Hs. revert k. induction Hs as [|a s Hs IH Ha]; intros k Hk; [simpl in Hk; lia|].
assert (nth (k - 1) (a :: s) 0%R ∈ a :: s) as Hin
  by (apply list_elem_of_In, nth_In; simpl in *; lia).
cbn [count_if]. case_bool_decide as Hat.
- destruct k as [|[|k]]; [simpl in Hk; lia | simpl; split; [done | lia] |].
  specialize (IH (S k) ltac:(simpl in Hk; lia)).
  replace (S (S k) - 1) with (S (S k - 1)) by lia. simpl nth. rewrite <- IH. lia.
- rewrite count_if_none.
  + split; [lia|]. intros Hle. exfalso. apply Hat.
    apply elem_of_cons in Hin as [<-|Hin]; [done|].
    rewrite Forall_forall in Ha. specialize (Ha _ Hin). lra.
  + eapply Forall_impl; [exact Ha|]. simpl. intros d Hd. apply bool_decide_eq_false. lra.
Qed.

(** ** The grade is the band of the quantile *)

Section Quantile.
Context {A : Type} `{RealNumber A}.
Implicit Types (ds : list A) (c : gmap string A).

Lemma angles_within_to_R (t : Q) ds :
  angles_within t ds = count_if (fun d => bool_decide (d <= Q2R t)%R) (to_R <$> ds).
Proof.
unfold angles_within. rewrite count_if_fmap. apply count_if_ext. intros d _.
apply eq_true_iff_eq. by rewrite bool_decide_eq_true, num_leb_threshold.
Qed.

Lemma covers_quantile (t : Q) ds :
  ds <> [] ->
  3 * length ds <= 4 * angles_within t ds <-> (quantile (to_R <$> ds) <= Q2R t)%R.
Proof.
intros Hne. assert (1 <= length ds) as Hlen by (destruct ds; [done | simpl; lia]).
rewrite rank_spec, angles_within_to_R. unfold quantile.
rewrite <- (count_if_Permutation _ _ _ (merge_sort_Permutation Rle (to_R <$> ds))).
rewrite length_fmap. apply count_if_sorted.
- apply (StronglySorted_merge_sort Rle).
- rewrite (Permutation_length (merge_sort_Permutation Rle _)), length_fmap.
  by apply rank_bounds.
Qed.

Lemma score_differences_quantile ds :
  ds <> [] -> score_differences ds = band (quantile (to_R <$> ds)).
Proof.
intros Hne. rewrite score_differences_counts. destruct ds as [|d ds0] eqn:E; [done|].
rewrite <- E in *. unfold grade_of_counts, band.
pose proof (covers_quantile PERFECT_THRESHOLD ds Hne) as Hp.
pose proof (covers_quantile GREAT_THRESHOLD ds Hne) as Hg.
pose proof (covers_quantile OKAY_THRESHOLD ds Hne) as Ho.
rewrite (Q2R_literal 35 : Q2R PERFECT_THRESHOLD = 35%R) in Hp.
rewrite (Q2R_literal 45 : Q2R GREAT_THRESHOLD = 45%R) in Hg.
rewrite (Q2R_literal 65 : Q2R OKAY_THRESHOLD = 65%R) in Ho.
repeat case_decide; (done || tauto).
Qed.

(** C4: the score is the band of the quantile: with the differences of
    the comparison population in increasing order, the grade is 4, 3,
    2 or 1 as the difference of rank [ceil(3n/4)] is at most 35, at
    most 45, at most 65, or more.  A quarter of the joints (rounded
    down) can be arbitrarily far off without changing the grade. *)
Theorem calculate_pose_score_quantile c (target_pose_val : Z) row :
  POSE_TARGETS !! target_pose_val = Some row ->
  differences c row <> [] ->
  calculate_pose_score c target_pose_val
  = band (quantile (to_R <$> differences c row)).
Proof.
intros Hk Hne. unfold calculate_pose_score. rewrite Hk.
by apply score_differences_quantile.
Qed.

End Quantile.

Lemma calculate_pose_score_quantile_witness :
  calculate_pose_score (A := Q) tree_near 1
  = band (quantile (to_R <$> differences tree_near TREE_POSE)).
Proof.
apply (calculate_pose_score_quantile (A := Q) tree_near 1 TREE_POSE); by vm_compute.
Defined.
