(* ===== verification/ScorerSpec.v ===== *)
(** * ScorerSpec: the classification the scorer promises, and that
    [calculate_pose_score] implements it

    The specification is stated on mathematical objects.  The current
    angles and a target pose are finite maps from joint names to real
    numbers; the comparison population is the map that holds, for every
    joint both have, the absolute difference; the grade is Perfect when
    at least three quarters of the population is within 35 degrees,
    else Great for 45, else Okay for 65, else Poor, and Poor when the
    population is empty or the pose is unknown.  Nothing in it depends
    on an order of iteration or on a number representation.

    The refinement theorem says that [calculate_pose_score], which
    walks the row of the table in insertion order, collects a list and
    compares an integer with a float product, returns the integer of
    the specified grade on the real values of its inputs. *)

From Stdlib Require Import ZArith QArith Qabs Qreals Reals Psatz.
From stdpp Require Import gmap strings list fin_maps.
From S2P Require Import Prelude Numeric PoseTable Scorer.

#[local] Open Scope R_scope.

(** ** The specification *)

Inductive MatchGrade : Type := Poor | Okay | Great | Perfect.

(** The integer the program uses for a grade. *)
Definition grade_value (g : MatchGrade) : Z :=
  match g with Poor => 1 | Okay => 2 | Great => 3 | Perfect => 4 end.

(** The comparison population: for every joint that both maps have,
    the absolute difference of the two angles. *)
Definition population (current : gmap string R) (target : gmap string R) : gmap string R :=
  intersection_with (fun x t => Some (Rabs (x - t))) current target.

(** How many joints of the population are within the threshold. *)
Definition coverage (threshold : R) (pop : gmap string R) : nat :=
  size (filter (fun jd => jd.2 <= threshold) pop).

(** The coverage rule: at least three quarters of the population,
    compared over the reals. *)
Definition covers (threshold : R) (pop : gmap string R) : Prop :=
  0.75 * INR (size pop) <= INR (coverage threshold pop).

(** The first threshold that covers decides; an empty population is
    poor. *)
Definition classify (pop : gmap string R) : MatchGrade :=
  if decide (size pop = 0%nat) then Poor
  else if decide (covers 35 pop) then Perfect
  else if decide (covers 45 pop) then Great
  else if decide (covers 65 pop) then Okay
  else Poor.

(** A row of the table as a target pose, and the table. *)
Definition pose_target (row : list (string * Q)) : gmap string R :=
  list_to_map ((fun item => (item.1, Q2R item.2)) <$> row).

Definition reference_table : gmap Z (gmap string R) := pose_target <$> POSE_TARGETS.

(** The contract of the scorer: the grade of the current angles for
    a target identifier; an unknown identifier is poor. *)
Definition spec_score (current : gmap string R) (targetId : Z) : MatchGrade :=
  match reference_table !! targetId with
  | None => Poor
  | Some target => classify (population current target)
  end.

(** ** The population, joint by joint *)

Lemma population_lookup current target j :
  population current target !! j =
    match current !! j, target !! j with
    | Some x, Some t => Some (Rabs (x - t))
    | _, _ => None
    end.
Proof.
unfold population. rewrite lookup_intersection_with.
by destruct (current !! j), (target !! j).
Qed.

Lemma population_insert current target j t :
  target !! j = None ->
  population current (<[j := t]> target) =
    match current !! j with
    | Some x => <[j := Rabs (x - t)]> (population current target)
    | None => population current target
    end.
Proof.
intros Hj. apply map_eq. intros i. rewrite population_lookup.
destruct (decide (i = j)) as [->|Hij].
- rewrite lookup_insert_eq. destruct (current !! j) eqn:E.
  + by rewrite lookup_insert_eq.
  + by rewrite population_lookup, E.
- rewrite lookup_insert_ne by done.
  destruct (current !! j); [rewrite lookup_insert_ne by done|]; by rewrite population_lookup.
Qed.

Lemma population_empty current : population current (pose_target []) = ∅.
Proof. apply map_eq. intros j. by rewrite population_lookup, lookup_empty; destruct (_ !! j). Qed.

Lemma pose_target_cons j a row :
  pose_target ((j, a) :: row) = <[j := Q2R a]> (pose_target row).
Proof. done. Qed.

Lemma pose_target_lookup_None j row : j ∉ row.*1 -> pose_target row !! j = None.
Proof.
intros Hj. apply not_elem_of_list_to_map_1.
by rewrite <- list_fmap_compose.
Qed.

(** ** The list of differences is the population *)

Section Refinement.
Context {A : Type} `{RealNumber A}.
Implicit Types (c : gmap string A) (row : list (string * Q)).

Lemma population_differences (P : R -> Prop) {HP : forall d, Decision (P d)} c row :
  NoDup row.*1 ->
  size (filter (fun jd => P jd.2) (population (to_R <$> c) (pose_target row)))
  = count_if (fun d => bool_decide (P (to_R d))) (differences c row).
Proof.
induction row as [|[j a] row IH]; [by rewrite population_empty|].
rewrite fmap_cons. intros [Hj Hnd]%NoDup_cons.
assert (population (to_R <$> c) (pose_target row) !! j = None) as Hfresh
  by by rewrite population_lookup, pose_target_lookup_None, lookup_fmap; [destruct (c !! j)|].
rewrite pose_target_cons, population_insert, differences_cons, lookup_fmap
  by by apply pose_target_lookup_None.
destruct (c !! j) as [x|] eqn:E; simpl; [|by apply IH].
rewrite map_filter_insert, to_R_difference. simpl.
case_decide; case_bool_decide; try done.
- rewrite map_size_insert_None, IH; [done | done |].
  apply map_lookup_filter_None_2. by left.
- rewrite delete_id; [by apply IH | done].
Qed.

Lemma population_size c row :
  NoDup row.*1 ->
  size (population (to_R <$> c) (pose_target row)) = length (differences c row).
Proof.
intros Hnd.
etrans; [|apply (count_if_all (fun _ : A => bool_decide True)); by apply Forall_true].
etrans; [|by apply (population_differences (fun _ => True) (HP := fun _ => True_dec))].
by rewrite map_filter_id.
Qed.

Lemma population_coverage (threshold : Q) c row :
  NoDup row.*1 ->
  coverage (Q2R threshold) (population (to_R <$> c) (pose_target row))
  = angles_within threshold (differences c row).
Proof.
intros Hnd. unfold coverage, angles_within.
etrans; [by apply (population_differences (fun d => d <= Q2R threshold)
                       (HP := fun d => Rle_Decision d (Q2R threshold)))|].
apply count_if_ext. intros d _. apply eq_true_iff_eq.
by rewrite bool_decide_eq_true, num_leb_threshold.
Qed.

Lemma covers_three_quarters (n w : nat) :
  0.75 * INR n <= INR w <-> (3 * n <= 4 * w)%nat.
Proof.
split; intros Hle.
- apply INR_le. rewrite !mult_INR. simpl. lra.
- apply le_INR in Hle. rewrite !mult_INR in Hle. simpl in Hle. lra.
Qed.

Lemma covers_population (threshold : Q) (r : R) c row :
  NoDup row.*1 -> Q2R threshold = r ->
  covers r (population (to_R <$> c) (pose_target row)) <->
  (3 * length (differences c row) <= 4 * angles_within threshold (differences c row))%nat.
Proof.
intros Hnd <-. unfold covers.
by rewrite covers_three_quarters, population_size, population_coverage.
Qed.

Lemma classify_population c row :
  NoDup row.*1 ->
  score_differences (differences c row)
  = grade_value (classify (population (to_R <$> c) (pose_target row))).
Proof.
intros Hnd. rewrite score_differences_counts. unfold classify, grade_of_counts.
pose proof (population_size c row Hnd) as Hsize.
pose proof (covers_population PERFECT_THRESHOLD 35 c row Hnd (Q2R_literal 35)) as Hp.
pose proof (covers_population GREAT_THRESHOLD 45 c row Hnd (Q2R_literal 45)) as Hg.
pose proof (covers_population OKAY_THRESHOLD 65 c row Hnd (Q2R_literal 65)) as Ho.
set (ds := differences c row) in *. clearbody ds.
destruct ds; simpl in Hsize; repeat case_decide; (done || congruence || tauto).
Qed.

(** C1: [calculate_pose_score] implements the specified classification:
    for every dict of current angles, over any number type, and every
    target identifier, it returns the integer of the grade the
    specification gives to the real values of the dict. *)
Theorem calculate_pose_score_refines c (target_pose_val : Z) :
  calculate_pose_score c target_pose_val
  = grade_value (spec_score (to_R <$> c) target_pose_val).
Proof.
unfold calculate_pose_score, spec_score, reference_table. rewrite lookup_fmap.
destruct (POSE_TARGETS !! target_pose_val) as [row|] eqn:Hk; [|done]. simpl.
apply classify_population. apply POSE_TARGETS_wf in Hk as [-> _]. apply JOINTS_NoDup.
Qed.

End Refinement.
