(* ===== verification/Geometry.v ===== *)
(** * Geometry: [calculate_angle] of [src/backend.py] and [src/cv.py]

    Both files define the same function: the angle at [b] between the
    segments [b a] and [b c], in degrees.  It takes the difference of
    two [np.arctan2], turns it to degrees, takes the absolute value and
    folds a value above 180 back with [360 - angle].

    The model is over the real numbers.  [arctan2] is the mathematical
    function NumPy's [arctan2] approximates, defined from [atan] and
    [PI] by the sign of its arguments; signed zeros and non-finite
    values do not exist in the model.  A point is a pair: the source
    indexes a two-element list with [0] and [1]. *)

From Stdlib Require Import Reals Psatz.
From S2P Require Import Prelude.

#[local] Open Scope R_scope.

Definition Point : Type := R * R.

(** ** The model *)

(** [np.arctan2(y, x)]: the angle of the vector [(x, y)], in
    (-PI, PI], and 0 for the null vector. *)
Definition arctan2 (y x : R) : R :=
  if Rlt_dec 0 x then atan (y / x)
  else if Rlt_dec x 0 then
    if Rle_dec 0 y then atan (y / x) + PI else atan (y / x) - PI
  else if Rlt_dec 0 y then PI / 2
  else if Rlt_dec y 0 then - (PI / 2)
  else 0.

Definition calculate_angle (a b c : Point) : R :=
  let radians :=
    arctan2 (snd c - snd b) (fst c - fst b) - arctan2 (snd a - snd b) (fst a - fst b) in
  let angle := Rabs (radians * 180 / PI) in
  if Rlt_dec 180 angle then 360 - angle else angle.

(** ** [atan] and division by sign *)

Lemma atan_nonpos t : t <= 0 -> atan t <= 0.
Proof.
intros [Ht| ->]; [|rewrite atan_0; lra].
apply atan_increasing in Ht. rewrite atan_0 in Ht. lra.
Qed.

Lemma atan_pos t : 0 < t -> 0 < atan t.
Proof. intros Ht. apply atan_increasing in Ht. now rewrite atan_0 in Ht. Qed.

Lemma Rdiv_nonpos y x : 0 <= y -> x < 0 -> y / x <= 0.
Proof. intros Hy Hx. pose proof (Rinv_neg x Hx). unfold Rdiv. nra. Qed.

Lemma Rdiv_neg_neg y x : y < 0 -> x < 0 -> 0 < y / x.
Proof. intros Hy Hx. pose proof (Rinv_neg x Hx). unfold Rdiv. nra. Qed.

(** ** [arctan2] *)

(** [arctan2_cases] unfolds [arctan2] and splits on the signs of its
    arguments, closing the impossible cases. *)
Ltac arctan2_cases :=
  unfold arctan2;
  repeat (destruct (Rlt_dec _ _) as [?|?]); repeat (destruct (Rle_dec _ _) as [?|?]);
  try lra.

Lemma arctan2_bound y x : - PI < arctan2 y x <= PI.
Proof.
pose proof PI_RGT_0 as HPI. pose proof (atan_bound (y / x)) as Hb.
arctan2_cases.
- pose proof (atan_nonpos (y / x) (Rdiv_nonpos y x ltac:(lra) ltac:(lra))). lra.
- pose proof (atan_pos (y / x) (Rdiv_neg_neg y x ltac:(lra) ltac:(lra))). lra.
Qed.

Lemma arctan2_0_0 : arctan2 0 0 = 0.
Proof. arctan2_cases. Qed.

Lemma arctan2_0_pos x : 0 < x -> arctan2 0 x = 0.
Proof. intros Hx. arctan2_cases. unfold Rdiv. now rewrite Rmult_0_l, atan_0. Qed.

Lemma arctan2_0_neg x : x < 0 -> arctan2 0 x = PI.
Proof. intros Hx. arctan2_cases. unfold Rdiv. rewrite Rmult_0_l, atan_0. lra. Qed.

Lemma arctan2_pos_0 y : 0 < y -> arctan2 y 0 = PI / 2.
Proof. intros Hy. arctan2_cases. Qed.

Lemma arctan2_neg_0 y : y < 0 -> arctan2 y 0 = - (PI / 2).
Proof. intros Hy. arctan2_cases. Qed.

(** Scaling a vector by a positive factor keeps its angle. *)
Lemma arctan2_scale k y x : 0 < k -> arctan2 (k * y) (k * x) = arctan2 y x.
Proof.
intros Hk. unfold arctan2.
assert (forall u, (0 < k * u <-> 0 < u) /\ (k * u < 0 <-> u < 0) /\ (0 <= k * u <-> 0 <= u))
  as Hsign by (intros u; nra).
destruct (Rlt_dec 0 x) as [Hx|Hx], (Rlt_dec 0 (k * x)) as [Hkx|Hkx];
  try (exfalso; apply (Hsign x) in Hkx || apply (Hsign x) in Hx; tauto).
- f_equal. field. lra.
- destruct (Rlt_dec x 0) as [Hx'|Hx'], (Rlt_dec (k * x) 0) as [Hkx'|Hkx'];
    try (exfalso; apply (Hsign x) in Hkx' || apply (Hsign x) in Hx'; tauto).
  + replace (k * y / (k * x)) with (y / x) by (field; lra).
    destruct (Rle_dec 0 y) as [Hy|Hy], (Rle_dec 0 (k * y)) as [Hky|Hky]; try reflexivity;
      exfalso; apply (Hsign y) in Hky || apply (Hsign y) in Hy; tauto.
  + destruct (Rlt_dec 0 y) as [Hy|Hy], (Rlt_dec 0 (k * y)) as [Hky|Hky]; try reflexivity;
      try (exfalso; apply (Hsign y) in Hky || apply (Hsign y) in Hy; tauto).
    destruct (Rlt_dec y 0) as [Hy'|Hy'], (Rlt_dec (k * y) 0) as [Hky'|Hky']; try reflexivity;
      exfalso; apply (Hsign y) in Hky' || apply (Hsign y) in Hy'; tauto.
Qed.

(** ** Degrees *)

Lemma degrees_bound r : - (2 * PI) < r < 2 * PI -> Rabs (r * 180 / PI) < 360.
Proof.
intros Hr. pose proof PI_RGT_0 as HPI.
replace (r * 180 / PI) with (180 * (r / PI)) by (field; lra).
assert (-2 < r / PI < 2) as Hu.
{ pose proof (Rinv_0_lt_compat PI HPI) as Hinv.
  pose proof (Rinv_r PI ltac:(lra)) as Hone. unfold Rdiv. nra. }
apply Rabs_def1; lra.
Qed.

Lemma degrees_PI2 : PI / 2 * 180 / PI = 90.
Proof. pose proof PI_RGT_0. field. lra. Qed.

Lemma degrees_PI : PI * 180 / PI = 180.
Proof. pose proof PI_RGT_0. field. lra. Qed.

(** ** Folding to [0, 180]

    [fold_angle] is what [calculate_angle] does with the difference of
    the two [arctan2]: to degrees, absolute value, and [360 - angle]
    above 180. *)
Definition fold_angle (radians : R) : R :=
  let angle := Rabs (radians * 180 / PI) in
  if Rlt_dec 180 angle then 360 - angle else angle.

Lemma calculate_angle_fold (a b c : Point) :
  calculate_angle a b c =
    fold_angle (arctan2 (snd c - snd b) (fst c - fst b)
                - arctan2 (snd a - snd b) (fst a - fst b)).
Proof. reflexivity. Qed.

Lemma fold_angle_range r : - (2 * PI) < r < 2 * PI -> 0 <= fold_angle r <= 180.
Proof.
intros Hr. unfold fold_angle.
pose proof (degrees_bound r Hr). pose proof (Rabs_pos (r * 180 / PI)).
destruct (Rlt_dec _ _); lra.
Qed.

Lemma fold_angle_opp r : fold_angle (- r) = fold_angle r.
Proof.
unfold fold_angle. pose proof PI_RGT_0.
replace (- r * 180 / PI) with (- (r * 180 / PI)) by (field; lra).
now rewrite Rabs_Ropp.
Qed.

Lemma arctan2_diff_bound y1 x1 y2 x2 :
  - (2 * PI) < arctan2 y1 x1 - arctan2 y2 x2 < 2 * PI.
Proof.
pose proof (arctan2_bound y1 x1). pose proof (arctan2_bound y2 x2). lra.
Qed.

Lemma fold_angle_0 : fold_angle 0 = 0.
Proof.
unfold fold_angle. replace (0 * 180 / PI) with 0 by (unfold Rdiv; ring).
rewrite Rabs_R0. destruct (Rlt_dec 180 0); lra.
Qed.

Lemma fold_angle_PI2 : fold_angle (PI / 2) = 90.
Proof.
unfold fold_angle. rewrite degrees_PI2, Rabs_pos_eq by lra.
destruct (Rlt_dec 180 90); lra.
Qed.

Lemma fold_angle_PI : fold_angle PI = 180.
Proof.
unfold fold_angle. rewrite degrees_PI, Rabs_pos_eq by lra.
destruct (Rlt_dec 180 180); lra.
Qed.

(** ** [calculate_angle] *)

(** C14: the angle is between 0 and 180 degrees for any three points. *)
Theorem calculate_angle_range (a b c : Point) : 0 <= calculate_angle a b c <= 180.
Proof. rewrite calculate_angle_fold. apply fold_angle_range, arctan2_diff_bound. Qed.

(** C26: the angle does not depend on the order of the two end points. *)
Theorem calculate_angle_sym (a b c : Point) :
  calculate_angle a b c = calculate_angle c b a.
Proof.
rewrite !calculate_angle_fold, <- fold_angle_opp. f_equal. ring.
Qed.

(** C27: moving the three points by the same vector keeps the angle. *)
Theorem calculate_angle_translate (a b c : Point) (dx dy : R) :
  calculate_angle (fst a + dx, snd a + dy) (fst b + dx, snd b + dy)
    (fst c + dx, snd c + dy)
  = calculate_angle a b c.
Proof.
unfold calculate_angle; simpl.
replace (snd c + dy - (snd b + dy)) with (snd c - snd b) by ring.
replace (fst c + dx - (fst b + dx)) with (fst c - fst b) by ring.
replace (snd a + dy - (snd b + dy)) with (snd a - snd b) by ring.
replace (fst a + dx - (fst b + dx)) with (fst a - fst b) by ring.
reflexivity.
Qed.

(** C28: the angle only depends on the directions of the two segments:
    stretching either segment from the vertex by a positive factor
    keeps it. *)
Theorem calculate_angle_scale (a b c : Point) (k m : R) :
  0 < k -> 0 < m ->
  calculate_angle (fst b + k * (fst a - fst b), snd b + k * (snd a - snd b)) b
    (fst b + m * (fst c - fst b), snd b + m * (snd c - snd b))
  = calculate_angle a b c.
Proof.
intros Hk Hm. unfold calculate_angle; simpl.
replace (snd b + m * (snd c - snd b) - snd b) with (m * (snd c - snd b)) by ring.
replace (fst b + m * (fst c - fst b) - fst b) with (m * (fst c - fst b)) by ring.
replace (snd b + k * (snd a - snd b) - snd b) with (k * (snd a - snd b)) by ring.
replace (fst b + k * (fst a - fst b) - fst b) with (k * (fst a - fst b)) by ring.
now rewrite !arctan2_scale.
Qed.

(** Angles of axis-parallel segments. *)
Lemma calculate_angle_same (a b : Point) : calculate_angle a b a = 0.
Proof. rewrite calculate_angle_fold, Rminus_diag. apply fold_angle_0. Qed.

Lemma calculate_angle_right_example : calculate_angle (1, 0) (0, 0) (0, 1) = 90.
Proof.
rewrite calculate_angle_fold; simpl. rewrite !Rminus_0_r.
rewrite arctan2_pos_0, arctan2_0_pos by lra. rewrite Rminus_0_r. apply fold_angle_PI2.
Qed.

Lemma calculate_angle_straight_example : calculate_angle (1, 0) (0, 0) (-1, 0) = 180.
Proof.
rewrite calculate_angle_fold; simpl. rewrite !Rminus_0_r.
rewrite arctan2_0_neg, arctan2_0_pos by lra. rewrite Rminus_0_r. apply fold_angle_PI.
Qed.

(** ** The law of cosines

    The reference definition of the angle at [b]: the arc cosine of the
    normalised dot product of the two segments, in degrees.  The
    [arctan2] of a non-null vector has the cosine and sine of that
    vector, so the difference of two of them has the cosine of the
    reference angle; folding keeps the cosine and lands in [0, PI]. *)
Definition norm (x y : R) : R := sqrt (x² + y²).
Definition vec (b a : Point) : Point := (fst a - fst b, snd a - snd b).
Definition dot (u v : Point) : R := fst u * fst v + snd u * snd v.
Definition vec_length (u : Point) : R := norm (fst u) (snd u).

Definition reference_angle (a b c : Point) : R :=
  acos (dot (vec b a) (vec b c) / (vec_length (vec b a) * vec_length (vec b c)))
  * 180 / PI.

Lemma norm_pos x y : x <> 0 \/ y <> 0 -> 0 < norm x y.
Proof.
intros Hxy. apply sqrt_lt_R0. unfold Rsqr. destruct Hxy; nra.
Qed.

Lemma norm_factor x y : x <> 0 -> norm x y = Rabs x * sqrt (1 + (y / x)²).
Proof.
intros Hx. unfold norm. rewrite <- sqrt_Rsqr_abs, <- sqrt_mult.
- f_equal. unfold Rsqr. now field.
- apply Rle_0_sqr.
- pose proof (Rle_0_sqr (y / x)). lra.
Qed.

Lemma norm_0_l y : norm 0 y = Rabs y.
Proof. unfold norm. rewrite Rsqr_0, Rplus_0_l. apply sqrt_Rsqr_abs. Qed.

Lemma sqrt_1_sqr_pos t : 0 < sqrt (1 + t²).
Proof. apply sqrt_lt_R0. pose proof (Rle_0_sqr t). lra. Qed.

Lemma cos_sub_PI t : cos (t - PI) = - cos t.
Proof. rewrite cos_minus, cos_PI, sin_PI. ring. Qed.

Lemma sin_sub_PI t : sin (t - PI) = - sin t.
Proof. rewrite sin_minus, cos_PI, sin_PI. ring. Qed.

Lemma cos_Rabs r : cos (Rabs r) = cos r.
Proof. unfold Rabs. destruct (Rcase_abs r); [apply cos_neg | reflexivity]. Qed.

(** [arctan2 y x] is the direction of [(x, y)]. *)
Lemma cos_sin_arctan2 y x :
  x <> 0 \/ y <> 0 ->
  cos (arctan2 y x) = x / norm x y /\ sin (arctan2 y x) = y / norm x y.
Proof.
intros Hxy. pose proof (norm_pos x y Hxy) as Hn.
pose proof (sqrt_1_sqr_pos (y / x)) as Hs.
arctan2_cases.
- rewrite cos_atan, sin_atan, norm_factor, Rabs_pos_eq by lra. split; field; lra.
- rewrite neg_cos, neg_sin, cos_atan, sin_atan, norm_factor, Rabs_left by lra.
  split; field; lra.
- rewrite cos_sub_PI, sin_sub_PI, cos_atan, sin_atan, norm_factor, Rabs_left by lra.
  split; field; lra.
- assert (x = 0) as -> by lra. rewrite cos_PI2, sin_PI2, norm_0_l, Rabs_pos_eq by lra.
  split; field; lra.
- assert (x = 0) as -> by lra.
  rewrite cos_neg, sin_neg, cos_PI2, sin_PI2, norm_0_l, Rabs_left by lra.
  split; field; lra.
Qed.

Lemma Rabs_degrees r : Rabs (r * 180 / PI) = Rabs r * 180 / PI.
Proof.
pose proof PI_RGT_0 as HPI.
replace (r * 180 / PI) with (r * (180 / PI)) by (field; lra).
assert (0 < 180 / PI) by (apply Rdiv_lt_0_compat; lra).
rewrite Rabs_mult, (Rabs_pos_eq (180 / PI)) by lra. field. lra.
Qed.

Lemma degrees_le r : r <= PI <-> r * 180 / PI <= 180.
Proof.
pose proof PI_RGT_0 as HPI. rewrite <- degrees_PI at 2. unfold Rdiv.
pose proof (Rinv_0_lt_compat PI HPI). split; intros Hr; nra.
Qed.

(** Folding, in radians: [|r|] or [2 PI - |r|]. *)
Lemma fold_angle_radians r :
  fold_angle r * PI / 180 = Rabs r \/ fold_angle r * PI / 180 = 2 * PI - Rabs r.
Proof.
pose proof PI_RGT_0 as HPI. unfold fold_angle. rewrite Rabs_degrees.
destruct (Rlt_dec _ _); [right | left]; field; lra.
Qed.

Lemma fold_angle_small r : Rabs r <= PI -> fold_angle r = Rabs r * 180 / PI.
Proof.
intros Hr. unfold fold_angle. rewrite Rabs_degrees.
apply degrees_le in Hr. destruct (Rlt_dec _ _); lra.
Qed.

Lemma cos_fold_angle r : cos (fold_angle r * PI / 180) = cos r.
Proof.
destruct (fold_angle_radians r) as [-> | ->].
- apply cos_Rabs.
- rewrite cos_minus, cos_2PI, sin_2PI, cos_Rabs. ring.
Qed.

Lemma fold_angle_radians_range r :
  - (2 * PI) < r < 2 * PI -> 0 <= fold_angle r * PI / 180 <= PI.
Proof.
intros Hr. pose proof PI_RGT_0. pose proof (fold_angle_range r Hr). split.
- apply Rmult_le_pos; [nra | lra].
- apply degrees_le. replace (fold_angle r * PI / 180 * 180 / PI) with (fold_angle r); [lra|].
  field. lra.
Qed.

Lemma vec_nonzero (b p : Point) : p <> b -> fst p - fst b <> 0 \/ snd p - snd b <> 0.
Proof.
destruct p as [px py], b as [bx by_]; simpl. intros Hp.
destruct (Req_dec (px - bx) 0), (Req_dec (py - by_) 0); auto.
exfalso. apply Hp. f_equal; lra.
Qed.

(** The cosine of the computed angle is the normalised dot product. *)
Lemma cos_calculate_angle (a b c : Point) :
  a <> b -> c <> b ->
  cos (calculate_angle a b c * PI / 180)
  = dot (vec b a) (vec b c) / (vec_length (vec b a) * vec_length (vec b c)).
Proof.
intros Ha%vec_nonzero Hc%vec_nonzero.
rewrite calculate_angle_fold, cos_fold_angle, cos_minus.
destruct (cos_sin_arctan2 _ _ Ha) as [-> ->], (cos_sin_arctan2 _ _ Hc) as [-> ->].
pose proof (norm_pos _ _ Ha). pose proof (norm_pos _ _ Hc).
unfold dot, vec, vec_length; simpl. field. lra.
Qed.

(** C2: for distinct points the computed angle is the reference angle:
    the arc cosine of the normalised dot product of the segments from
    the vertex, in degrees. *)
Theorem calculate_angle_reference (a b c : Point) :
  a <> b -> c <> b -> calculate_angle a b c = reference_angle a b c.
Proof.
intros Ha Hc. unfold reference_angle.
rewrite <- (cos_calculate_angle a b c Ha Hc), acos_cos.
- pose proof PI_RGT_0. field. lra.
- rewrite calculate_angle_fold. apply fold_angle_radians_range, arctan2_diff_bound.
Qed.

(** C36: when the first point is the vertex the result is the angle of
    the other segment with the positive x axis, not 0 and not an error:
    [arctan2 0 0] is 0. *)
Theorem calculate_angle_degenerate (b c : Point) :
  calculate_angle b b c = Rabs (arctan2 (snd c - snd b) (fst c - fst b)) * 180 / PI.
Proof.
rewrite calculate_angle_fold, !Rminus_diag, arctan2_0_0, Rminus_0_r.
apply fold_angle_small, Rabs_le.
pose proof (arctan2_bound (snd c - snd b) (fst c - fst b)). lra.
Qed.

(** ** Mirror images and rotations

    [gen_frames] flips every frame horizontally before the detection
    ([cv2.flip(frame, 1)]): a landmark at [x] in the camera image is at
    [w - x] in the flipped one, with [w = 1] in normalised coordinates.
    A tilted camera rotates the image.  Neither changes the angle at a
    joint whose neighbours are distinct from it. *)
Definition flip (w : R) (p : Point) : Point := (w - fst p, snd p).

Definition rotate (t : R) (p : Point) : Point :=
  (fst p * cos t - snd p * sin t, fst p * sin t + snd p * cos t).

Lemma calculate_angle_radians_range (a b c : Point) :
  0 <= calculate_angle a b c * PI / 180 <= PI.
Proof. rewrite calculate_angle_fold. apply fold_angle_radians_range, arctan2_diff_bound. Qed.

Lemma calculate_angle_cos_inj (a b c a' b' c' : Point) :
  cos (calculate_angle a b c * PI / 180) = cos (calculate_angle a' b' c' * PI / 180) ->
  calculate_angle a b c = calculate_angle a' b' c'.
Proof.
intros E. apply (f_equal acos) in E.
rewrite !acos_cos in E by apply calculate_angle_radians_range.
pose proof PI_RGT_0. apply (Rmult_eq_reg_r PI); lra.
Qed.

Lemma norm_sqr x y : (norm x y)² = x² + y².
Proof. apply Rsqr_sqrt. pose proof (Rle_0_sqr x). pose proof (Rle_0_sqr y). lra. Qed.

Lemma norm_eq x y x' y' : x² + y² = x'² + y'² -> norm x y = norm x' y'.
Proof. unfold norm. now intros ->. Qed.

Lemma flip_inj w p q : flip w p = flip w q -> p = q.
Proof. destruct p, q. unfold flip; simpl. intros [=]. f_equal; lra. Qed.

(** A vector whose rotation is null is null. *)
Lemma rotate_null t u v :
  u * cos t - v * sin t = 0 -> u * sin t + v * cos t = 0 -> u = 0 /\ v = 0.
Proof.
intros E1 E2. pose proof (sin2_cos2 t) as Hsc. unfold Rsqr in Hsc.
assert (u = (u * cos t - v * sin t) * cos t + (u * sin t + v * cos t) * sin t) as Hu
  by (transitivity (u * (sin t * sin t + cos t * cos t)); [rewrite Hsc|]; ring).
assert (v = (u * sin t + v * cos t) * cos t - (u * cos t - v * sin t) * sin t) as Hv
  by (transitivity (v * (sin t * sin t + cos t * cos t)); [rewrite Hsc|]; ring).
split; [rewrite Hu | rewrite Hv]; rewrite E1, E2; ring.
Qed.

Lemma rotate_inj t p q : rotate t p = rotate t q -> p = q.
Proof.
destruct p as [x y], q as [x' y']. unfold rotate; simpl. intros [= E1 E2].
destruct (rotate_null t (x - x') (y - y')) as [Hx Hy]; [lra | lra |].
f_equal; lra.
Qed.

(** C29: the horizontal flip of the frame keeps the angle at every joint
    whose two neighbours are distinct from it. *)
Theorem calculate_angle_flip (w : R) (a b c : Point) :
  a <> b -> c <> b ->
  calculate_angle (flip w a) (flip w b) (flip w c) = calculate_angle a b c.
Proof.
intros Ha Hc. apply calculate_angle_cos_inj.
rewrite !cos_calculate_angle
  by (assumption || (intros E; apply flip_inj in E; contradiction)).
unfold dot, vec, vec_length, flip; simpl. f_equal; [ring|].
f_equal; apply norm_eq; unfold Rsqr; ring.
Qed.

(** C30: rotating the image about the origin by any angle keeps the
    angle at every joint whose two neighbours are distinct from it. *)
Theorem calculate_angle_rotate (t : R) (a b c : Point) :
  a <> b -> c <> b ->
  calculate_angle (rotate t a) (rotate t b) (rotate t c) = calculate_angle a b c.
Proof.
intros Ha Hc. apply calculate_angle_cos_inj.
rewrite !cos_calculate_angle
  by (assumption || (intros E; apply rotate_inj in E; contradiction)).
assert (cos t * cos t = 1 - sin t * sin t) as Hsc
  by (pose proof (sin2_cos2 t) as Hsc; unfold Rsqr in Hsc; lra).
unfold dot, vec, vec_length, rotate; simpl. f_equal; [ring [Hsc]|].
f_equal; apply norm_eq; unfold Rsqr; ring [Hsc].
Qed.

Lemma calculate_angle_flip_witness :
  calculate_angle (flip 1 (1, 0)) (flip 1 (0, 0)) (flip 1 (0, 1))
  = calculate_angle (1, 0) (0, 0) (0, 1).
Proof. apply (calculate_angle_flip 1 (1, 0) (0, 0) (0, 1)); intros [=]; lra. Defined.

Lemma calculate_angle_rotate_witness :
  calculate_angle (rotate (PI / 2) (1, 0)) (rotate (PI / 2) (0, 0)) (rotate (PI / 2) (0, 1))
  = calculate_angle (1, 0) (0, 0) (0, 1).
Proof. apply (calculate_angle_rotate (PI / 2) (1, 0) (0, 0) (0, 1)); intros [=]; lra. Defined.

Lemma calculate_angle_reference_witness :
  calculate_angle (1, 0) (0, 0) (0, 1) = reference_angle (1, 0) (0, 0) (0, 1).
Proof. apply (calculate_angle_reference (1, 0) (0, 0) (0, 1)); intros [=]; lra. Defined.

Lemma calculate_angle_scale_witness :
  calculate_angle (0 + 2 * (1 - 0), 0 + 2 * (0 - 0)) (0, 0) (0 + 3 * (0 - 0), 0 + 3 * (1 - 0))
  = calculate_angle (1, 0) (0, 0) (0, 1).
Proof. apply (calculate_angle_scale (1, 0) (0, 0) (0, 1) 2 3); lra. Defined.
