(* ===== verification/Landmarks.v ===== *)
(** * Landmarks: from the detected skeleton to the joint angles

    MediaPipe returns a list of landmarks; both programs index it with
    the members of [PoseLandmark] and read the fields [x] and [y].  The
    twelve members the programs use are the constructors of
    [PoseLandmark]; a detection is a function from them to a landmark.

    - [live_angles] is the part of [gen_frames] ([src/backend.py]) that
      builds the dict [current_angles] from a detection;
    - [joints] and [analyze_angles] are the two dict literals of
      [analyze_pose] ([src/cv.py]), and [analyze_pose] the function.

    The angle function is a parameter ([AngleCalculator]): this file
    states what it needs of it ([AngleCalculatorLaws]), proves its
    lemmas against that, and at the end shows that
    [Geometry.calculate_angle] provides it. *)

From Stdlib Require Import ZArith QArith Reals Psatz.
From stdpp Require Import gmap strings list.
From S2P Require Import Prelude Numeric PoseTable Geometry.

#[local] Open Scope string_scope.

(** ** What this component needs of the angle function *)

Class AngleCalculator (C A : Type) : Type :=
  calc_angle : C * C -> C * C -> C * C -> A.

Class AngleCalculatorLaws (C A : Type) `{AngleCalculator C A} `{RealNumber A} : Prop := {
  calc_angle_range a b c : (0 <= to_R (calc_angle a b c) <= 180)%R;
  calc_angle_sym a b c : calc_angle a b c = calc_angle c b a;
}.

(** ** The detection *)

Inductive PoseLandmark : Type :=
| LEFT_SHOULDER | RIGHT_SHOULDER | LEFT_ELBOW | RIGHT_ELBOW
| LEFT_WRIST | RIGHT_WRIST | LEFT_HIP | RIGHT_HIP
| LEFT_KNEE | RIGHT_KNEE | LEFT_ANKLE | RIGHT_ANKLE.

#[export] Instance PoseLandmark_eq_dec : EqDecision PoseLandmark.
Proof. solve_decision. Defined.

(** The body landmark of the other side. *)
Definition mirror (l : PoseLandmark) : PoseLandmark :=
  match l with
  | LEFT_SHOULDER => RIGHT_SHOULDER | RIGHT_SHOULDER => LEFT_SHOULDER
  | LEFT_ELBOW => RIGHT_ELBOW | RIGHT_ELBOW => LEFT_ELBOW
  | LEFT_WRIST => RIGHT_WRIST | RIGHT_WRIST => LEFT_WRIST
  | LEFT_HIP => RIGHT_HIP | RIGHT_HIP => LEFT_HIP
  | LEFT_KNEE => RIGHT_KNEE | RIGHT_KNEE => LEFT_KNEE
  | LEFT_ANKLE => RIGHT_ANKLE | RIGHT_ANKLE => LEFT_ANKLE
  end.

(** A landmark: the fields [z] and [visibility] are never read. *)
Record Landmark (C : Type) : Type := { x : C; y : C }.
Arguments x {C} _.
Arguments y {C} _.

Section Angles.
Context {C A : Type} `{AngleCalculator C A}.
Implicit Types (landmarks : PoseLandmark -> Landmark C).

(** [[landmarks[l.value].x, landmarks[l.value].y]] *)
Definition point landmarks (l : PoseLandmark) : C * C :=
  (x (landmarks l), y (landmarks l)).

(** *** The live path ([gen_frames]) *)

Definition live_angles landmarks : gmap string A :=
  let left_shoulder := point landmarks RIGHT_SHOULDER in
  let left_elbow := point landmarks RIGHT_ELBOW in
  let left_wrist := point landmarks RIGHT_WRIST in
  let right_shoulder := point landmarks LEFT_SHOULDER in
  let right_elbow := point landmarks LEFT_ELBOW in
  let right_wrist := point landmarks LEFT_WRIST in
  let left_hip := point landmarks RIGHT_HIP in
  let left_knee := point landmarks RIGHT_KNEE in
  let left_ankle := point landmarks RIGHT_ANKLE in
  let right_hip := point landmarks LEFT_HIP in
  let right_knee := point landmarks LEFT_KNEE in
  let right_ankle := point landmarks LEFT_ANKLE in
  let left_shoulder_angle := calc_angle left_shoulder left_elbow left_wrist in
  let left_elbow_angle := calc_angle left_shoulder left_elbow left_wrist in
  let left_hip_angle := calc_angle left_hip left_knee left_ankle in
  let left_knee_angle := calc_angle left_hip left_knee left_ankle in
  let right_shoulder_angle := calc_angle right_shoulder right_elbow right_wrist in
  let right_elbow_angle := calc_angle right_shoulder right_elbow right_wrist in
  let right_hip_angle := calc_angle right_hip right_knee right_ankle in
  let right_knee_angle := calc_angle right_hip right_knee right_ankle in
  {[ "left_shoulder" := left_shoulder_angle;
     "left_elbow" := left_elbow_angle;
     "right_shoulder" := right_shoulder_angle;
     "right_elbow" := right_elbow_angle;
     "left_hip" := left_hip_angle;
     "left_knee" := left_knee_angle;
     "right_hip" := right_hip_angle;
     "right_knee" := right_knee_angle ]}.

(** *** The still-image path ([analyze_pose]) *)

Definition joints landmarks : gmap string (C * C) :=
  {[ "left_shoulder" := point landmarks LEFT_SHOULDER;
     "left_elbow" := point landmarks LEFT_ELBOW;
     "left_wrist" := point landmarks LEFT_WRIST;
     "left_hip" := point landmarks LEFT_HIP;
     "left_knee" := point landmarks LEFT_KNEE;
     "left_ankle" := point landmarks LEFT_ANKLE;
     "right_shoulder" := point landmarks RIGHT_SHOULDER;
     "right_elbow" := point landmarks RIGHT_ELBOW;
     "right_wrist" := point landmarks RIGHT_WRIST;
     "right_hip" := point landmarks RIGHT_HIP;
     "right_knee" := point landmarks RIGHT_KNEE;
     "right_ankle" := point landmarks RIGHT_ANKLE ]}.

(** [calculate_angle(joints[a], joints[b], joints[c])]: a missing key
    would raise [KeyError], which is [None] here. *)
Definition joint_angle (joints : gmap string (C * C)) (a b c : string) : option A :=
  pa ← joints !! a; pb ← joints !! b; pc ← joints !! c; Some (calc_angle pa pb pc).

Definition analyze_angles (joints : gmap string (C * C)) : option (gmap string A) :=
  left_shoulder ← joint_angle joints "left_hip" "left_shoulder" "left_elbow";
  left_elbow ← joint_angle joints "left_shoulder" "left_elbow" "left_wrist";
  right_shoulder ← joint_angle joints "right_hip" "right_shoulder" "right_elbow";
  right_elbow ← joint_angle joints "right_shoulder" "right_elbow" "right_wrist";
  left_hip ← joint_angle joints "left_shoulder" "left_hip" "left_knee";
  left_knee ← joint_angle joints "left_hip" "left_knee" "left_ankle";
  right_hip ← joint_angle joints "right_shoulder" "right_hip" "right_knee";
  right_knee ← joint_angle joints "right_hip" "right_knee" "right_ankle";
  Some {[ "left_shoulder" := left_shoulder;
          "left_elbow" := left_elbow;
          "right_shoulder" := right_shoulder;
          "right_elbow" := right_elbow;
          "left_hip" := left_hip;
          "left_knee" := left_knee;
          "right_hip" := right_hip;
          "right_knee" := right_knee ]}.

End Angles.

Section AnalyzePose.
Context {C A Image : Type} `{AngleCalculator C A}.

(** [analyze_pose(image_path)]: [imread] is [cv2.imread] and [process]
    is [pose.process] followed by [results.pose_landmarks]; both may
    find nothing. *)
Definition analyze_pose (imread : string -> option Image)
    (process : Image -> option (PoseLandmark -> Landmark C))
    (image_path : string) : option (gmap string A) :=
  match imread image_path with
  | None => None
  | Some image =>
      match process image with
      | None => None
      | Some landmarks => analyze_angles (joints landmarks)
      end
  end.

End AnalyzePose.

(** ** The entries of the dicts *)

Section Entries.
Context {C A : Type} `{AngleCalculator C A}.
Implicit Types (landmarks : PoseLandmark -> Landmark C).

(** The angle at the middle one of three landmarks. *)
Definition angle_at landmarks (l1 l2 l3 : PoseLandmark) : A :=
  calc_angle (point landmarks l1) (point landmarks l2) (point landmarks l3).

(** The detection with the two sides of the body exchanged. *)
Definition mirrored landmarks : PoseLandmark -> Landmark C :=
  fun l => landmarks (mirror l).

Lemma joint_angle_joints landmarks (a b c : string) (la lb lc : PoseLandmark) :
  joints landmarks !! a = Some (point landmarks la) ->
  joints landmarks !! b = Some (point landmarks lb) ->
  joints landmarks !! c = Some (point landmarks lc) ->
  joint_angle (joints landmarks) a b c = Some (angle_at landmarks la lb lc).
Proof. unfold joint_angle. by intros -> -> ->. Qed.

(** The dict of the still-image path, entry by entry: no lookup of
    [joints] fails. *)
Lemma analyze_angles_joints landmarks :
  analyze_angles (joints landmarks) = Some
    {[ "left_shoulder" := angle_at landmarks LEFT_HIP LEFT_SHOULDER LEFT_ELBOW;
       "left_elbow" := angle_at landmarks LEFT_SHOULDER LEFT_ELBOW LEFT_WRIST;
       "right_shoulder" := angle_at landmarks RIGHT_HIP RIGHT_SHOULDER RIGHT_ELBOW;
       "right_elbow" := angle_at landmarks RIGHT_SHOULDER RIGHT_ELBOW RIGHT_WRIST;
       "left_hip" := angle_at landmarks LEFT_SHOULDER LEFT_HIP LEFT_KNEE;
       "left_knee" := angle_at landmarks LEFT_HIP LEFT_KNEE LEFT_ANKLE;
       "right_hip" := angle_at landmarks RIGHT_SHOULDER RIGHT_HIP RIGHT_KNEE;
       "right_knee" := angle_at landmarks RIGHT_HIP RIGHT_KNEE RIGHT_ANKLE ]}.
Proof.
vm_refl.
Qed.

(** The dict of the live path, entry by entry. *)
Lemma live_angles_entries landmarks :
  live_angles landmarks =
    {[ "left_shoulder" := angle_at landmarks RIGHT_SHOULDER RIGHT_ELBOW RIGHT_WRIST;
       "left_elbow" := angle_at landmarks RIGHT_SHOULDER RIGHT_ELBOW RIGHT_WRIST;
       "right_shoulder" := angle_at landmarks LEFT_SHOULDER LEFT_ELBOW LEFT_WRIST;
       "right_elbow" := angle_at landmarks LEFT_SHOULDER LEFT_ELBOW LEFT_WRIST;
       "left_hip" := angle_at landmarks RIGHT_HIP RIGHT_KNEE RIGHT_ANKLE;
       "left_knee" := angle_at landmarks RIGHT_HIP RIGHT_KNEE RIGHT_ANKLE;
       "right_hip" := angle_at landmarks LEFT_HIP LEFT_KNEE LEFT_ANKLE;
       "right_knee" := angle_at landmarks LEFT_HIP LEFT_KNEE LEFT_ANKLE ]}.
Proof. reflexivity. Qed.

(** Both dicts have exactly the eight joints of the table as keys. *)
Lemma eight_entries_dom (a1 a2 a3 a4 a5 a6 a7 a8 : A) (joint : string) :
  is_Some (({[ "left_shoulder" := a1; "left_elbow" := a2; "right_shoulder" := a3;
               "right_elbow" := a4; "left_hip" := a5; "left_knee" := a6;
               "right_hip" := a7; "right_knee" := a8 ]} : gmap string A) !! joint)
  <-> joint ∈ JOINTS.
Proof.
rewrite <- elem_of_dom, !dom_insert_L, dom_singleton_L.
rewrite !elem_of_union, !elem_of_singleton.
unfold JOINTS. rewrite !elem_of_cons, elem_of_nil. tauto.
Qed.

Lemma eight_entries_lookup (a1 a2 a3 a4 a5 a6 a7 a8 : A) (joint : string) :
  ({[ "left_shoulder" := a1; "left_elbow" := a2; "right_shoulder" := a3;
      "right_elbow" := a4; "left_hip" := a5; "left_knee" := a6;
      "right_hip" := a7; "right_knee" := a8 ]} : gmap string A) !! joint =
    if decide (joint = "left_shoulder") then Some a1
    else if decide (joint = "left_elbow") then Some a2
    else if decide (joint = "right_shoulder") then Some a3
    else if decide (joint = "right_elbow") then Some a4
    else if decide (joint = "left_hip") then Some a5
    else if decide (joint = "left_knee") then Some a6
    else if decide (joint = "right_hip") then Some a7
    else if decide (joint = "right_knee") then Some a8
    else None.
Proof. repeat case_decide; simplify_map_eq; done. Qed.

Lemma live_angles_is_Some landmarks (joint : string) :
  is_Some (live_angles landmarks !! joint) <-> joint ∈ JOINTS.
Proof. rewrite live_angles_entries. apply eight_entries_dom. Qed.

(** In the live dict, the source of each entry in the dict of the
    still-image path: the shoulder entries hold the elbow angles and
    the hip entries the knee angles. *)
Definition live_source (joint : string) : string :=
  if decide (joint = "left_shoulder") then "left_elbow"
  else if decide (joint = "right_shoulder") then "right_elbow"
  else if decide (joint = "left_hip") then "left_knee"
  else if decide (joint = "right_hip") then "right_knee"
  else joint.

Lemma eight_entries_None (a1 a2 a3 a4 a5 a6 a7 a8 : A) (joint : string) :
  joint ∉ JOINTS ->
  ({[ "left_shoulder" := a1; "left_elbow" := a2; "right_shoulder" := a3;
      "right_elbow" := a4; "left_hip" := a5; "left_knee" := a6;
      "right_hip" := a7; "right_knee" := a8 ]} : gmap string A) !! joint = None.
Proof. intros Hj. apply eq_None_not_Some. by rewrite eight_entries_dom. Qed.

Lemma live_source_other (joint : string) : joint ∉ JOINTS -> live_source joint = joint.
Proof.
intros Hj. unfold live_source.
rewrite !decide_False; [done|intros ->; apply Hj; unfold JOINTS; repeat constructor..].
Qed.

End Entries.

(** * Properties *)

Section Properties.
Context {C A : Type} `{AngleCalculator C A}.
Implicit Types (landmarks : PoseLandmark -> Landmark C).

(** C15: in the live path the shoulder entry of each side holds the
    angle at the elbow (shoulder, elbow, wrist), the same value as the
    elbow entry, and the hip entry holds the angle at the knee (hip,
    knee, ankle), the same value as the knee entry; the entries named
    left are computed from the landmarks named right and conversely. *)
Theorem live_angles_duplicates landmarks :
  live_angles landmarks !! "left_shoulder"
    = Some (angle_at landmarks RIGHT_SHOULDER RIGHT_ELBOW RIGHT_WRIST) /\
  live_angles landmarks !! "left_elbow" = live_angles landmarks !! "left_shoulder" /\
  live_angles landmarks !! "right_shoulder"
    = Some (angle_at landmarks LEFT_SHOULDER LEFT_ELBOW LEFT_WRIST) /\
  live_angles landmarks !! "right_elbow" = live_angles landmarks !! "right_shoulder" /\
  live_angles landmarks !! "left_hip"
    = Some (angle_at landmarks RIGHT_HIP RIGHT_KNEE RIGHT_ANKLE) /\
  live_angles landmarks !! "left_knee" = live_angles landmarks !! "left_hip" /\
  live_angles landmarks !! "right_hip"
    = Some (angle_at landmarks LEFT_HIP LEFT_KNEE LEFT_ANKLE) /\
  live_angles landmarks !! "right_knee" = live_angles landmarks !! "right_hip".
Proof. repeat split; vm_refl. Qed.

(** C31: the live dict is the dict of the still-image script on the
    mirrored detection, with every shoulder entry replaced by the elbow
    entry and every hip entry by the knee entry of the same side. *)
Theorem live_angles_of_analyze landmarks (angles : gmap string A) :
  analyze_angles (joints (mirrored landmarks)) = Some angles ->
  forall joint, live_angles landmarks !! joint = angles !! live_source joint.
Proof.
rewrite analyze_angles_joints. intros [= <-] joint. rewrite live_angles_entries.
destruct (decide (joint ∈ JOINTS)) as [Hj|Hj].
- unfold JOINTS in Hj.
  repeat (apply elem_of_cons in Hj as [->|Hj]); [vm_refl..|by apply elem_of_nil in Hj].
- by rewrite live_source_other, !eight_entries_None.
Qed.

(** C34: the still-image function returns a dict exactly when the image
    is read and a pose is detected in it, and the dict then has the
    eight joints of the table as keys: no lookup of a joint fails. *)
Theorem analyze_pose_Some {Image : Type} (imread : string -> option Image)
    (process : Image -> option (PoseLandmark -> Landmark C)) (image_path : string) :
  match analyze_pose imread process image_path with
  | Some angles =>
      (exists image landmarks, imread image_path = Some image /\
         process image = Some landmarks) /\
      forall joint, is_Some (angles !! joint) <-> joint ∈ JOINTS
  | None =>
      imread image_path = None \/
      exists image, imread image_path = Some image /\ process image = None
  end.
Proof.
unfold analyze_pose.
destruct (imread image_path) as [image|]; [|by left].
destruct (process image) as [landmarks|] eqn:Hp; [|right; eauto].
rewrite analyze_angles_joints. split; [eauto|]. intros joint. apply eight_entries_dom.
Qed.

End Properties.

Section Laws.
Context {C A : Type} `{AngleCalculatorLaws C A}.
Implicit Types (landmarks : PoseLandmark -> Landmark C).

Lemma live_angles_range landmarks (joint : string) (a : A) :
  live_angles landmarks !! joint = Some a -> (0 <= to_R a <= 180)%R.
Proof.
rewrite live_angles_entries, eight_entries_lookup.
repeat case_decide; intros [= <-]; apply calc_angle_range.
Qed.

End Laws.

(** * [calculate_angle] is an angle calculator *)

#[export] Instance calculate_angle_calculator : AngleCalculator R R := calculate_angle.

#[export] Instance calculate_angle_laws : AngleCalculatorLaws R R.
Proof.
split; intros a b c; unfold calc_angle, calculate_angle_calculator.
- rewrite calculate_angle_fold. apply fold_angle_range, arctan2_diff_bound.
- rewrite !calculate_angle_fold, <- fold_angle_opp. f_equal. ring.
Qed.

(** ** The properties at a concrete detection *)

(** A detection with every landmark at the origin. *)
Definition origin_landmarks : PoseLandmark -> Landmark R :=
  fun _ => {| x := 0%R; y := 0%R |}.

Lemma live_angles_of_analyze_witness :
  live_angles (A := R) origin_landmarks !! "left_hip"
  = Some (angle_at (mirrored origin_landmarks) LEFT_HIP LEFT_KNEE LEFT_ANKLE).
Proof.
rewrite (live_angles_of_analyze origin_landmarks _ (analyze_angles_joints _)).
vm_refl.
Defined.
