(* ===== verification/LiveScoring.v ===== *)
(** * LiveScoring: what the scorer is given in the live path

    [gen_frames] fills the eight entries of [current_angles] from four
    angles: the angle at each elbow and at each knee
    ([Landmarks.live_angles_duplicates]).  The table, made with the
    still-image script, has distinct targets for the shoulder and the
    elbow of a side and for the hip and the knee.

    This file states what that does to the grade: the live dict as a
    function of the four angles ([four_angles]), the grade of a person
    who holds the target pose ([live_score_held]), and the bound on
    the number of joints that can be within the perfect threshold
    ([live_within_perfect_le_six]). *)

From Stdlib Require Import ZArith QArith Qabs Qreals Reals Psatz.
From stdpp Require Import gmap strings list.
From S2P Require Import Prelude Numeric PoseTable Scorer Geometry Landmarks.

#[local] Open Scope string_scope.
#[local] Open Scope list_scope.
#[local] Open Scope Z_scope.

(** The live dict as a function of the four angles it holds. *)
Definition four_angles {A : Type} (left_elbow right_elbow left_knee right_knee : A)
    : gmap string A :=
  {[ "left_shoulder" := left_elbow; "left_elbow" := left_elbow;
     "right_shoulder" := right_elbow; "right_elbow" := right_elbow;
     "left_hip" := left_knee; "left_knee" := left_knee;
     "right_hip" := right_knee; "right_knee" := right_knee ]}.

(** The target of a joint in a row (0 for a name the row does not have). *)
Definition target_angle (row : list (string * Q)) (joint : string) : Q :=
  default 0%Q (list_to_map (M := gmap string Q) row !! joint).

(** What the live path computes for a person who holds the pose of the
    row: elbows and knees at their targets. *)
Definition held (row : list (string * Q)) : gmap string Q :=
  four_angles (target_angle row "left_elbow") (target_angle row "right_elbow")
    (target_angle row "left_knee") (target_angle row "right_knee").

Section Live.
Context {C A : Type} `{AngleCalculator C A} `{RealNumber A}.
Implicit Types (landmarks : PoseLandmark -> Landmark C).

(** The four angles of a detection, under the names the live path
    gives them. *)
Definition live_left_elbow landmarks : A :=
  angle_at landmarks RIGHT_SHOULDER RIGHT_ELBOW RIGHT_WRIST.
Definition live_right_elbow landmarks : A :=
  angle_at landmarks LEFT_SHOULDER LEFT_ELBOW LEFT_WRIST.
Definition live_left_knee landmarks : A :=
  angle_at landmarks RIGHT_HIP RIGHT_KNEE RIGHT_ANKLE.
Definition live_right_knee landmarks : A :=
  angle_at landmarks LEFT_HIP LEFT_KNEE LEFT_ANKLE.

Definition holds_pose (row : list (string * Q)) landmarks : Prop :=
  to_R (live_left_elbow landmarks) = Q2R (target_angle row "left_elbow") /\
  to_R (live_right_elbow landmarks) = Q2R (target_angle row "right_elbow") /\
  to_R (live_left_knee landmarks) = Q2R (target_angle row "left_knee") /\
  to_R (live_right_knee landmarks) = Q2R (target_angle row "right_knee").

Lemma live_angles_four landmarks :
  live_angles landmarks =
    four_angles (live_left_elbow landmarks) (live_right_elbow landmarks)
      (live_left_knee landmarks) (live_right_knee landmarks).
Proof. reflexivity. Qed.

Lemma four_angles_same (a1 a2 a3 a4 : A) (q1 q2 q3 q4 : Q) :
  to_R a1 = Q2R q1 -> to_R a2 = Q2R q2 -> to_R a3 = Q2R q3 -> to_R a4 = Q2R q4 ->
  same_angles_on JOINTS (four_angles a1 a2 a3 a4) (four_angles q1 q2 q3 q4).
Proof.
intros E1 E2 E3 E4 joint _. unfold four_angles. rewrite !eight_entries_lookup.
repeat case_decide; by constructor.
Qed.

Lemma held_grade (k : Z) row :
  POSE_TARGETS !! k = Some row ->
  calculate_pose_score (A := Q) (held row) k = match k with 0 => 3 | 1 => 2 | _ => 4 end.
Proof.
rewrite POSE_TARGETS_lookup. repeat case_decide; intros [= <-]; subst; by vm_compute.
Qed.

(** ** The grade of the target pose, and the most that can be within 35 *)

(** C7: a person who holds the target pose, with elbows and knees at
    their target angles, is graded Great in Downward Dog, Okay in
    Tree, and Perfect in Warrior 1 and 2: the shoulder and hip entries
    of the live dict hold the elbow and knee angles and are compared
    with the shoulder and hip targets. *)
Theorem live_score_held (k : Z) row landmarks :
  POSE_TARGETS !! k = Some row -> holds_pose row landmarks ->
  calculate_pose_score (live_angles landmarks) k
  = match k with 0 => 3 | 1 => 2 | _ => 4 end.
Proof.
intros Hk (E1 & E2 & E3 & E4). rewrite <- (held_grade k row Hk).
unfold calculate_pose_score. rewrite Hk.
apply score_differences_same_values, differences_same_values.
rewrite (proj1 (POSE_TARGETS_wf _ _ Hk)), live_angles_four. unfold held.
apply four_angles_same; assumption.
Qed.

(** One angle cannot be within [t] of two targets more than [2 t]
    apart. *)
Lemma within_pair (x : A) (a b t : Q) :
  (2 * t < Qabs (a - b))%Q ->
  (count_if (fun d => (d <=? of_Q t)%py)
     [num_abs (x - of_Q a)%py; num_abs (x - of_Q b)%py] <= 1)%nat.
Proof.
intros Hfar%Qlt_Rlt. rewrite Q2R_mult, Q2R_Qabs, Q2R_minus in Hfar.
replace (Q2R 2) with 2%R in Hfar by (unfold Q2R; simpl; lra).
cbn [count_if].
destruct (num_leb (num_abs (x - of_Q a)%py) _) eqn:Ea, (num_leb (num_abs (x - of_Q b)%py) _) eqn:Eb;
  try (simpl; lia). exfalso.
apply num_leb_threshold in Ea, Eb. autorewrite with py in Ea, Eb.
revert Hfar Ea Eb. unfold Rabs. repeat destruct (Rcase_abs _); lra.
Qed.

Lemma differences_four_TREE_POSE (a1 a2 a3 a4 : A) :
  differences (four_angles a1 a2 a3 a4) TREE_POSE =
    ([num_abs (a1 - of_Q 99.5); num_abs (a1 - of_Q 171.9)] ++
     [num_abs (a2 - of_Q 87.9); num_abs (a2 - of_Q 179.4)] ++
     [num_abs (a3 - of_Q 167.1); num_abs (a3 - of_Q 167.7);
      num_abs (a4 - of_Q 114.2); num_abs (a4 - of_Q 57.3)])%py.
Proof. vm_refl. Qed.

Lemma differences_four_WARRIOR_2 (a1 a2 a3 a4 : A) :
  differences (four_angles a1 a2 a3 a4) WARRIOR_2 =
    ([num_abs (a1 - of_Q 71.4); num_abs (a1 - of_Q 177.3)] ++
     [num_abs (a2 - of_Q 104.4); num_abs (a2 - of_Q 176.5)] ++
     [num_abs (a3 - of_Q 148.8); num_abs (a3 - of_Q 166.5);
      num_abs (a4 - of_Q 125.5); num_abs (a4 - of_Q 138.4)])%py.
Proof. vm_refl. Qed.

(** C17: in Tree and in Warrior 2 the live dict never has more than six
    of its eight joints within 35 degrees of their targets: the
    shoulder and the elbow entry of a side hold the same angle, and
    their targets are more than 70 degrees apart.  A perfect grade
    there needs every one of the remaining six. *)
Theorem live_within_perfect_le_six (k : Z) row landmarks :
  POSE_TARGETS !! k = Some row -> k = 1 \/ k = 3 ->
  (angles_within PERFECT_THRESHOLD (differences (live_angles landmarks) row) <= 6)%nat.
Proof.
rewrite POSE_TARGETS_lookup, live_angles_four. unfold angles_within.
intros Hk [-> | ->]; simpl in Hk; injection Hk as <-;
  [rewrite differences_four_TREE_POSE | rewrite differences_four_WARRIOR_2];
  rewrite !count_if_app;
  (etrans; [apply Nat.add_le_mono; [by apply within_pair|];
            apply Nat.add_le_mono; [by apply within_pair | apply count_if_le_length]|]);
  simpl; lia.
Qed.

End Live.

(** ** The differences of the live path are angles *)

Section Range.
Context {C A : Type} `{AngleCalculatorLaws C A}.

(** C18: for any angle function that keeps the laws of the interface,
    the differences the scorer computes in the live path lie between 0
    and 180 degrees: both the current angles and the targets do. *)
Theorem live_differences_range (k : Z) row (landmarks : PoseLandmark -> Landmark C) :
  POSE_TARGETS !! k = Some row ->
  Forall (fun d => (0 <= to_R d <= 180)%R) (differences (live_angles landmarks) row).
Proof.
intros Hk%POSE_TARGETS_wf. apply differences_Forall. intros joint a x Hja Hx.
apply live_angles_range in Hx.
destruct (row_wf_angle _ _ _ Hk Hja) as [Hlo%Qle_Rle Hhi%Qle_Rle].
rewrite (Q2R_literal 0 : Q2R 0 = 0%R) in Hlo. rewrite (Q2R_literal 180 : Q2R 180 = 180%R) in Hhi.
split; [auto with py | autorewrite with py; apply Rabs_le; lra].
Qed.

End Range.

(** ** The properties at concrete detections *)

(** A calculator for examples: the angle is the [x] of the vertex, so
    that a detection can be written down with the angles it has. *)
Definition stub_calculator : AngleCalculator Q Q := fun a b c => fst b.

(** A detection whose elbows and knees are at the targets of Tree. *)
Definition tree_detection : PoseLandmark -> Landmark Q :=
  fun l =>
    match l with
    | RIGHT_ELBOW => {| x := 171.9; y := 0 |}
    | LEFT_ELBOW => {| x := 179.4; y := 0 |}
    | RIGHT_KNEE => {| x := 167.7; y := 0 |}
    | LEFT_KNEE => {| x := 57.3; y := 0 |}
    | _ => {| x := 0; y := 0 |}
    end%Q.

Lemma live_score_held_witness :
  calculate_pose_score (live_angles (H := stub_calculator) tree_detection) 1 = 2.
Proof.
apply (live_score_held (H := stub_calculator) 1 TREE_POSE tree_detection); [vm_refl|].
repeat split; vm_refl.
Defined.

Lemma live_within_perfect_le_six_witness :
  (angles_within PERFECT_THRESHOLD
     (differences (live_angles (A := R) origin_landmarks) TREE_POSE) <= 6)%nat.
Proof.
apply (live_within_perfect_le_six (A := R) 1 TREE_POSE origin_landmarks); [vm_refl | by left].
Defined.

Lemma live_differences_range_witness :
  Forall (fun d => (0 <= to_R d <= 180)%R)
    (differences (live_angles (A := R) origin_landmarks) TREE_POSE).
Proof. apply (live_differences_range (A := R) 1 TREE_POSE origin_landmarks). vm_refl. Defined.
