(* ===== verification/Script.v ===== *)
(** * Script: [main] of [src/cv.py]

    The script lists a folder, keeps the files whose name ends with an
    image extension in any case, runs [analyze_pose] on each and
    prints the eight angles when it gets a dict.

    - [lower], [endswith], [is_image], [path_join], [report_file] and
      [main] follow the code of [main];
    - [image_name] says which names are meant, without the code's
      lower-casing and suffix test: a stem followed by [.png], [.jpg]
      or [.jpeg] with each letter in either case;
    - [is_image_spec] shows that the test of the code accepts exactly
      those names, and [main_reports] what [main] prints.

    The listing of the folder, [cv2.imread] and the detection are
    inputs.  What is printed is modelled by its content: the file name
    and the dict, not the formatted lines.  File names are strings of
    8-bit characters and [lower_ascii] changes the letters A-Z only,
    where [str.lower] also changes letters outside ASCII, none of
    which becomes a letter of the three extensions.  [path_join] is
    [os.path.join] for a relative file name, which is what
    [os.listdir] returns. *)

From Stdlib Require Import Ascii String ZArith QArith Reals.
From stdpp Require Import gmap strings list.
From S2P Require Import Prelude Numeric PoseTable Geometry Landmarks.

#[local] Open Scope string_scope.

(** [str.lower()], on ASCII letters. *)
Definition lower_ascii (c : ascii) : ascii :=
  let n := nat_of_ascii c in
  if (65 <=? n)%nat && (n <=? 90)%nat then ascii_of_nat (n + 32) else c.

Definition lower (s : string) : list ascii := lower_ascii <$> list_ascii_of_string s.

(** [s.endswith((suffix, ...))] *)
Definition endswith (s : list ascii) (suffixes : list string) : bool :=
  existsb (fun suffix => bool_decide (list_ascii_of_string suffix `suffix_of` s)) suffixes.

Definition is_image (filename : string) : bool :=
  endswith (lower filename) [".png"; ".jpg"; ".jpeg"].


Definition image_folder : string := "./public/poses".

(** [os.path.join(folder, filename)] for a relative file name. *)
Definition path_join (folder filename : string) : string := folder ++ "/" ++ filename.

(** ** The file names [main] is meant to keep *)

Definition extensions : list string := [".png"; ".jpg"; ".jpeg"].

(** The letters of the extensions and their capitals. *)
Definition capitals : list (ascii * ascii) :=
  [("p", "P"); ("n", "N"); ("g", "G"); ("j", "J"); ("e", "E")]%char.

(** [c] spells the character [s] of an extension: it is [s] or its
    capital. *)
Definition spelt (s c : ascii) : Prop := c = s \/ (s, c) ∈ capitals.

(** An image name: a stem followed by an extension in any case. *)
Definition image_name (filename : string) : Prop :=
  exists stem ending extension,
    filename = stem ++ ending /\ extension ∈ extensions /\
    Forall2 spelt (list_ascii_of_string extension) (list_ascii_of_string ending).

Definition extension_letters : list ascii := [".";"p";"n";"g";"j";"e"]%char.

(** ** The test of the code accepts the image names *)

Lemma list_ascii_of_string_app (s t : string) :
  list_ascii_of_string (s ++ t) = (list_ascii_of_string s ++ list_ascii_of_string t)%list.
Proof. induction s as [|c s IH]; [done|]. simpl. by rewrite IH. Qed.

(** Lower-casing a character gives a letter of an extension exactly
    when the character spells it. *)
Lemma lower_ascii_spelt (c : ascii) :
  Forall (fun s => lower_ascii c = s <-> spelt s c) extension_letters.
Proof.
apply (bool_decide_unpack _).
destruct c as [[] [] [] [] [] [] [] []]; vm_compute; exact I.
Qed.

Lemma lower_spelt (extension ending : list ascii) :
  Forall (.∈ extension_letters) extension ->
  lower_ascii <$> ending = extension <-> Forall2 spelt extension ending.
Proof.
intros Hletters. revert ending.
induction Hletters as [|s extension Hs _ IH]; intros [|c ending]; split;
  try done; try by inversion 1.
- intros [= Hc Hrest]. constructor; [|by apply IH].
  by apply (proj1 (Forall_forall _ _) (lower_ascii_spelt c) s Hs).
- inversion 1 as [|? ? ? ? Hc Hrest]; subst. rewrite fmap_cons. f_equal; [|by apply IH].
  by apply (proj1 (Forall_forall _ _) (lower_ascii_spelt c) s Hs).
Qed.

Lemma extensions_letters (extension : string) :
  extension ∈ extensions ->
  Forall (.∈ extension_letters) (list_ascii_of_string extension).
Proof.
intros Hin. apply (bool_decide_unpack _). revert extension Hin.
apply Forall_forall. by apply (bool_decide_unpack _).
Qed.

Lemma endswith_spec (s : list ascii) (suffixes : list string) :
  endswith s suffixes = true <->
  exists suffix, suffix ∈ suffixes /\ list_ascii_of_string suffix `suffix_of` s.
Proof.
unfold endswith. rewrite existsb_exists. setoid_rewrite bool_decide_eq_true.
by setoid_rewrite list_elem_of_In.
Qed.

(** The test of line 108 accepts the image names and no other name. *)
Lemma is_image_spec (filename : string) : is_image filename = true <-> image_name filename.
Proof.
unfold is_image, image_name. fold extensions. rewrite endswith_spec. split.
- intros (extension & Hin & k & Hk). apply fmap_app_inv in Hk as (l1 & l2 & -> & Hl2 & Hl).
  exists (string_of_list_ascii l1), (string_of_list_ascii l2), extension. split_and!; [|done|].
  + rewrite <- (string_of_list_ascii_of_string filename), Hl.
    rewrite <- (list_ascii_of_string_of_list_ascii l1) at 1.
    rewrite <- (list_ascii_of_string_of_list_ascii l2) at 1.
    by rewrite <- list_ascii_of_string_app, string_of_list_ascii_of_string.
  + rewrite list_ascii_of_string_of_list_ascii.
    by apply lower_spelt; [apply extensions_letters|].
- intros (stem & ending & extension & -> & Hin & Hspelt). exists extension. split; [done|].
  exists (lower stem). unfold lower. rewrite list_ascii_of_string_app, fmap_app. f_equal.
  by apply lower_spelt; [apply extensions_letters|].
Qed.

#[global] Instance image_name_dec (filename : string) : Decision (image_name filename).
Proof.
refine (cast_if (decide (is_image filename = true))); by rewrite <- is_image_spec.
Defined.

Lemma filter_is_image (listdir : list string) :
  List.filter is_image listdir = filter image_name listdir.
Proof.
induction listdir as [|filename listdir IH]; [done|]. simpl. rewrite filter_cons, IH.
destruct (is_image filename) eqn:E.
- by rewrite decide_True by by apply is_image_spec.
- rewrite decide_False; [done|]. rewrite <- is_image_spec. congruence.
Qed.

(** ** [main] *)

Section Main.
Context {C A : Type} `{AngleCalculator C A} {Image : Type}.
Context (imread : string -> option Image)
        (process : Image -> option (PoseLandmark -> Landmark C)).

(** What [main] prints for one file: its name, and the angles when
    [analyze_pose] returns a dict that is not empty ([if angles:]). *)
Definition report_file (filename : string) : string * option (gmap string A) :=
  (filename,
   match analyze_pose imread process (path_join image_folder filename) with
   | Some angles => if decide (angles = ∅) then None else Some angles
   | None => None
   end).

Definition main (listdir : list string) : list (string * option (gmap string A)) :=
  report_file <$> List.filter is_image listdir.

(** The dict [analyze_pose] returns is never empty. *)
Lemma analyze_pose_not_empty (image_path : string) (angles : gmap string A) :
  analyze_pose imread process image_path = Some angles -> angles <> ∅.
Proof.
unfold analyze_pose. destruct (imread image_path) as [image|]; [|done].
destruct (process image) as [landmarks|]; [|done].
rewrite analyze_angles_joints. intros [= <-] Hempty.
by apply (f_equal (lookup "left_shoulder")) in Hempty.
Qed.

(** C35: [main] reports the image names of the listing in the order of
    the listing, and nothing else: the names made of a stem and of
    [.png], [.jpg] or [.jpeg] with each letter in either case.  Each
    is analyzed under the path [./public/poses/<name>], and the angles
    are printed for each one for which [analyze_pose] returns a dict:
    the test [if angles:] never discards a result. *)
Theorem main_reports (listdir : list string) :
  main listdir =
    (fun filename =>
       (filename, analyze_pose imread process ("./public/poses/" ++ filename)))
    <$> filter image_name listdir.
Proof.
unfold main. rewrite filter_is_image. apply list_fmap_ext. intros _ filename _.
unfold report_file. f_equal.
change (path_join image_folder filename) with ("./public/poses/" ++ filename).
destruct (analyze_pose _ _ _) as [angles|] eqn:E; [|done].
by rewrite decide_False by by eapply analyze_pose_not_empty.
Qed.

End Main.

Example is_image_examples :
  is_image "tree.png" = true /\ is_image "WARRIOR.JPG" = true /\
  is_image "dog.Jpeg" = true /\ is_image "notes.txt" = false /\
  is_image "pose.png.bak" = false /\ is_image ".jpg" = true /\ is_image "jpg" = false.
Proof. by vm_compute. Qed.

(** A folder in which no file can be read: every image name is
    reported, in the order of the listing, without angles. *)
Example main_example :
  main (C := R) (A := R) (fun _ => None) (fun _ : unit => None)
    ["tree.png"; "notes.txt"; "WARRIOR.JPG"; "pose.png.bak"] =
  [("tree.png", None); ("WARRIOR.JPG", None)].
Proof. reflexivity. Qed.
