(* ===== verification/Json.v ===== *)
(** * Json: the values of request bodies, as Python sees them

    [request.get_json()] of Flask parses the body with [json.loads];
    the handlers of [src/backend.py] then apply [dict.get], [==],
    [isinstance], [<=] and [int] to what it returns. [json] is the type
    of the parsed values and this file defines those Python operations
    on it, with the cases in which Python raises as [None].

    A float is a rational here (see [Numeric]); the three values
    [json.loads] can produce that are not numbers of the real line
    ([nan], [inf], [-inf]) are the constructor [JNonFinite]. *)

From Stdlib Require Import ZArith QArith Lia.
From stdpp Require Import base tactics strings list.
From S2P Require Import Prelude.

#[local] Open Scope string_scope.

#[local] Set Warnings "-register-all".

Inductive NonFinite : Type := NaN | PosInf | NegInf.

Inductive json : Type :=
| JNull
| JBool (b : bool)
| JInt (n : Z)
| JFloat (q : Q)
| JNonFinite (v : NonFinite)
| JString (s : string)
| JArray (items : list json)
| JObject (members : list (string * json)).

(** The name of the Python type of a parsed value, as it appears in the
    message of an [AttributeError]. *)
Definition py_type_name (v : json) : string :=
  match v with
  | JNull => "NoneType"
  | JBool _ => "bool"
  | JInt _ => "int"
  | JFloat _ | JNonFinite _ => "float"
  | JString _ => "str"
  | JArray _ => "list"
  | JObject _ => "dict"
  end.

(** The members of an object as a dict: a later member with the same
    key replaces an earlier one. *)
Fixpoint members_get (members : list (string * json)) (key : string) : option json :=
  match members with
  | [] => None
  | (k, v) :: rest =>
      match members_get rest key with
      | Some v' => Some v'
      | None => if decide (k = key) then Some v else None
      end
  end.

(** [data.get(key, default)]: [inr] holds the message of the
    [AttributeError] raised when [data] is not a dict. *)
Definition py_get (data : json) (key : string) (default : json) : json + string :=
  match data with
  | JObject members =>
      inl (match members_get members key with
           | Some v => v
           | None => default
           end)
  | _ => inr ("'" ++ py_type_name data ++ "' object has no attribute 'get'")
  end.

(** [v == n] for an integer literal [n].  A bool is an int in Python
    ([True == 1]), and a float equals the int of the same value. *)
Definition py_eq_int (v : json) (n : Z) : bool :=
  match v with
  | JBool b => Z.eqb (if b then 1 else 0) n
  | JInt m => Z.eqb m n
  | JFloat q => Qeq_bool q (inject_Z n)
  | _ => false
  end.

(** [isinstance(v, (int, float))]: true of bools too. *)
Definition py_is_number (v : json) : bool :=
  match v with
  | JBool _ | JInt _ | JFloat _ | JNonFinite _ => true
  | _ => false
  end.

(** [lo <= v <= hi] for integer literals, on a value that is a number;
    every comparison with [nan] is false. *)
Definition py_between (lo : Z) (v : json) (hi : Z) : bool :=
  match v with
  | JBool b => Z.leb lo (if b then 1 else 0) && Z.leb (if b then 1 else 0) hi
  | JInt m => Z.leb lo m && Z.leb m hi
  | JFloat q => Qle_bool (inject_Z lo) q && Qle_bool q (inject_Z hi)
  | JNonFinite _ => false
  | _ => false
  end.

(** Truncation of a rational toward zero: [int] of a float. *)
Definition Qtruncate (q : Q) : Z := Z.quot (Qnum q) (Z.pos (Qden q)).

(** [int(v)] on a number: truncation toward zero.  [None] where Python
    raises. *)
Definition py_int (v : json) : option Z :=
  match v with
  | JBool b => Some (if b then 1 else 0)%Z
  | JInt m => Some m
  | JFloat q => Some (Qtruncate q)
  | _ => None
  end.

(** ** Facts *)

Lemma Qtruncate_between (lo hi : Z) (q : Q) :
  (inject_Z lo <= q)%Q -> (q <= inject_Z hi)%Q -> (lo <= Qtruncate q <= hi)%Z.
Proof.
destruct q as [n d]. unfold Qle, Qtruncate; simpl. rewrite !Z.mul_1_r. intros Hlo Hhi.
rewrite <- (Z.quot_mul lo (Z.pos d)), <- (Z.quot_mul hi (Z.pos d)) by lia.
split; apply Z.quot_le_mono; lia.
Qed.

Lemma Qtruncate_inject_Z (n : Z) : Qtruncate (inject_Z n) = n.
Proof. unfold Qtruncate; simpl. apply Z.quot_1_r. Qed.

Lemma Qtruncate_Qeq (q : Q) (n : Z) : (q == inject_Z n)%Q -> Qtruncate q = n.
Proof.
destruct q as [a d]. unfold Qeq, Qtruncate; simpl. rewrite Z.mul_1_r. intros ->.
apply Z.quot_mul. lia.
Qed.

(** A float equals an integer literal when it is integral and its
    integer part is the literal. *)
Lemma Qeq_bool_inject_Z (q : Q) (n : Z) :
  Qeq_bool q (inject_Z n) =
    Qeq_bool q (inject_Z (Qtruncate q)) && Z.eqb (Qtruncate q) n.
Proof.
destruct (Qeq_bool q (inject_Z n)) eqn:E.
- pose proof (Qtruncate_Qeq q n (proj1 (Qeq_bool_iff _ _) E)) as Ht.
  by rewrite Ht, E, Z.eqb_refl.
- destruct (Z.eqb_spec (Qtruncate q) n) as [->|]; [by rewrite E | by rewrite andb_false_r].
Qed.

Lemma py_eq_int_JFloat (q : Q) (n : Z) :
  py_eq_int (JFloat q) n =
    Qeq_bool q (inject_Z (Qtruncate q)) && py_eq_int (JInt (Qtruncate q)) n.
Proof. apply Qeq_bool_inject_Z. Qed.

Lemma py_between_int (lo hi : Z) (v : json) (n : Z) :
  py_between lo v hi = true -> py_int v = Some n -> (lo <= n <= hi)%Z.
Proof.
destruct v as [|b|m|q| | | |]; simpl; try done; intros Hb [= <-].
- destruct b; lia.
- lia.
- apply andb_true_iff in Hb as [Hlo Hhi].
  apply Qle_bool_iff in Hlo, Hhi. by apply Qtruncate_between.
Qed.

Lemma py_between_is_number_int (lo hi : Z) (v : json) :
  py_is_number v = true -> py_between lo v hi = true -> is_Some (py_int v).
Proof. destruct v; simpl; try done; eauto. Qed.
