(* ===== verification/Server.v ===== *)
(** * Server: the globals of [src/backend.py] and the code that writes them

    The server keeps three module-level variables, [score],
    [scoring_effect] and [current_pose_val] ([State]).  They are written
    by the frame loop [gen_frames] (one per client of [/video_feed]) and
    by the handlers [update_current_pose] and [update_score], and read
    by [get_scoring_effect].

    - [process_frame] is the body of the loop of [gen_frames] from the
      detection on; [gen_frames] is the loop over the camera's reads;
    - [update_current_pose], [get_scoring_effect] and [update_score] are
      the handlers, from the request body to the new state and the
      response;
    - [handle] runs one event, and [run] a sequence of them: the loop
      iterations and the handlers in the order they take effect, each
      taken as one atomic step.

    What is outside the program is an input here: what the camera
    reads and what MediaPipe detects ([CameraRead]), and what
    [request.get_json()] returns or raises ([Body]).  Drawing, encoding
    and the bytes yielded are not modelled; [gen_frames] counts the
    frames it yields and says whether the loop was left by [break] or
    the generator is suspended at a [yield]. *)

From Stdlib Require Import ZArith QArith Reals Psatz.
From stdpp Require Import gmap strings list.
From S2P Require Import Prelude Numeric PoseTable Scorer Geometry Landmarks Json.

#[local] Open Scope string_scope.
#[local] Open Scope Z_scope.

(** ** State, requests and responses *)

Record State : Type := {
  score : Z;
  scoring_effect : json;
  current_pose_val : Z;
}.

(** The module-level assignments. *)
Definition initial_state : State :=
  {| score := 0; scoring_effect := JInt 0; current_pose_val := 0 |}.

Definition set_score (v : Z) (st : State) : State :=
  {| score := v; scoring_effect := scoring_effect st;
     current_pose_val := current_pose_val st |}.

Definition set_scoring_effect (v : json) (st : State) : State :=
  {| score := score st; scoring_effect := v;
     current_pose_val := current_pose_val st |}.

Definition set_current_pose_val (v : Z) (st : State) : State :=
  {| score := score st; scoring_effect := scoring_effect st;
     current_pose_val := v |}.

(** What [request.get_json()] does: it raises an HTTP error (a body
    that is not JSON: 400, a content type that is not JSON: 415), or
    returns the parsed value. *)
Inductive Body : Type :=
| BadBody (status : Z) (message : string)
| JsonBody (data : json).

Record Response : Type := { status : Z; body : json }.

(** [jsonify(...)], with the status 200 Flask gives by default. *)
Definition jsonify (members : list (string * json)) : Response :=
  {| status := 200; body := JObject members |}.

(** [jsonify(...), 400] *)
Definition jsonify_400 (members : list (string * json)) : Response :=
  {| status := 400; body := JObject members |}.

(** The response of Flask to an exception no handler catches. *)
Definition error_response (code : Z) : Response :=
  {| status := code; body := JNull |}.

(** ** The handlers *)

Definition update_current_pose (st : State) (request : Body) : State * Response :=
  let error message :=
    jsonify_400 [("status", JString "error"); ("message", JString message)] in
  match request with
  | BadBody _ message => (st, error message)
  | JsonBody data =>
      match py_get data "poseValue" (JInt 0) with
      | inr message => (st, error message)
      | inl new_pose_val =>
          if py_is_number new_pose_val && py_between 0 new_pose_val 3 then
            match py_int new_pose_val with
            | Some n =>
                let st' := set_current_pose_val n st in
                (st', jsonify [("status", JString "success");
                               ("current_pose", JInt (current_pose_val st'))])
            | None => (st, error "cannot convert float to integer")
            end
          else (st, error "Invalid pose value")
      end
  end.

Definition get_scoring_effect (st : State) : Response :=
  jsonify [("scoringEffect", scoring_effect st)].

Definition update_score (st : State) (request : Body) : State * Response :=
  match request with
  | BadBody code _ => (st, error_response code)
  | JsonBody data =>
      match py_get data "scoringEffect" (JInt 1) with
      | inr _ => (st, error_response 500)
      | inl v =>
          let st := set_scoring_effect v st in
          let st :=
            if py_eq_int (scoring_effect st) 1 then set_score (score st - 50) st
            else if py_eq_int (scoring_effect st) 2 then set_score (score st + 10) st
            else if py_eq_int (scoring_effect st) 3 then set_score (score st + 30) st
            else if py_eq_int (scoring_effect st) 4 then set_score (score st + 50) st
            else st in
          (st, jsonify [("score", JInt (score st));
                        ("scoringEffect", scoring_effect st)])
      end
  end.

(** ** The frame loop *)

Section Frames.
Context {C A : Type} `{AngleCalculator C A} `{Number A}.

(** One [camera.read()] and what is detected in the frame. *)
Inductive CameraRead : Type :=
| ReadFailed
| ReadFrame (pose_landmarks : option (PoseLandmark -> Landmark C)).

(** The body of the loop once a frame is read: when a pose is detected
    the current angles are scored against the current target and the
    grade is stored. *)
Definition process_frame (st : State)
    (pose_landmarks : option (PoseLandmark -> Landmark C)) : State :=
  match pose_landmarks with
  | Some landmarks =>
      let current_angles := live_angles landmarks in
      let pose_score := calculate_pose_score current_angles (current_pose_val st) in
      set_scoring_effect (JInt pose_score) st
  | None => st
  end.

(** The generator, run over the results of the calls of [camera.read()]
    made while its consumer asks for frames: the final state, the
    number of frames yielded, and whether the loop was left by [break].
    A generator runs only as far as its consumer resumes it: when the
    reads end with no failure the generator is suspended at its last
    [yield], and the loop has not stopped. *)
Fixpoint gen_frames (reads : list CameraRead) (st : State) : State * nat * bool :=
  match reads with
  | [] => (st, 0%nat, false)
  | ReadFailed :: _ => (st, 0%nat, true)
  | ReadFrame pose_landmarks :: reads' =>
      let st' := process_frame st pose_landmarks in
      let '(st'', yielded, stopped) := gen_frames reads' st' in
      (st'', S yielded, stopped)
  end.

(** ** Events *)

Inductive Event : Type :=
| Frame (pose_landmarks : option (PoseLandmark -> Landmark C))
| PostCurrentPose (request : Body)
| GetScoringEffect
| PostUpdateScore (request : Body).

Definition handle (st : State) (ev : Event) : State * option Response :=
  match ev with
  | Frame pose_landmarks => (process_frame st pose_landmarks, None)
  | PostCurrentPose request =>
      let '(st', r) := update_current_pose st request in (st', Some r)
  | GetScoringEffect => (st, Some (get_scoring_effect st))
  | PostUpdateScore request =>
      let '(st', r) := update_score st request in (st', Some r)
  end.

Definition run (events : list Event) (st : State) : State :=
  foldl (fun st ev => (handle st ev).1) st events.

Definition reachable (st : State) : Prop :=
  exists events, run events initial_state = st.

End Frames.

(** ** What a request asks for *)

(** The change of the score for a reported value: the chain of [==]
    tests of [update_score]. *)
Definition score_delta (v : json) : Z :=
  if py_eq_int v 1 then -50
  else if py_eq_int v 2 then 10
  else if py_eq_int v 3 then 30
  else if py_eq_int v 4 then 50
  else 0.

(** The value a body reports to [update_score], when the handler gets
    as far as storing one. *)
Definition reported (request : Body) : option json :=
  match request with
  | JsonBody data =>
      match py_get data "scoringEffect" (JInt 1) with
      | inl v => Some v
      | inr _ => None
      end
  | BadBody _ _ => None
  end.

(** The pose a body selects, when [update_current_pose] accepts it. *)
Definition selected (request : Body) : option Z :=
  match request with
  | JsonBody data =>
      match py_get data "poseValue" (JInt 0) with
      | inl v => if py_is_number v && py_between 0 v 3 then py_int v else None
      | inr _ => None
      end
  | BadBody _ _ => None
  end.

(** ** The handlers, by what the request asks for *)

Lemma update_score_reported st request v :
  reported request = Some v ->
  update_score st request =
    ({| score := score st + score_delta v; scoring_effect := v;
        current_pose_val := current_pose_val st |},
     jsonify [("score", JInt (score st + score_delta v)); ("scoringEffect", v)]).
Proof.
unfold reported, update_score, score_delta.
destruct request as [|data]; [done|]. destruct (py_get _ _ _) as [w|]; [|done].
intros [= ->]. simpl. repeat case_if; simpl; rewrite ?Z.add_0_r; try done; by destruct st.
Qed.

Lemma update_score_not_reported st request :
  reported request = None -> (update_score st request).1 = st.
Proof.
unfold reported, update_score.
destruct request as [|data]; [done|]. by destruct (py_get _ _ _).
Qed.

Lemma update_current_pose_selected st request n :
  selected request = Some n ->
  update_current_pose st request =
    (set_current_pose_val n st,
     jsonify [("status", JString "success"); ("current_pose", JInt n)]).
Proof.
unfold selected, update_current_pose.
destruct request as [|data]; [done|]. destruct (py_get _ _ _) as [v|]; [|done].
destruct (py_is_number v && py_between 0 v 3); [|done]. by intros ->.
Qed.

Lemma update_current_pose_not_selected st request :
  selected request = None ->
  (update_current_pose st request).1 = st /\
  status (update_current_pose st request).2 = 400.
Proof.
unfold selected, update_current_pose.
destruct request as [|data]; [done|]. destruct (py_get _ _ _) as [v|]; [|done].
destruct (py_is_number v && py_between 0 v 3); [|done]. by intros ->.
Qed.

Lemma selected_range request n : selected request = Some n -> 0 <= n <= 3.
Proof.
unfold selected. destruct request as [|data]; [done|].
destruct (py_get _ _ _) as [v|]; [|done].
destruct (py_is_number v && py_between 0 v 3) eqn:E; [|done].
apply andb_true_iff in E as [_ Hb]. by apply py_between_int.
Qed.

(** The state after each handler, by what the request asks for. *)
Lemma update_current_pose_state st request :
  (update_current_pose st request).1 =
    match selected request with
    | Some n => set_current_pose_val n st
    | None => st
    end.
Proof.
destruct (selected request) as [n|] eqn:E.
- by rewrite (update_current_pose_selected _ _ _ E).
- by apply update_current_pose_not_selected.
Qed.

Lemma update_score_state st request :
  (update_score st request).1 =
    match reported request with
    | Some v => {| score := score st + score_delta v; scoring_effect := v;
                   current_pose_val := current_pose_val st |}
    | None => st
    end.
Proof.
destruct (reported request) as [v|] eqn:E.
- by rewrite (update_score_reported _ _ _ E).
- by apply update_score_not_reported.
Qed.

(** [int] cannot fail on a value that passed the two tests: the branch
    of [update_current_pose] for that case is never taken. *)
Lemma selected_None_tests request data v :
  request = JsonBody data -> py_get data "poseValue" (JInt 0) = inl v ->
  selected request = None -> py_is_number v && py_between 0 v 3 = false.
Proof.
intros -> Hget. unfold selected. rewrite Hget.
destruct (py_is_number v && py_between 0 v 3) eqn:E; [|done].
apply andb_true_iff in E as [Hn Hb].
destruct (py_between_is_number_int 0 3 v Hn Hb) as [n ->]. done.
Qed.

(** ** Runs *)

Section Runs.
Context {C A : Type} `{AngleCalculator C A} `{Number A}.
Implicit Types (st : State) (ev : Event (C := C)) (events : list (Event (C := C))).

Lemma run_nil st : run [] st = st.
Proof. done. Qed.

Lemma run_cons ev events st : run (ev :: events) st = run events (handle st ev).1.
Proof. done. Qed.

Lemma run_app events1 events2 st :
  run (events1 ++ events2)%list st = run events2 (run events1 st).
Proof. apply foldl_app. Qed.

Lemma run_snoc events ev st : run (events ++ [ev])%list st = (handle (run events st) ev).1.
Proof. by rewrite run_app. Qed.

(** A property of the state that every event preserves holds after
    every run. *)
Lemma run_invariant (P : State -> Prop) events st :
  (forall st ev, P st -> P (handle st ev).1) -> P st -> P (run events st).
Proof.
intros Hstep. revert st. induction events as [|ev events IH]; intros st HP; [done|].
rewrite run_cons. by apply IH, Hstep.
Qed.

Lemma reachable_invariant (P : State -> Prop) :
  P initial_state -> (forall st ev, P st -> P (handle st ev).1) ->
  forall st, reachable st -> P st.
Proof. intros Hinit Hstep st [events <-]. by apply run_invariant. Qed.

Lemma reachable_initial : reachable (C := C) initial_state.
Proof. by exists []. Qed.

Lemma reachable_handle st ev : reachable st -> reachable (handle st ev).1.
Proof. intros [events <-]. exists (events ++ [ev])%list. apply run_snoc. Qed.

(** *** What one event does to each variable *)

Lemma process_frame_unchanged st pose_landmarks :
  score (process_frame st pose_landmarks) = score st /\
  current_pose_val (process_frame st pose_landmarks) = current_pose_val st.
Proof. by destruct pose_landmarks. Qed.

(** The state after an event, with the handlers unfolded. *)
Lemma handle_state st ev :
  (handle st ev).1 =
    match ev with
    | Frame pose_landmarks => process_frame st pose_landmarks
    | PostCurrentPose request => (update_current_pose st request).1
    | GetScoringEffect => st
    | PostUpdateScore request => (update_score st request).1
    end.
Proof.
destruct ev as [pl|request| |request]; simpl; try done.
- by destruct (update_current_pose st request).
- by destruct (update_score st request).
Qed.

Lemma handle_current_pose_val st ev :
  current_pose_val (handle st ev).1 =
    match ev with
    | PostCurrentPose request => default (current_pose_val st) (selected request)
    | _ => current_pose_val st
    end.
Proof.
rewrite handle_state. destruct ev as [pl|request| |request]; try done.
- apply process_frame_unchanged.
- rewrite update_current_pose_state. by destruct (selected request).
- rewrite update_score_state. by destruct (reported request).
Qed.

(** The change of the score an event makes. *)
Definition event_delta ev : Z :=
  match ev with
  | PostUpdateScore request => from_option score_delta 0 (reported request)
  | _ => 0
  end.

Lemma handle_score st ev : score (handle st ev).1 = score st + event_delta ev.
Proof.
rewrite handle_state. destruct ev as [pl|request| |request]; simpl; rewrite ?Z.add_0_r; try done.
- apply process_frame_unchanged.
- rewrite update_current_pose_state. by destruct (selected request).
- rewrite update_score_state. destruct (reported request); simpl; [done | lia].
Qed.

(** The invariant of the state: the current pose is a pose of the
    table.  ([scoring_effect] has none: [update_score] stores whatever
    value the request holds.) *)
Definition State_wf st : Prop := 0 <= current_pose_val st <= 3.

Lemma handle_wf st ev : State_wf st -> State_wf (handle st ev).1.
Proof.
unfold State_wf. rewrite handle_current_pose_val. destruct ev as [|request| |]; try done.
destruct (selected request) as [n|] eqn:E; [|done]. intros _. by apply selected_range in E.
Qed.

Lemma run_frames st (frames : list (option (PoseLandmark -> Landmark C))) :
  run (Frame <$> frames) st = foldl process_frame st frames.
Proof.
revert st. induction frames as [|pl frames IH]; intros st; [done|].
rewrite fmap_cons, run_cons. apply IH.
Qed.

(** The reads of a camera: frames, then nothing more or a failed read
    and whatever the camera would deliver after it. *)
Definition camera_reads (frames : list (option (PoseLandmark -> Landmark C)))
    (failure : option (list (CameraRead (C := C)))) : list CameraRead :=
  (ReadFrame <$> frames) ++
  match failure with Some later => ReadFailed :: later | None => [] end.

Lemma camera_reads_total (reads : list (CameraRead (C := C))) :
  exists frames failure, reads = camera_reads frames failure.
Proof.
induction reads as [|[|pl] reads (frames & failure & ->)].
- by exists [], None.
- by exists [], (Some (camera_reads frames failure)).
- by exists (pl :: frames), failure.
Qed.

(** The state a frame loop leaves, from the last detection it saw. *)
Definition after_detection (st : State)
    (detection : option (PoseLandmark -> Landmark C)) : State :=
  match detection with
  | Some landmarks =>
      set_scoring_effect
        (JInt (calculate_pose_score (live_angles landmarks) (current_pose_val st))) st
  | None => st
  end.

Lemma process_frame_after_detection st pl detection :
  after_detection (process_frame st pl) detection =
    after_detection st (match detection with Some _ => detection | None => pl end).
Proof. by destruct detection, pl. Qed.

End Runs.

(** * Properties *)

(** The change of the score the specification gives for a grade. *)
Definition grade_delta (g : Z) : Z :=
  match g with
  | 1 => -50
  | 2 => 10
  | 3 => 30
  | 4 => 50
  | _ => 0
  end.

Lemma score_delta_JInt (g : Z) : score_delta (JInt g) = grade_delta g.
Proof.
unfold score_delta, grade_delta; simpl.
repeat (destruct (Z.eqb_spec g _) as [->|?]; [done|]).
destruct g as [|[[p|p|]|[p|[p|p|]|]|]|]; done.
Qed.

(** C23: the reward of a reported value, for every JSON value: an
    integer gets the reward of the grade it is; [true] and [false] are
    the integers 1 and 0; a float that is integral is its integer, and
    any other float, [null], a string, a list or an object gets
    nothing. *)
Theorem score_delta_cases (v : json) :
  score_delta v =
    match v with
    | JInt g => grade_delta g
    | JBool b => grade_delta (if b then 1 else 0)
    | JFloat q =>
        if Qeq_bool q (inject_Z (Qtruncate q)) then grade_delta (Qtruncate q) else 0
    | _ => 0
    end.
Proof.
destruct v as [|[|]|g|q| | | |]; try done; [apply score_delta_JInt|].
rewrite <- score_delta_JInt. unfold score_delta. rewrite !py_eq_int_JFloat.
by destruct (Qeq_bool q _).
Qed.

(** C21: a request whose body is an object with an integer under
    [scoringEffect] adds the reward of that grade to the score (-50,
    +10, +30, +50 for 1, 2, 3, 4, nothing for any other integer),
    stores the integer in [scoring_effect], leaves the current pose,
    and answers with the new score and the integer. *)
Theorem update_score_grade (st : State) (members : list (string * json)) (g : Z) :
  members_get members "scoringEffect" = Some (JInt g) ->
  update_score st (JsonBody (JObject members)) =
    ({| score := score st + grade_delta g; scoring_effect := JInt g;
        current_pose_val := current_pose_val st |},
     jsonify [("score", JInt (score st + grade_delta g)); ("scoringEffect", JInt g)]).
Proof.
intros Hg. rewrite <- score_delta_JInt. apply update_score_reported.
simpl. by rewrite Hg.
Qed.

(** C37: a body that is an object without the key [scoringEffect] is
    treated as a report of grade 1: the score drops by 50 and
    [scoring_effect] becomes 1. *)
Theorem update_score_missing_key (st : State) (members : list (string * json)) :
  members_get members "scoringEffect" = None ->
  (update_score st (JsonBody (JObject members))).1 =
    {| score := score st - 50; scoring_effect := JInt 1;
       current_pose_val := current_pose_val st |}.
Proof.
intros Hg. rewrite (update_score_reported _ _ (JInt 1)); [done|].
simpl. by rewrite Hg.
Qed.

(** C22: [update_current_pose] either accepts the request, when the
    body is an object whose [poseValue] (0 when absent) is a number
    between 0 and 3, sets the current pose to its integer part, which
    is between 0 and 3, and answers 200; or it answers 400 and leaves
    the state as it was.  It changes neither the score nor
    [scoring_effect]. *)
Theorem update_current_pose_cases (st : State) (request : Body) :
  (exists n, selected request = Some n /\ 0 <= n <= 3 /\
     update_current_pose st request =
       (set_current_pose_val n st,
        jsonify [("status", JString "success"); ("current_pose", JInt n)])) \/
  (selected request = None /\
     (update_current_pose st request).1 = st /\
     status (update_current_pose st request).2 = 400).
Proof.
destruct (selected request) as [n|] eqn:E; [left | right].
- exists n. split; [done|]. split; [by eapply selected_range|].
  by apply update_current_pose_selected.
- split; [done|]. by apply update_current_pose_not_selected.
Qed.

Section RunProperties.
Context {C A : Type} `{AngleCalculator C A} `{Number A}.
Implicit Types (st : State) (events : list (Event (C := C))).

(** C5: in every state the server can reach, by any sequence of
    frames and requests, the current pose is one of the poses 0..3 of
    the table. *)
Theorem reachable_State_wf st : reachable (C := C) st -> State_wf st.
Proof.
revert st. apply reachable_invariant; [unfold State_wf; simpl; lia|].
intros st ev. apply handle_wf.
Qed.

(** C11: after any sequence of frames and requests the score is the
    score before plus the rewards of the values the score reports of
    the sequence delivered; frames, pose selections and reads of the
    grade do not change it. *)
Theorem run_score events st :
  score (run events st) = score st + foldr Z.add 0 (event_delta <$> events).
Proof.
revert st. induction events as [|ev events IH]; intros st; [simpl; lia|].
rewrite run_cons, IH, handle_score, fmap_cons. simpl. lia.
Qed.

(** C32: the frame loop is left at the first failed read and only
    there, after one [yield] for every frame read before it, and what
    it leaves in the globals is decided by one frame: the last one in
    which a pose was detected.  [scoring_effect] is the grade of that
    frame against the current pose, whatever the frames before it were
    and however many frames without a pose follow it; with no
    detection at all the state is unchanged.  The reads after the
    failure have no effect. *)
Theorem gen_frames_last_detection
    (frames : list (option (PoseLandmark -> Landmark C)))
    (failure : option (list (CameraRead (C := C)))) st :
  gen_frames (camera_reads frames failure) st =
    (after_detection st (last (omap (fun pl => pl) frames)),
     length frames, bool_decide (is_Some failure)).
Proof.
revert st. induction frames as [|pl frames IH]; intros st.
{ by destruct failure. }
unfold camera_reads in *. cbn [fmap list_fmap app gen_frames length].
rewrite IH, process_frame_after_detection. do 2 f_equal.
destruct pl as [landmarks|]; cbn [omap list_omap]; [rewrite last_cons|];
  by destruct (last _).
Qed.

End RunProperties.

Section FrameProperties.
Context {C A : Type} `{AngleCalculator C A} `{Number A}.

(** C9: in a state whose current pose is in the table, a frame with a
    detected pose is scored against the row of the current pose over a
    population of all eight joints; the grade, an integer from 1 to 4,
    is stored in [scoring_effect] and nothing else changes.  A frame
    without a detected pose changes nothing. *)
Theorem process_frame_grade (st : State) (landmarks : PoseLandmark -> Landmark C) :
  State_wf st ->
  exists row (g : Z),
    POSE_TARGETS !! current_pose_val st = Some row /\
    length (differences (live_angles landmarks) row) = 8%nat /\
    g = score_differences (differences (live_angles landmarks) row) /\
    1 <= g <= 4 /\
    process_frame st (Some landmarks) = set_scoring_effect (JInt g) st /\
    process_frame (C := C) st None = st.
Proof.
intros Hwf. destruct (proj2 (POSE_TARGETS_is_Some _) Hwf) as [row Hrow].
exists row, (score_differences (differences (live_angles landmarks) row)).
split; [done|]. split.
{ apply (differences_length_8 _ _ _ Hrow). intros joint. apply live_angles_is_Some. }
split; [done|]. split; [apply score_differences_range|].
split; [|done]. unfold process_frame, calculate_pose_score. by rewrite Hrow.
Qed.

End FrameProperties.

(** ** The properties at concrete requests *)

Definition report (v : json) : Body := JsonBody (JObject [("scoringEffect", v)]).

Definition select (v : json) : Body := JsonBody (JObject [("poseValue", v)]).

Lemma update_score_grade_witness :
  update_score initial_state (report (JInt 4)) =
    ({| score := 0 + grade_delta 4; scoring_effect := JInt 4; current_pose_val := 0 |},
     jsonify [("score", JInt (0 + grade_delta 4)); ("scoringEffect", JInt 4)]).
Proof. by apply (update_score_grade initial_state). Defined.

Lemma update_score_missing_key_witness :
  (update_score initial_state (JsonBody (JObject []))).1 =
    {| score := 0 - 50; scoring_effect := JInt 1; current_pose_val := 0 |}.
Proof. by apply (update_score_missing_key initial_state). Defined.

Lemma reachable_State_wf_witness :
  State_wf (run (C := R) (A := R)
    [PostCurrentPose (select (JFloat 2.7)); Frame (Some origin_landmarks);
     PostUpdateScore (report (JInt 3))] initial_state).
Proof. apply (reachable_State_wf (C := R) (A := R)). by eexists. Defined.

Lemma process_frame_grade_witness :
  exists g : Z, 1 <= g <= 4 /\
    process_frame (A := R) initial_state (Some origin_landmarks) =
      set_scoring_effect (JInt g) initial_state.
Proof.
destruct (process_frame_grade (A := R) initial_state origin_landmarks)
  as (row & g & _ & _ & _ & Hg & Hframe & _); [unfold State_wf; simpl; lia|].
by exists g.
Defined.

(** The example of the specification: from 0, the grades 1, 1, 4 leave
    the score at -50. *)
Example run_grades_1_1_4 :
  score (run (C := R) (A := R)
    [PostUpdateScore (report (JInt 1)); PostUpdateScore (report (JInt 1));
     PostUpdateScore (report (JInt 4))] initial_state) = -50.
Proof. reflexivity. Qed.

(** Values that are not integer grades: [true] counts as 1, [2.0] as 2,
    a string as nothing; the float [2.7] selects the pose 2 and [true]
    the pose 1. *)
Example score_delta_examples :
  score_delta (JBool true) = -50 /\ score_delta (JFloat 2.0) = 10 /\
  score_delta (JString "4") = 0 /\ score_delta (JInt 7) = 0.
Proof. by vm_compute. Qed.

Example selected_examples :
  selected (select (JFloat 2.7)) = Some 2 /\ selected (select (JBool true)) = Some 1 /\
  selected (select (JInt 4)) = None /\ selected (select (JNonFinite NaN)) = None /\
  selected (JsonBody (JObject [])) = Some 0 /\ selected (JsonBody JNull) = None.
Proof. by vm_compute. Qed.

(** [scoring_effect] need not hold a grade: it starts at 0, and a score
    report stores whatever the request holds. *)
Example scoring_effect_not_a_grade :
  scoring_effect initial_state = JInt 0 /\
  scoring_effect (update_score initial_state (report (JString "great"))).1
    = JString "great".
Proof. by vm_compute. Qed.
