(* ===== verification/SessionSpec.v ===== *)
(** * SessionSpec: the session the server promises, and that the handlers
    and the frame loop implement it

    The specification keeps a session state: the identifier of the
    target pose, the last grade, and the cumulative score.  Four things
    happen to it: a pose is selected, a frame with a detected skeleton
    is graded, a grade is reported and rewarded, or nothing ([Skip]).
    Grades are the four values of [MatchGrade]; what is not a grade is
    [None].

    [abs_state] and [abs_event] read a state and an event of the server
    as a state and an action of the session, and [handle_refines] says
    that the server does to its variables what the session does to its
    state: a forward simulation with a function as the relation. *)

From Stdlib Require Import ZArith QArith Reals Psatz.
From stdpp Require Import gmap strings list.
From S2P Require Import Prelude Numeric PoseTable Scorer ScorerSpec Geometry Landmarks Json Server.

#[local] Open Scope Z_scope.

(** ** The session machine *)

Record SessionState : Type := {
  currentTargetPoseId : Z;
  lastMatchGrade : option MatchGrade;
  cumulativeScore : Z;
}.

Definition session_start : SessionState :=
  {| currentTargetPoseId := 0; lastMatchGrade := None; cumulativeScore := 0 |}.

Definition to_grade (g : Z) : option MatchGrade :=
  match g with
  | 1 => Some Poor
  | 2 => Some Okay
  | 3 => Some Great
  | 4 => Some Perfect
  | _ => None
  end.

Definition delta (g : MatchGrade) : Z :=
  match g with Poor => -50 | Okay => 10 | Great => 30 | Perfect => 50 end.

(** The reducer: a value that is no grade adds nothing. *)
Definition accumulate (total : Z) (g : option MatchGrade) : Z :=
  total + from_option delta 0 g.

Inductive Action : Type :=
| SelectPose (id : Z)
| ScoreFrame (current : gmap string R)
| ReportGrade (g : option MatchGrade)
| Skip.

Definition session_step (s : SessionState) (a : Action) : SessionState :=
  match a with
  | SelectPose id =>
      {| currentTargetPoseId := id; lastMatchGrade := lastMatchGrade s;
         cumulativeScore := cumulativeScore s |}
  | ScoreFrame current =>
      {| currentTargetPoseId := currentTargetPoseId s;
         lastMatchGrade := Some (spec_score current (currentTargetPoseId s));
         cumulativeScore := cumulativeScore s |}
  | ReportGrade g =>
      {| currentTargetPoseId := currentTargetPoseId s; lastMatchGrade := g;
         cumulativeScore := accumulate (cumulativeScore s) g |}
  | Skip => s
  end.

(** Only the poses of the table can be selected. *)
Definition valid_action (a : Action) : Prop :=
  match a with
  | SelectPose id => 0 <= id <= 3
  | _ => True
  end.

Definition session_run (actions : list Action) (s : SessionState) : SessionState :=
  foldl session_step s actions.

Definition session_reachable (s : SessionState) : Prop :=
  exists actions, Forall valid_action actions /\ session_run actions session_start = s.

(** ** Reading the server as a session *)

(** The grade a stored value stands for, by the comparisons of
    [update_score]. *)
Definition json_grade (v : json) : option MatchGrade :=
  if py_eq_int v 1 then Some Poor
  else if py_eq_int v 2 then Some Okay
  else if py_eq_int v 3 then Some Great
  else if py_eq_int v 4 then Some Perfect
  else None.

Definition abs_state (st : State) : SessionState :=
  {| currentTargetPoseId := current_pose_val st;
     lastMatchGrade := json_grade (scoring_effect st);
     cumulativeScore := score st |}.

Section Abstraction.
Context {C A : Type} `{AngleCalculator C A} `{RealNumber A}.

Definition abs_event (ev : Event (C := C)) : Action :=
  match ev with
  | Frame (Some landmarks) => ScoreFrame (to_R <$> live_angles landmarks)
  | Frame None => Skip
  | PostCurrentPose request => from_option SelectPose Skip (selected request)
  | GetScoringEffect => Skip
  | PostUpdateScore request =>
      from_option (fun v => ReportGrade (json_grade v)) Skip (reported request)
  end.

End Abstraction.

(** ** Grades and stored values *)

Lemma session_run_cons a actions s :
  session_run (a :: actions) s = session_run actions (session_step s a).
Proof. done. Qed.

Lemma json_grade_JInt (g : Z) : json_grade (JInt g) = to_grade g.
Proof.
unfold json_grade, to_grade; simpl.
repeat (destruct (Z.eqb_spec g _) as [->|?]; [done|]).
destruct g as [|[[p|p|]|[p|[p|p|]|]|]|]; done.
Qed.

Lemma to_grade_value (g : MatchGrade) : to_grade (grade_value g) = Some g.
Proof. by destruct g. Qed.

Lemma score_delta_json_grade (v : json) : score_delta v = from_option delta 0 (json_grade v).
Proof. unfold score_delta, json_grade. by repeat case_if. Qed.

Section Simulation.
Context {C A : Type} `{AngleCalculator C A} `{RealNumber A}.
Implicit Types (st : State) (ev : Event (C := C)).

Lemma json_grade_calculate_pose_score (c : gmap string A) (k : Z) :
  json_grade (JInt (calculate_pose_score c k)) = Some (spec_score (to_R <$> c) k).
Proof.
rewrite json_grade_JInt. unfold calculate_pose_score, spec_score, reference_table.
rewrite lookup_fmap. destruct (POSE_TARGETS !! k) as [row|] eqn:Hk; [|done]. simpl.
rewrite classify_population; [apply to_grade_value|].
apply POSE_TARGETS_wf in Hk as [-> _]. apply JOINTS_NoDup.
Qed.

Lemma process_frame_abs st (pose_landmarks : option (PoseLandmark -> Landmark C)) :
  abs_state (process_frame st pose_landmarks)
  = session_step (abs_state st) (abs_event (Frame pose_landmarks)).
Proof.
destruct pose_landmarks as [landmarks|]; [|done].
unfold abs_state; simpl. by rewrite json_grade_calculate_pose_score.
Qed.

Lemma abs_event_valid ev : valid_action (abs_event ev).
Proof.
destruct ev as [[lm|]|request| |request]; simpl; try done.
- destruct (selected request) as [n|] eqn:E; [by apply selected_range in E | done].
- by destruct (reported request).
Qed.

(** C3: the server implements the session: reading its variables as a
    session state and its events as actions, every run of the server
    is a run of the session machine, and every action it takes is
    valid (only poses 0..3 are selected). *)
Theorem run_refines (events : list (Event (C := C))) st :
  abs_state (run events st) = session_run (abs_event <$> events) (abs_state st) /\
  Forall valid_action (abs_event <$> events).
Proof.
split; [|apply Forall_fmap, Forall_true, abs_event_valid].
revert st. induction events as [|ev events IH]; intros st; [done|].
rewrite run_cons, fmap_cons, session_run_cons, IH, handle_state. f_equal.
destruct ev as [pl|request| |request]; simpl; try done.
- apply process_frame_abs.
- rewrite update_current_pose_state. by destruct (selected request).
- rewrite update_score_state. destruct (reported request) as [v|]; [|done].
  unfold abs_state, accumulate; simpl. by rewrite score_delta_json_grade.
Qed.

(** The pose the frame loop reads after a run: the last selection that
    was accepted, or the pose before the run. *)
Definition last_selected (events : list (Event (C := C))) (pose : Z) : Z :=
  foldl (fun pose ev =>
    match ev with
    | PostCurrentPose request => default pose (selected request)
    | _ => pose
    end) pose events.

Lemma run_current_pose_val events st :
  current_pose_val (run events st) = last_selected events (current_pose_val st).
Proof.
revert st. induction events as [|ev events IH]; intros st; [done|].
rewrite run_cons, IH, handle_current_pose_val. by destruct ev.
Qed.

(** C20: a grade is computed against the pose that is selected when the
    frame is processed: after any run, a frame with a detected pose
    leaves as last grade the specified grade of its angles for the
    last pose an accepted request selected (the last writer wins). *)
Theorem frame_grade_last_selected (events : list (Event (C := C))) st
    (landmarks : PoseLandmark -> Landmark C) :
  lastMatchGrade (abs_state (run (events ++ [Frame (Some landmarks)]) st))
  = Some (spec_score (to_R <$> live_angles landmarks)
            (last_selected events (current_pose_val st))).
Proof.
rewrite run_snoc, handle_state, process_frame_abs, <- run_current_pose_val. done.
Qed.

End Simulation.

(** ** The session machine on its own *)

Definition Session_wf (s : SessionState) : Prop := 0 <= currentTargetPoseId s <= 3.

Lemma session_step_wf s a : valid_action a -> Session_wf s -> Session_wf (session_step s a).
Proof. by destruct a. Qed.

Lemma session_reachable_wf s : session_reachable s -> Session_wf s.
Proof.
intros (actions & Hvalid & <-). unfold session_run.
assert (Session_wf session_start) as Hs by (unfold Session_wf; simpl; lia).
revert Hs. generalize session_start.
induction Hvalid as [|a actions Ha _ IH]; intros s Hs; [done|].
simpl. by apply IH, session_step_wf.
Qed.

(** A run of reports adds the rewards of the grades reported, in any
    order, and nothing for what is no grade. *)
Lemma session_run_reports (grades : list (option MatchGrade)) s :
  cumulativeScore (session_run (ReportGrade <$> grades) s)
  = cumulativeScore s + foldr Z.add 0 (from_option delta 0 <$> grades).
Proof.
revert s. induction grades as [|g grades IH]; intros s; [simpl; lia|].
rewrite !fmap_cons, session_run_cons, IH. simpl. unfold accumulate. lia.
Qed.
