(* ===== verification/Interleaving.v ===== *)
(** * Interleaving: the handlers and the frame loop as concurrent threads

    Flask serves every request in a thread of its own and the generator
    of [/video_feed] runs in one more; they share the three globals
    with no lock.  Python lets a thread switch happen between any two
    of its accesses to a global: [score -= 50] is a load of [score]
    followed by a store.

    Here every handler invocation and every loop iteration is a thread
    with a program counter ([Pc]) that names the next access to a
    global it makes; [thread_step] performs that access.  A
    configuration holds the globals, the threads and the log of the
    events that started them; [step] starts a thread or lets any
    unfinished thread make one access.

    The atomic model of [Server] is the special case in which every
    thread runs to its end before the next starts
    ([run_thread_alone]).  The invariant of the current pose
    survives every interleaving ([reachable_config_wf]); the
    accounting of the score does not ([lost_update],
    [frame_overrides_report]), but the score stays within 50 points
    for every score report received ([reachable_score_bounded]).

    Fuel: a thread makes at most nine accesses (the store of
    [scoring_effect], four tests, the load and the store of [score],
    the two loads of the response), so [run_thread 9] runs any thread
    to its end. *)

From Stdlib Require Import ZArith QArith Reals Psatz.
From stdpp Require Import gmap strings list relations.
From S2P Require Import Prelude Numeric PoseTable Scorer Geometry Landmarks Json Server.

#[local] Open Scope string_scope.
#[local] Open Scope list_scope.
#[local] Open Scope Z_scope.

(** ** Threads *)

Section Threads.
Context {C A : Type} `{AngleCalculator C A} `{Number A}.

(** Where a thread is: the access to a global it makes next, with the
    locals it needs.  [update_score]: the store of line 304, the tests
    of lines 306-312, the load and the store of [score -= 50] and the
    like, the two loads of line 315.  The frame loop: the load of
    [current_pose_val] in the call of line 265 and the store of line
    266.  [update_current_pose]: the store of line 288 and the load of
    line 289.  [get_scoring_effect]: the load of line 298. *)
Inductive Pc : Type :=
| UpdateScoreStore (v : json)
| UpdateScoreTest (n : Z)
| UpdateScoreLoad (delta : Z)
| UpdateScoreAdd (loaded delta : Z)
| UpdateScoreReturnScore
| UpdateScoreReturnEffect (loaded : Z)
| FrameLoadPose (landmarks : PoseLandmark -> Landmark C)
| FrameStore (pose_score : Z)
| PoseStore (n : Z)
| PoseReturn
| EffectLoad
| Done (response : option Response).

(** The thread of an event, after the part of its code that only
    touches the request: a rejected request answers without an access
    to a global. *)
Definition start (st : State) (ev : Event (C := C)) : Pc :=
  match ev with
  | Frame (Some landmarks) => FrameLoadPose landmarks
  | Frame None => Done None
  | PostCurrentPose request =>
      match selected request with
      | Some n => PoseStore n
      | None => Done (Some (update_current_pose st request).2)
      end
  | GetScoringEffect => EffectLoad
  | PostUpdateScore request =>
      match reported request with
      | Some v => UpdateScoreStore v
      | None => Done (Some (update_score st request).2)
      end
  end.

(** The reward of the branch the test [scoring_effect == n] guards. *)
Definition reward (n : Z) : Z :=
  match n with 1 => -50 | 2 => 10 | 3 => 30 | _ => 50 end.

(** The test that follows a failed test, [None] after the last. *)
Definition next_test (n : Z) : option Z :=
  match n with 1 => Some 2 | 2 => Some 3 | 3 => Some 4 | _ => None end.

(** The next access of a thread to a global. *)
Definition thread_step (st : State) (pc : Pc) : State * Pc :=
  match pc with
  | UpdateScoreStore v => (set_scoring_effect v st, UpdateScoreTest 1)
  | UpdateScoreTest n =>
      if py_eq_int (scoring_effect st) n then (st, UpdateScoreLoad (reward n))
      else
        match next_test n with
        | Some m => (st, UpdateScoreTest m)
        | None => (st, UpdateScoreReturnScore)
        end
  | UpdateScoreLoad delta => (st, UpdateScoreAdd (score st) delta)
  | UpdateScoreAdd loaded delta => (set_score (loaded + delta) st, UpdateScoreReturnScore)
  | UpdateScoreReturnScore => (st, UpdateScoreReturnEffect (score st))
  | UpdateScoreReturnEffect loaded =>
      (st, Done (Some (jsonify [("score", JInt loaded);
                                ("scoringEffect", scoring_effect st)])))
  | FrameLoadPose landmarks =>
      (st, FrameStore (calculate_pose_score (live_angles landmarks) (current_pose_val st)))
  | FrameStore pose_score => (set_scoring_effect (JInt pose_score) st, Done None)
  | PoseStore n => (set_current_pose_val n st, PoseReturn)
  | PoseReturn =>
      (st, Done (Some (jsonify [("status", JString "success");
                                ("current_pose", JInt (current_pose_val st))])))
  | EffectLoad => (st, Done (Some (get_scoring_effect st)))
  | Done response => (st, Done response)
  end.

Definition is_done (pc : Pc) : bool :=
  match pc with Done _ => true | _ => false end.

(** A thread that makes [fuel] accesses with no other thread in
    between. *)
Fixpoint run_thread (fuel : nat) (st : State) (pc : Pc) : State * Pc :=
  match fuel with
  | O => (st, pc)
  | S fuel => run_thread fuel (thread_step st pc).1 (thread_step st pc).2
  end.

#[global] Arguments run_thread : simpl never.

(** The server: the globals, the threads started so far, and the
    events that started them. *)
Record Config : Type := {
  globals : State;
  threads : list Pc;
  spawned : list (Event (C := C));
}.

Definition initial_config : Config :=
  {| globals := initial_state; threads := []; spawned := [] |}.

Inductive step : Config -> Config -> Prop :=
| step_spawn c ev :
    step c {| globals := globals c;
              threads := threads c ++ [start (globals c) ev];
              spawned := spawned c ++ [ev] |}
| step_thread c i pc :
    threads c !! i = Some pc -> is_done pc = false ->
    step c {| globals := (thread_step (globals c) pc).1;
              threads := <[i := (thread_step (globals c) pc).2]> (threads c);
              spawned := spawned c |}.

Definition reachable_config (c : Config) : Prop := rtc step initial_config c.

Definition all_done (c : Config) : Prop := Forall (fun pc => is_done pc = true) (threads c).

End Threads.

(** ** One thread on its own *)

Section Alone.
Context {C A : Type} `{AngleCalculator C A} `{Number A}.
Implicit Types (st : State) (pc : Pc (C := C)) (ev : Event (C := C)).

Lemma run_thread_S fuel st pc :
  run_thread (S fuel) st pc =
    run_thread fuel (thread_step st pc).1 (thread_step st pc).2.
Proof. done. Qed.

Lemma run_thread_Done fuel st response :
  run_thread fuel st (Done response) = (st, Done response).
Proof. induction fuel as [|fuel IH]; [done|]. by rewrite run_thread_S. Qed.

Lemma reward_grade_delta (n : Z) : 1 <= n <= 4 -> reward n = grade_delta n.
Proof.
intros Hn. assert (n = 1 \/ n = 2 \/ n = 3 \/ n = 4) as Hcases by lia.
by destruct Hcases as [->|[->|[->| ->]]].
Qed.

(** The response of [update_score], from the values it loads. *)
Definition score_response (st : State) : option Response :=
  Some (jsonify [("score", JInt (score st)); ("scoringEffect", scoring_effect st)]).

Lemma run_thread_return fuel st :
  run_thread (S (S fuel)) st (UpdateScoreReturnScore (C := C)) = (st, Done (score_response st)).
Proof. rewrite !run_thread_S. simpl. apply run_thread_Done. Qed.

Lemma run_thread_load fuel st delta :
  run_thread (S (S (S (S fuel)))) st (UpdateScoreLoad (C := C) delta) =
    (set_score (score st + delta) st, Done (score_response (set_score (score st + delta) st))).
Proof. rewrite !run_thread_S. simpl. apply run_thread_Done. Qed.

(** The chain of tests and what follows, when no other thread writes:
    the reward of the stored value is added and the response holds the
    new score and the stored value. *)
Lemma run_thread_tests st :
  run_thread 8 st (UpdateScoreTest (C := C) 1) =
    (set_score (score st + score_delta (scoring_effect st)) st,
     Done (score_response (set_score (score st + score_delta (scoring_effect st)) st))).
Proof.
unfold score_delta.
repeat (rewrite run_thread_S; cbn [thread_step]; case_if; cbn [fst snd reward next_test];
        [by rewrite (run_thread_load _ st)|]).
rewrite Z.add_0_r, (run_thread_return _ st). by destruct st.
Qed.

(** The chain of tests up to the load of [score], for a stored value
    that has a reward. *)
Lemma run_thread_to_add st :
  score_delta (scoring_effect st) <> 0 ->
  exists fuel, run_thread fuel st (UpdateScoreTest (C := C) 1) =
    (st, UpdateScoreAdd (score st) (score_delta (scoring_effect st))).
Proof.
unfold score_delta. intros Hdelta.
destruct (py_eq_int (scoring_effect st) 1) eqn:E1; [exists 2%nat|
destruct (py_eq_int (scoring_effect st) 2) eqn:E2; [exists 3%nat|
destruct (py_eq_int (scoring_effect st) 3) eqn:E3; [exists 4%nat|
destruct (py_eq_int (scoring_effect st) 4) eqn:E4; [exists 5%nat|done]]]];
  rewrite !run_thread_S; cbn [thread_step];
  repeat (first [rewrite E1 | rewrite E2 | rewrite E3 | rewrite E4]; simpl); done.
Qed.

(** C13: a handler invocation or a loop iteration that runs to its end
    with no other thread in between does what the atomic step [handle]
    does: nine accesses are enough for every thread, the globals end
    as [handle] leaves them and the response is the one [handle]
    gives. *)
Theorem run_thread_alone st ev :
  run_thread 9 st (start st ev) = ((handle st ev).1, Done (handle st ev).2).
Proof.
rewrite (surjective_pairing (handle st ev)), handle_state.
destruct ev as [[lm|]|request| |request]; cbn [start handle snd].
- by rewrite !run_thread_S.
- by rewrite run_thread_Done.
- rewrite update_current_pose_state. destruct (selected request) as [n|] eqn:E.
  + rewrite (update_current_pose_selected _ _ _ E). by rewrite !run_thread_S.
  + rewrite run_thread_Done. by destruct (update_current_pose st request).
- by rewrite !run_thread_S.
- rewrite update_score_state. destruct (reported request) as [v|] eqn:E.
  + rewrite run_thread_S, (update_score_reported _ _ _ E). cbn [thread_step fst snd].
    by rewrite run_thread_tests.
  + rewrite run_thread_Done. by destruct (update_score st request).
Qed.

End Alone.

(** ** Threads together *)

Section Together.
Context {C A : Type} `{AngleCalculator C A} `{Number A}.
Implicit Types (st : State) (pc : Pc (C := C)) (ev : Event (C := C)) (c : Config (C := C)).

Lemma is_done_thread_step st pc : is_done pc = true -> thread_step st pc = (st, pc).
Proof. by destruct pc. Qed.

(** A thread that is scheduled [fuel] times in a row. *)
Lemma steps_thread fuel c i pc :
  threads c !! i = Some pc ->
  rtc step c {| globals := (run_thread fuel (globals c) pc).1;
                threads := <[i := (run_thread fuel (globals c) pc).2]> (threads c);
                spawned := spawned c |}.
Proof.
revert c pc. induction fuel as [|fuel IH]; intros c pc Hi.
{ cbn [run_thread fst snd]. rewrite list_insert_id by done. by destruct c. }
rewrite run_thread_S. destruct (is_done pc) eqn:Hd.
{ rewrite (is_done_thread_step _ _ Hd). cbn [fst snd]. by apply IH. }
eapply rtc_l; [by apply (step_thread c i pc)|].
set (c' := Build_Config _ _ _).
pose proof (IH c' (thread_step (globals c) pc).2) as Hrest.
cbn [c' globals threads spawned] in Hrest. rewrite list_insert_insert_eq in Hrest.
apply Hrest, list_lookup_insert_eq. by eapply lookup_lt_Some.
Qed.

(** The same, with the state and the place the thread ends in. *)
Lemma schedule fuel i pc st' pc' c c' :
  threads c !! i = Some pc ->
  run_thread fuel (globals c) pc = (st', pc') ->
  rtc step {| globals := st'; threads := <[i := pc']> (threads c); spawned := spawned c |} c' ->
  rtc step c c'.
Proof.
intros Hi Hrun Hrest. etrans; [apply (steps_thread fuel c i pc Hi)|]. by rewrite Hrun.
Qed.

(** The server after one request that ran without interruption. *)
Definition after_request ev : Config (C := C) :=
  let pc := start initial_state ev in
  {| globals := (run_thread 9 initial_state pc).1;
     threads := [(run_thread 9 initial_state pc).2];
     spawned := [ev] |}.

Lemma after_request_reachable ev : reachable_config (after_request ev).
Proof.
eapply rtc_l; [apply (step_spawn initial_config ev)|].
eapply (schedule 9 0 (start initial_state ev)); [reflexivity | apply surjective_pairing |].
apply rtc_refl.
Qed.

(** The invariant of the interleaved server: the current pose is a pose
    of the table, and so is every pose a thread is about to store. *)
Definition Pc_wf pc : Prop :=
  match pc with
  | PoseStore n => 0 <= n <= 3
  | _ => True
  end.

Definition Config_wf c : Prop := State_wf (globals c) /\ Forall Pc_wf (threads c).

Lemma start_wf st ev : Pc_wf (start st ev).
Proof.
destruct ev as [[lm|]|request| |request]; simpl; try done.
- destruct (selected request) as [n|] eqn:E; [by apply selected_range in E | done].
- by destruct (reported request).
Qed.

Lemma thread_step_wf st pc :
  State_wf st -> Pc_wf pc ->
  State_wf (thread_step st pc).1 /\ Pc_wf (thread_step st pc).2.
Proof.
destruct pc; simpl; try done.
repeat case_if; by destruct (next_test n).
Qed.

Lemma step_wf c c' : step c c' -> Config_wf c -> Config_wf c'.
Proof.
intros [c0 ev|c0 i pc Hi Hd] [Hst Hts]; split; simpl; try done.
- apply Forall_app. split; [done|]. constructor; [apply start_wf | done].
- apply thread_step_wf; [done|]. by eapply Forall_lookup_1.
- apply Forall_insert; [done|]. apply thread_step_wf; [done|]. by eapply Forall_lookup_1.
Qed.

(** ** The score under every interleaving

    A thread of [update_score] changes [score] at most once, by at
    most 50, and what it stores is a value of [score] it has loaded
    plus its reward.  The threads that can still store are counted:
    the score, and every value a thread has loaded, is within 50 times
    the number of score reports that are past their store. *)

Definition is_score_report ev : bool :=
  match ev with PostUpdateScore _ => true | _ => false end.

(** A thread of [update_score] that has not reached line 315. *)
Definition pending pc : bool :=
  match pc with
  | UpdateScoreStore _ | UpdateScoreTest _ | UpdateScoreLoad _ | UpdateScoreAdd _ _ => true
  | _ => false
  end.

Definition settled c : Z :=
  Z.of_nat (count_if is_score_report (spawned c)) - Z.of_nat (count_if pending (threads c)).

Definition Pc_bounded (bound : Z) pc : Prop :=
  match pc with
  | UpdateScoreLoad delta => Z.abs delta <= 50
  | UpdateScoreAdd loaded delta => Z.abs loaded <= bound /\ Z.abs delta <= 50
  | _ => True
  end.

Definition Score_bounded c : Prop :=
  Z.abs (score (globals c)) <= 50 * settled c /\
  Forall (Pc_bounded (50 * settled c)) (threads c).

Lemma Pc_bounded_mono bound bound' pc :
  bound <= bound' -> Pc_bounded bound pc -> Pc_bounded bound' pc.
Proof. destruct pc; simpl; lia. Qed.

Lemma reward_bound (n : Z) : Z.abs (reward n) <= 50.
Proof. unfold reward. repeat case_match; lia. Qed.

(** One access: the bound grows by 50 when the thread stops being
    pending, and the score and the thread stay within it. *)
Lemma thread_step_bounded st pc bound :
  Z.abs (score st) <= bound -> Pc_bounded bound pc ->
  let bound' := bound + 50 * (Z.b2z (pending pc) - Z.b2z (pending (thread_step st pc).2)) in
  bound <= bound' /\ Z.abs (score (thread_step st pc).1) <= bound' /\
  Pc_bounded bound' (thread_step st pc).2.
Proof.
intros Hst Hpc. destruct pc; simpl in *; try lia.
repeat case_if; [pose proof (reward_bound n); simpl; lia|].
destruct (next_test n); simpl; lia.
Qed.

Lemma start_bounded st ev bound :
  Pc_bounded bound (start st ev) /\
  Z.b2z (pending (start st ev)) <= Z.b2z (is_score_report ev).
Proof.
destruct ev as [[lm|]|request| |request]; simpl; try done.
- by destruct (selected request).
- by destruct (reported request).
Qed.

Lemma settled_thread c i pc pc' :
  threads c !! i = Some pc ->
  settled {| globals := (thread_step (globals c) pc).1;
             threads := <[i := pc']> (threads c); spawned := spawned c |} =
    settled c + (Z.b2z (pending pc) - Z.b2z (pending pc')).
Proof.
intros Hi. unfold settled. cbn [threads spawned].
pose proof (count_if_insert pending _ _ _ pc' Hi). destruct (pending pc), (pending pc'); simpl; lia.
Qed.

Lemma step_bounded c c' : step c c' -> Score_bounded c -> Score_bounded c'.
Proof.
intros [c0 ev|c0 i pc Hi Hd] [Hst Hts]; unfold Score_bounded.
- destruct (start_bounded (globals c0) ev (50 * settled c0)) as [Hpc Hle].
  assert (settled c0 <= settled (Build_Config (globals c0) (threads c0 ++ [start (globals c0) ev])
            (spawned c0 ++ [ev]))) as Hgrow.
  { unfold settled. cbn [threads spawned]. rewrite !count_if_app. simpl.
    destruct (pending _), (is_score_report ev); simpl in *; lia. }
  cbn [globals threads]. split; [lia|].
  apply (Forall_impl (Pc_bounded (50 * settled c0))); [|intros pc; apply Pc_bounded_mono; lia].
  apply Forall_app. split; [done|]. by constructor.
- rewrite (settled_thread c0 i pc _ Hi). cbn [globals threads].
  pose proof (Forall_lookup_1 _ _ _ _ Hts Hi) as Hpc.
  destruct (thread_step_bounded (globals c0) pc _ Hst Hpc) as (Hle & Hst' & Hpc').
  rewrite Z.mul_add_distr_l. split; [done|]. apply Forall_insert; [|done].
  eapply Forall_impl; [exact Hts|]. intros pc0. by apply Pc_bounded_mono.
Qed.

End Together.

(** * Properties *)

Section Interleavings.
Context {C A : Type} `{AngleCalculator C A} `{Number A}.
Implicit Types (st : State) (c : Config (C := C)).

(** C25: whatever the interleaving, the score stays within 50 points
    for every score report the server has received: an overlap of
    handlers can lose a reward or count the grade of a frame in place
    of the reported one, but it cannot create points.  Each thread
    stores a value of [score] that was within the bound when it was
    loaded, plus one reward. *)
Theorem reachable_score_bounded c :
  reachable_config c ->
  Z.abs (score (globals c)) <= 50 * Z.of_nat (count_if is_score_report (spawned c)).
Proof.
intros Hc. enough (Score_bounded c) as [Hst _] by (unfold settled in Hst; lia).
revert c Hc. apply rtc_ind_r.
- split; [done | constructor].
- intros c c' _ Hstep IH. by eapply step_bounded.
Qed.

(** C10: whatever the interleaving, the current pose is a pose of the
    table: it has one writer, which stores a value it has checked. *)
Theorem reachable_config_wf c : reachable_config c -> State_wf (globals c).
Proof.
intros Hc. enough (Config_wf c) as [Hst _] by done.
revert c Hc. apply rtc_ind_r.
- split; [unfold State_wf; simpl; lia | constructor].
- intros c c' _ Hstep IH. by eapply step_wf.
Qed.

Lemma start_report st (v : json) :
  start (C := C) st (PostUpdateScore (report v)) = UpdateScoreStore v.
Proof. done. Qed.

(** C16: a frame that is processed between the store of line 304 and
    the first test of [update_score] replaces the reported value: the
    report of any value [v] is then rewarded, and answered, as the
    grade of the frame. *)
Theorem frame_overrides_report st (v : json) (landmarks : PoseLandmark -> Landmark C) :
  let g := calculate_pose_score (live_angles landmarks) (current_pose_val st) in
  let st' := {| score := score st + score_delta (JInt g); scoring_effect := JInt g;
                current_pose_val := current_pose_val st |} in
  rtc step {| globals := st; threads := []; spawned := [] |}
    {| globals := st';
       threads := [Done (score_response st'); Done None];
       spawned := [PostUpdateScore (report v); Frame (Some landmarks)] |}.
Proof.
intros g st'.
eapply rtc_l; [apply (step_spawn _ (PostUpdateScore (report v)))|].
eapply rtc_l; [apply (step_spawn _ (Frame (Some landmarks)))|].
apply (schedule 1 0 (UpdateScoreStore v) (set_scoring_effect v st) (UpdateScoreTest 1));
  [reflexivity..|].
apply (schedule 2 1 (FrameLoadPose landmarks) (set_scoring_effect (JInt g) st) (Done None));
  [reflexivity..|].
apply (schedule 8 0 (UpdateScoreTest 1) st' (Done (score_response st')));
  [reflexivity | apply run_thread_tests | reflexivity].
Qed.

(** C6: two score reports that overlap can lose a reward: when both
    load [score] before either stores it, the score ends with the
    reward of one of them only, which no order of the two atomic
    handlers gives. *)
Theorem lost_update st (v1 v2 : json) :
  score_delta v1 <> 0 -> score_delta v2 <> 0 ->
  let e1 := PostUpdateScore (C := C) (report v1) in
  let e2 := PostUpdateScore (C := C) (report v2) in
  let st1 := {| score := score st + score_delta v1; scoring_effect := v2;
                current_pose_val := current_pose_val st |} in
  let st2 := {| score := score st + score_delta v2; scoring_effect := v2;
                current_pose_val := current_pose_val st |} in
  rtc step {| globals := st; threads := []; spawned := [] |}
    {| globals := st1;
       threads := [Done (score_response st1); Done (score_response st2)];
       spawned := [e1; e2] |} /\
  score st1 <> score (run [e1; e2] st) /\
  score st1 <> score (run [e2; e1] st).
Proof.
intros Hv1 Hv2 e1 e2 st1 st2. split.
- destruct (run_thread_to_add (set_scoring_effect v1 st) Hv1) as [fuel Hfuel].
  eapply rtc_l; [apply (step_spawn _ e1)|].
  eapply rtc_l; [apply (step_spawn _ e2)|].
  apply (schedule 1 0 (UpdateScoreStore v1) (set_scoring_effect v1 st) (UpdateScoreTest 1));
    [reflexivity..|].
  eapply (schedule fuel 0 (UpdateScoreTest 1)); [reflexivity | exact Hfuel |].
  apply (schedule 9 1 (UpdateScoreStore v2) st2 (Done (score_response st2)));
    [reflexivity | |].
  { rewrite run_thread_S. cbn [thread_step fst snd]. apply run_thread_tests. }
  apply (schedule 3 0 (UpdateScoreAdd (score st) (score_delta v1)) st1
           (Done (score_response st1))); [reflexivity..|].
  apply rtc_refl.
- rewrite !run_cons, !run_nil, !handle_score. simpl. lia.
Qed.

End Interleavings.

(** ** The properties at concrete configurations *)

Lemma reachable_config_wf_witness :
  State_wf (globals (after_request (C := R) (A := R) (PostCurrentPose (select (JInt 3))))).
Proof. apply (reachable_config_wf (C := R) (A := R)), after_request_reachable. Defined.

Lemma reachable_score_bounded_witness :
  let c := after_request (C := R) (A := R) (PostUpdateScore (report (JInt 4))) in
  score (globals c) = 50 /\
  Z.abs (score (globals c)) <= 50 * Z.of_nat (count_if is_score_report (spawned c)).
Proof.
split; [by vm_compute|]. apply (reachable_score_bounded (C := R) (A := R)), after_request_reachable.
Defined.

Lemma lost_update_witness :
  0 + 50 <> score (run (C := R) (A := R)
    [PostUpdateScore (report (JInt 4)); PostUpdateScore (report (JInt 4))] initial_state).
Proof.
apply (lost_update (C := R) (A := R) initial_state (JInt 4) (JInt 4)); done.
Defined.

